(** * Meeting detection and calendar reconciliation: a shallow embedding

    The development embeds the detection and reconciliation code of the
    WhatsApp calendar audit (keyword-detector.js, llm-analyzer.js, the two
    standalone audit runners, and the TypeScript KeywordDetector,
    LLMAnalyzer, AuditService, GoogleCalendarService, WebhookService,
    GreenApiService and CachedGreenApiService) and proves properties of it.

    Conventions of the embedding.
    - A JavaScript string is the list of its UTF-16 code units ([text]).
      String literals of the sources are written as Rocq strings and decoded
      from UTF-8 by [u].
    - JavaScript numbers that carry confidences and scores are exact
      rationals ([Q]); IEEE rounding is not modelled.  Every confidence the
      detector computes is a sum of at most four capped terms.
    - A [Date] is a local calendar day (days since 1970-01-01) with a minute
      of the day, or the invalid date.  Time zones are not modelled.
    - The wall clock ([new Date()], [Date.now()]) is an explicit argument.
    - try/catch is modelled with [option]: [None] is a thrown exception. *)

From Stdlib Require Import ZArith NArith QArith Qround Qminmax Qabs.
From Stdlib Require Import List String Ascii Bool Lia Lqa.
From Stdlib Require Import Sorting.Sorted Permutation.
Import ListNotations.

Set Warnings "-register-all".
Close Scope Q_scope.
Open Scope string_scope.
Open Scope list_scope.
Open Scope nat_scope.

(* ================================================================== *)
(** * Part I. Definitions *)
(* ================================================================== *)

(** ** JavaScript strings *)

Module Js.

(** A string is a sequence of UTF-16 code units. *)
Definition text := list N.

Definition bytes_of_string (s : string) : list N :=
  map N_of_ascii (list_ascii_of_string s).

(** UTF-8 decoding of a source literal into UTF-16 code units.  Code points
    above the basic plane become a surrogate pair. *)
Fixpoint utf16_of_bytes (bs : list N) : text :=
  match bs with
  | [] => []
  | b :: r =>
    if (b <? 128)%N then b :: utf16_of_bytes r
    else if (b <? 224)%N then
      match r with
      | b2 :: r' => ((b - 192) * 64 + (b2 - 128))%N :: utf16_of_bytes r'
      | [] => [b]
      end
    else if (b <? 240)%N then
      match r with
      | b2 :: b3 :: r' =>
        ((b - 224) * 4096 + (b2 - 128) * 64 + (b3 - 128))%N :: utf16_of_bytes r'
      | _ => [b]
      end
    else
      match r with
      | b2 :: b3 :: b4 :: r' =>
        let cp := ((b - 240) * 262144 + (b2 - 128) * 4096
                   + (b3 - 128) * 64 + (b4 - 128))%N in
        let v := (cp - 65536)%N in
        (55296 + v / 1024)%N :: (56320 + v mod 1024)%N :: utf16_of_bytes r'
      | _ => [b]
      end
  end.

Definition u (s : string) : text := utf16_of_bytes (bytes_of_string s).

Definition text_eqb (a b : text) : bool :=
  if list_eq_dec N.eq_dec a b then true else false.

(** [\d] *)
Definition isDigit (c : N) : bool := ((48 <=? c) && (c <=? 57))%N.

(** [\s], and the characters [String.prototype.trim] removes: WhiteSpace and
    LineTerminator. *)
Definition isSpace (c : N) : bool :=
  (((9 <=? c) && (c <=? 13)) || (c =? 32) || (c =? 160) || (c =? 5760)
   || ((8192 <=? c) && (c <=? 8202)) || (c =? 8232) || (c =? 8233)
   || (c =? 8239) || (c =? 8287) || (c =? 12288) || (c =? 65279))%N.

Definition isUpperAscii (c : N) : bool := ((65 <=? c) && (c <=? 90))%N.
Definition isLowerAscii (c : N) : bool := ((97 <=? c) && (c <=? 122))%N.

Definition lowerUnit (c : N) : N := if isUpperAscii c then (c + 32)%N else c.
Definition upperUnit (c : N) : N := if isLowerAscii c then (c - 32)%N else c.

(** The lower-case form of one character.  Two characters outside ASCII
    have a lower-case form with an ASCII letter in it: the Kelvin sign
    (U+212A) becomes "k", and the capital I with a dot above (U+0130)
    becomes "i" followed by the combining dot (U+0307). *)
Definition lowerUnits (c : N) : text :=
  if (c =? 8490)%N then [107%N]
  else if (c =? 304)%N then [105%N; 775%N]
  else [lowerUnit c].

(** [String.prototype.toLowerCase].  The cased letters outside ASCII, the
    two above apart, are left as they are: their lower-case forms again lie
    outside ASCII and Hebrew, so the search for a keyword of the lists or
    for a token the patterns cut out, which hold ASCII and Hebrew letters
    only (Hebrew has no case), finds the same in both.  A comparison of two
    free texts after [toLowerCase], as the TypeScript service makes of a
    sender's name and an event's title, is case-insensitive on the ASCII
    letters only. *)
Definition toLowerCase (s : text) : text := flat_map lowerUnits s.

Fixpoint dropSpaces (s : text) : text :=
  match s with
  | c :: r => if isSpace c then dropSpaces r else s
  | [] => []
  end.

(** [String.prototype.trim] *)
Definition trim (s : text) : text := rev (dropSpaces (rev (dropSpaces s))).

Fixpoint startsWith (p s : text) : bool :=
  match p, s with
  | [], _ => true
  | a :: p', b :: s' => (a =? b)%N && startsWith p' s'
  | _ :: _, [] => false
  end.

(** [String.prototype.includes] *)
Fixpoint includes (s needle : text) : bool :=
  startsWith needle s ||
  match s with
  | [] => false
  | _ :: r => includes r needle
  end.

(** [s.substring(0, n)] *)
Definition substring0 (n : nat) (s : text) : text := firstn n s.

(** [String.prototype.split] on a separator that is one character of a
    class. *)
Fixpoint splitOn (sep : N -> bool) (cur : text) (s : text) : list text :=
  match s with
  | [] => [rev cur]
  | c :: r => if sep c then rev cur :: splitOn sep [] r
              else splitOn sep (c :: cur) r
  end.

(** Decimal digits of a natural number, as [Number.prototype.toString] prints
    a non-negative integer. *)
Fixpoint digitsFuel (fuel : nat) (n : N) (acc : text) : text :=
  match fuel with
  | O => acc
  | S f =>
    let acc' := (48 + n mod 10)%N :: acc in
    if (n <? 10)%N then acc' else digitsFuel f (n / 10)%N acc'
  end.

Definition natToString (n : N) : text := digitsFuel (S (N.to_nat (N.log2 n))) n [].

(** [String(n).padStart(2, '0')] for a non-negative integer. *)
Definition pad2 (n : N) : text :=
  let s := natToString n in
  if (List.length s <? 2)%nat then 48%N :: s else s.

(** [[...new Set(xs)]]: the distinct elements, in order of first
    occurrence. *)
Fixpoint dedupAux (seen : list text) (xs : list text) : list text :=
  match xs with
  | [] => []
  | x :: r => if existsb (text_eqb x) seen then dedupAux seen r
              else x :: dedupAux (x :: seen) r
  end.

Definition dedup (xs : list text) : list text := dedupAux [] xs.

(** ** parseInt *)

Definition hexValue (c : N) : option Z :=
  if isDigit c then Some (Z.of_N c - 48)%Z
  else if ((97 <=? c) && (c <=? 102))%N then Some (Z.of_N c - 87)%Z
  else if ((65 <=? c) && (c <=? 70))%N then Some (Z.of_N c - 55)%Z
  else None.

Definition digitValue (radix : Z) (c : N) : option Z :=
  match hexValue c with
  | Some v => if (v <? radix)%Z then Some v else None
  | None => None
  end.

(** The longest prefix of digits of the radix, accumulated; [None] when the
    prefix is empty. *)
Fixpoint digitsPrefix (radix : Z) (acc : option Z) (s : text) : option Z :=
  match s with
  | c :: r =>
    match digitValue radix c with
    | Some v =>
      digitsPrefix radix
        (Some (match acc with Some a => a * radix + v | None => v end)%Z) r
    | None => acc
    end
  | [] => acc
  end.

(** [parseInt(s)] with no radix argument: leading white space, a sign, a
    [0x] prefix selecting radix 16; [None] is NaN. *)
Definition parseInt (s : text) : option Z :=
  let s1 := dropSpaces s in
  let '(sign, s2) :=
    match s1 with
    | c :: r => if (c =? 45)%N then ((-1)%Z, r)
                else if (c =? 43)%N then (1%Z, r)
                else (1%Z, s1)
    | [] => (1%Z, s1)
    end in
  let '(radix, s3) :=
    match s2 with
    | c :: x :: r => if (c =? 48)%N && ((x =? 120) || (x =? 88))%N
                     then (16%Z, r) else (10%Z, s2)
    | _ => (10%Z, s2)
    end in
  option_map (Z.mul sign) (digitsPrefix radix None s3).

End Js.

(** ** Regular expressions

    The fragment of ECMAScript regular expressions the sources use, with the
    backtracking semantics of the language: alternatives are tried left to
    right, quantifiers are greedy, and a match is the first one found. *)

Module Regex.
Import Js.

(** Members of a character class [[...]]. *)
Inductive citem :=
| CRange (lo hi : N)
| CSpace            (* \s *)
| CNotSpace         (* \S *)
| CDigit.           (* \d *)

Record cclass := { negated : bool; items : list citem }.

Definition itemHas (i : citem) (c : N) : bool :=
  match i with
  | CRange lo hi => ((lo <=? c) && (c <=? hi))%N
  | CSpace => isSpace c
  | CNotSpace => negb (isSpace c)
  | CDigit => isDigit c
  end.

(** With the [i] flag two characters match when their canonical forms are
    equal.  A character outside ASCII never canonicalises to an ASCII one,
    so for the patterns here this is ASCII case-insensitivity. *)
Definition inClass (icase : bool) (cl : cclass) (c : N) : bool :=
  let has x := existsb (fun i => itemHas i x) (items cl) in
  xorb (negated cl)
       (has c || (icase && (has (upperUnit c) || has (lowerUnit c)))).

Definition sameUnit (icase : bool) (a b : N) : bool :=
  if icase then (upperUnit a =? upperUnit b)%N else (a =? b)%N.

Inductive regex :=
| Eps
| Bol                                            (* ^ *)
| Lit (s : text)                                 (* a literal sequence *)
| Cls (c : cclass)                               (* one character of a class *)
| Rep (c : cclass) (lo : nat) (hi : option nat)  (* class{lo,hi}, greedy *)
| Cat (r1 r2 : regex)
| Alt (r1 r2 : regex)
| Opt (r : regex).                               (* (r)?, greedy *)

(** A literal at the head of the input: the number of units consumed and the
    rest. *)
Fixpoint litAt (icase : bool) (l s : text) : option text :=
  match l, s with
  | [], _ => Some s
  | a :: l', b :: s' => if sameUnit icase a b then litAt icase l' s' else None
  | _ :: _, [] => None
  end.

Definition hiAllows (hi : option nat) : bool :=
  match hi with Some O => false | _ => true end.

(** Greedy repetition of a class: take one more character while allowed,
    and give characters back when the continuation fails. *)
Fixpoint rep (icase : bool) (cl : cclass) (lo : nat) (hi : option nat)
         (pos : nat) (s : text) (k : nat -> text -> option nat) : option nat :=
  let stop := if (lo =? 0)%nat then k pos s else None in
  match s with
  | c :: s' =>
    if hiAllows hi && inClass icase cl c then
      match rep icase cl (Nat.pred lo) (option_map Nat.pred hi) (S pos) s' k with
      | Some e => Some e
      | None => stop
      end
    else stop
  | [] => stop
  end.

(** The matcher of a pattern, in continuation-passing style: [pos] is the
    index of the head of [s] in the whole input, the result is the index
    where the overall match ends. *)
Fixpoint run (icase : bool) (r : regex) (pos : nat) (s : text)
         (k : nat -> text -> option nat) : option nat :=
  match r with
  | Eps => k pos s
  | Bol => if (pos =? 0)%nat then k pos s else None
  | Lit l =>
    match litAt icase l s with
    | Some s' => k (pos + List.length l)%nat s'
    | None => None
    end
  | Cls cl =>
    match s with
    | c :: s' => if inClass icase cl c then k (S pos) s' else None
    | [] => None
    end
  | Rep cl lo hi => rep icase cl lo hi pos s k
  | Cat r1 r2 => run icase r1 pos s (fun p s' => run icase r2 p s' k)
  | Alt r1 r2 =>
    match run icase r1 pos s k with
    | Some e => Some e
    | None => run icase r2 pos s k
    end
  | Opt r1 =>
    match run icase r1 pos s k with
    | Some e => Some e
    | None => k pos s
    end
  end.

(** A match starting exactly at the head of [s]: the index where it ends. *)
Definition matchAt (icase : bool) (r : regex) (pos : nat) (s : text) : option nat :=
  run icase r pos s (fun e _ => Some e).

(** The first match at or after [pos]: where it starts and ends. *)
Fixpoint search (icase : bool) (r : regex) (pos : nat) (s : text)
  : option (nat * nat) :=
  match matchAt icase r pos s with
  | Some e => Some (pos, e)
  | None =>
    match s with
    | [] => None
    | _ :: s' => search icase r (S pos) s'
    end
  end.

(** [RegExp.prototype.test] of a pattern without the [g] flag. *)
Definition test (icase : bool) (r : regex) (s : text) : bool :=
  match search icase r 0 s with Some _ => true | None => false end.

(** All matches of a pattern with the [g] flag, left to right.  [skip] counts
    the characters still covered by the previous match; after an empty match
    the scan moves on by one character. *)
Fixpoint scan (icase : bool) (r : regex) (pos skip : nat) (s : text) : list text :=
  match s with
  | [] =>
    match skip, matchAt icase r pos [] with
    | O, Some _ => [[]]
    | _, _ => []
    end
  | _ :: s' =>
    match skip with
    | S n => scan icase r (S pos) n s'
    | O =>
      match matchAt icase r pos s with
      | Some e => firstn (e - pos) s :: scan icase r (S pos) (e - pos - 1) s'
      | None => scan icase r (S pos) 0 s'
      end
    end
  end.

(** [s.match(r)] for a pattern with the [g] flag: [None] is [null]. *)
Definition matchAll (icase : bool) (r : regex) (s : text) : option (list text) :=
  match scan icase r 0 0 s with
  | [] => None
  | ms => Some ms
  end.

(** [s.match(r)] for a pattern without the [g] flag: the matched substring. *)
Definition matchFirst (icase : bool) (r : regex) (s : text) : option text :=
  match search icase r 0 s with
  | Some (st, e) => Some (firstn (e - st) (skipn st s))
  | None => None
  end.

(** [s.replace(r, '')] for a pattern with the [g] flag. *)
Fixpoint removeScan (icase : bool) (r : regex) (pos skip : nat) (s : text) : text :=
  match s with
  | [] => []
  | c :: s' =>
    match skip with
    | S n => removeScan icase r (S pos) n s'
    | O =>
      match matchAt icase r pos s with
      | Some e =>
        if (e =? pos)%nat then c :: removeScan icase r (S pos) 0 s'
        else removeScan icase r (S pos) (e - pos - 1) s'
      | None => c :: removeScan icase r (S pos) 0 s'
      end
    end
  end.

Definition removeAll (icase : bool) (r : regex) (s : text) : text :=
  removeScan icase r 0 0 s.

(** [s.replace(r, '')] for a pattern without the [g] flag. *)
Definition removeFirst (icase : bool) (r : regex) (s : text) : text :=
  match search icase r 0 s with
  | Some (st, e) => firstn st s ++ skipn e s
  | None => s
  end.

(** Notation of the patterns. *)
Definition lit (s : string) : regex := Lit (u s).
Definition cls (its : list citem) : cclass := {| negated := false; items := its |}.
Definition ncls (its : list citem) : cclass := {| negated := true; items := its |}.
Definition chr (s : string) : citem :=
  match u s with c :: _ => CRange c c | [] => CRange 0 0 end.
Definition rng (a b : string) : citem :=
  match u a, u b with
  | x :: _, y :: _ => CRange x y
  | _, _ => CRange 0 0
  end.
Definition digits (lo hi : nat) : regex := Rep (cls [CDigit]) lo (Some hi).
Definition space1 : regex := Rep (cls [CSpace]) 1 None.      (* \s+ *)
Definition space0 : regex := Rep (cls [CSpace]) 0 None.      (* \s* *)
Definition spaceOpt : regex := Rep (cls [CSpace]) 0 (Some 1). (* \s? *)
Definition plus (c : cclass) : regex := Rep c 1 None.
Definition star (c : cclass) : regex := Rep c 0 None.

Fixpoint cat (rs : list regex) : regex :=
  match rs with
  | [] => Eps
  | [r] => r
  | r :: rs' => Cat r (cat rs')
  end.

Fixpoint alt (rs : list regex) : regex :=
  match rs with
  | [] => Eps
  | [r] => r
  | r :: rs' => Alt r (alt rs')
  end.

Definition alts (ws : list string) : regex := alt (map lit ws).

End Regex.

(** ** Dates *)

Module JsDate.
Local Open Scope Z_scope.

(** Days from 1970-01-01 to day [d] of month [m] (0 = January,
    as in JavaScript) of year [y], in the proleptic Gregorian calendar. *)
Definition daysFromCivil (y m d : Z) : Z :=
  let y' := if m <? 2 then y - 1 else y in
  let era := y' / 400 in
  let yoe := y' mod 400 in
  let mp := (m + 10) mod 12 in
  let doy := (153 * mp + 2) / 5 + d - 1 in
  let doe := yoe * 365 + yoe / 4 - yoe / 100 + doy in
  era * 146097 + doe - 719468.

(** A [Date] object: a local day and a minute of that day, or the invalid
    date (time value NaN). *)
Inductive Date :=
| DateAt (day minute : Z)
| InvalidDate.

(** The range of time values: 100,000,000 days on either side of the epoch
    (the offset of the local time zone at the two ends is left out). *)
Definition maxDay : Z := 100000000.

(** TimeClip *)
Definition mkDate (day minute : Z) : Date :=
  if Z.abs day <=? maxDay then DateAt day minute else InvalidDate.

(** [isNaN(date)] *)
Definition isNaN (d : Date) : bool :=
  match d with DateAt _ _ => false | InvalidDate => true end.

(** [new Date(year, month, day)]; an argument [None] is NaN.  Month and day
    out of their ranges carry over into the neighbouring months and years. *)
Definition newDateYMD (year month day : option Z) : Date :=
  match year, month, day with
  | Some y, Some m, Some d =>
    let yr := if (0 <=? y) && (y <=? 99) then 1900 + y else y in
    let ym := yr + m / 12 in
    let mn := m mod 12 in
    mkDate (daysFromCivil ym mn 1 + d - 1) 0
  | _, _, _ => InvalidDate
  end.

(** [date.getDay()] of a day number: 0 is Sunday; 1970-01-01 was a
    Thursday. *)
Definition weekdayOf (day : Z) : Z := (day + 4) mod 7.

Definition getDay (d : Date) : option Z :=
  match d with DateAt day _ => Some (weekdayOf day) | InvalidDate => None end.

Definition getHours (d : Date) : option Z :=
  match d with DateAt _ m => Some (m / 60) | InvalidDate => None end.

Definition getMinutes (d : Date) : option Z :=
  match d with DateAt _ m => Some (m mod 60) | InvalidDate => None end.

(** [const t = new Date(d); t.setDate(d.getDate() + n)] *)
Definition addDays (n : Z) (d : Date) : Date :=
  match d with
  | DateAt day m => mkDate (day + n) m
  | InvalidDate => InvalidDate
  end.

(** [new Date(d.toDateString())]: midnight of the same local day. *)
Definition dateOnly (d : Date) : Date :=
  match d with
  | DateAt day _ => DateAt day 0
  | InvalidDate => InvalidDate
  end.

(** [a.getTime() === b.getTime()]; NaN is equal to nothing. *)
Definition sameTime (a b : Date) : bool :=
  match a, b with
  | DateAt d1 m1, DateAt d2 m2 => (d1 =? d2) && (m1 =? m2)
  | _, _ => false
  end.

End JsDate.

(** ** JSON values and the coercions applied to them *)

Module Json.
Import Js.

Inductive json :=
| JNull
| JBool (b : bool)
| JNum (q : Q)
| JStr (s : text)
| JArr (vs : list json)
| JObj (members : list (text * json)).

(** A JavaScript number as the analyzer can produce one. *)
Inductive number :=
| Fin (q : Q)
| PInf
| NInf
| NaN.

Definition Qzero (q : Q) : bool := (Qnum q =? 0)%Z.

(** ToBoolean *)
Definition truthy (v : json) : bool :=
  match v with
  | JNull => false
  | JBool b => b
  | JNum q => negb (Qzero q)
  | JStr s => match s with [] => false | _ => true end
  | JArr _ | JObj _ => true
  end.

(** The value of the last member with the key, as [JSON.parse] keeps it. *)
Fixpoint lookup (key : text) (ms : list (text * json)) : option json :=
  match ms with
  | [] => None
  | (k, v) :: r =>
    match lookup key r with
    | Some w => Some w
    | None => if text_eqb k key then Some v else None
    end
  end.

(** [parsed.key] for one of the verdict's keys: [None] is a TypeError (the
    value is null), [Some None] is undefined. *)
Definition getProp (v : json) (key : string) : option (option json) :=
  match v with
  | JNull => None
  | JObj ms => Some (lookup (u key) ms)
  | _ => Some None
  end.

(** [x || undefined]: a truthy value or nothing. *)
Definition orUndefined (x : option json) : option json :=
  match x with
  | Some v => if truthy v then Some v else None
  | None => None
  end.

Definition pow10 (e : Z) : Q := Qpower (10 # 1) e.

(** A run of decimal digits: its value, its length, and the rest. *)
Fixpoint takeDigits (acc : Z) (n : nat) (s : text) : Z * nat * text :=
  match s with
  | c :: r => if isDigit c then takeDigits (acc * 10 + (Z.of_N c - 48))%Z (S n) r
              else (acc, n, s)
  | [] => (acc, n, s)
  end.

(** An exponent part [e[+-]?digits]; without digits there is none. *)
Definition takeExponent (s : text) : option (Z * text) :=
  match s with
  | c :: r =>
    if ((c =? 101) || (c =? 69))%N then
      let '(sg, r1) :=
        match r with
        | 45%N :: r' => ((-1)%Z, r')
        | 43%N :: r' => (1%Z, r')
        | _ => (1%Z, r)
        end in
      let '(e, n, r2) := takeDigits 0 0 r1 in
      if (n =? 0)%nat then None else Some ((sg * e)%Z, r2)
    else None
  | [] => None
  end.

(** A JSON number at the head of the input. *)
Definition jsonNumber (s : text) : option (Q * text) :=
  let '(neg, s1) :=
    match s with 45%N :: r => (true, r) | _ => (false, s) end in
  let ip :=
    match s1 with
    | 48%N :: r => Some (0%Z, r)
    | _ => let '(v, n, r) := takeDigits 0 0 s1 in
           if (n =? 0)%nat then None else Some (v, r)
    end in
  match ip with
  | None => None
  | Some (iv, s2) =>
    let fp :=
      match s2 with
      | 46%N :: r =>
        let '(v, n, r') := takeDigits 0 0 r in
        if (n =? 0)%nat then None else Some (v, n, r')
      | _ => Some (0%Z, 0%nat, s2)
      end in
    match fp with
    | None => None
    | Some (fv, fn, s3) =>
      let mant := (inject_Z iv + inject_Z fv * pow10 (- Z.of_nat fn))%Q in
      let signed := if neg then (- mant)%Q else mant in
      match s3 with
      | c :: _ =>
        if ((c =? 101) || (c =? 69))%N then
          match takeExponent s3 with
          | Some (e, s4) => Some ((signed * pow10 e)%Q, s4)
          | None => None
          end
        else Some (signed, s3)
      | [] => Some (signed, s3)
      end
    end
  end.

(** JSON white space. *)
Fixpoint skipWs (s : text) : text :=
  match s with
  | c :: r => if ((c =? 32) || (c =? 9) || (c =? 10) || (c =? 13))%N
              then skipWs r else s
  | [] => []
  end.

Definition hex4 (a b c d : N) : option N :=
  match hexValue a, hexValue b, hexValue c, hexValue d with
  | Some x, Some y, Some z, Some w =>
    Some (Z.to_N (((x * 16 + y) * 16 + z) * 16 + w))
  | _, _, _, _ => None
  end.

(** The body of a JSON string, after its opening quote. *)
Fixpoint jsonString (acc : text) (s : text) : option (text * text) :=
  match s with
  | [] => None
  | 34%N :: r => Some (rev acc, r)
  | 92%N :: r =>
    match r with
    | 117%N :: a :: b :: c :: d :: r' =>
      match hex4 a b c d with
      | Some x => jsonString (x :: acc) r'
      | None => None
      end
    | e :: r' =>
      let esc (x : N) := jsonString (x :: acc) r' in
      if (e =? 34)%N then esc 34%N
      else if (e =? 92)%N then esc 92%N
      else if (e =? 47)%N then esc 47%N
      else if (e =? 98)%N then esc 8%N
      else if (e =? 102)%N then esc 12%N
      else if (e =? 110)%N then esc 10%N
      else if (e =? 114)%N then esc 13%N
      else if (e =? 116)%N then esc 9%N
      else None
    | [] => None
    end
  | c :: r => if (c <? 32)%N then None else jsonString (c :: acc) r
  end.

(** A JSON value at the head of the input.  [fuel] bounds the depth of the
    recursion over nested values and over the elements of an array or
    object; [parse] starts from the length of the input. *)
Fixpoint value (fuel : nat) (s : text) : option (json * text) :=
  match fuel with
  | O => None
  | S f =>
    match skipWs s with
    | 123%N :: r =>
      match skipWs r with
      | 125%N :: r' => Some (JObj [], r')
      | r' => members f [] r'
      end
    | 91%N :: r =>
      match skipWs r with
      | 93%N :: r' => Some (JArr [], r')
      | r' => elements f [] r'
      end
    | 34%N :: r =>
      match jsonString [] r with
      | Some (str, r') => Some (JStr str, r')
      | None => None
      end
    | 116%N :: 114%N :: 117%N :: 101%N :: r => Some (JBool true, r)
    | 102%N :: 97%N :: 108%N :: 115%N :: 101%N :: r => Some (JBool false, r)
    | 110%N :: 117%N :: 108%N :: 108%N :: r => Some (JNull, r)
    | s' =>
      match jsonNumber s' with
      | Some (q, r) => Some (JNum q, r)
      | None => None
      end
    end
  end
with elements (fuel : nat) (acc : list json) (s : text) : option (json * text) :=
  match fuel with
  | O => None
  | S f =>
    match value f s with
    | Some (v, r) =>
      match skipWs r with
      | 44%N :: r' => elements f (v :: acc) r'
      | 93%N :: r' => Some (JArr (rev (v :: acc)), r')
      | _ => None
      end
    | None => None
    end
  end
with members (fuel : nat) (acc : list (text * json)) (s : text)
  : option (json * text) :=
  match fuel with
  | O => None
  | S f =>
    match skipWs s with
    | 34%N :: r =>
      match jsonString [] r with
      | Some (key, r1) =>
        match skipWs r1 with
        | 58%N :: r2 =>
          match value f r2 with
          | Some (v, r3) =>
            match skipWs r3 with
            | 44%N :: r4 => members f ((key, v) :: acc) r4
            | 125%N :: r4 => Some (JObj (rev ((key, v) :: acc)), r4)
            | _ => None
            end
          | None => None
          end
        | _ => None
        end
      | None => None
      end
    | _ => None
    end
  end.

(** [JSON.parse]: [None] is a SyntaxError. *)
Definition parse (s : text) : option json :=
  match value (S (List.length s)) s with
  | Some (v, r) => match skipWs r with [] => Some v | _ => None end
  | None => None
  end.

(** *** Coercion to a number *)

(** All of [s] as digits of the radix; [None] when [s] is empty or has
    another character. *)
Fixpoint allDigits (radix : Z) (acc : option Z) (s : text) : option Z :=
  match s with
  | [] => acc
  | c :: r =>
    match digitValue radix c with
    | Some v =>
      allDigits radix
        (Some (match acc with Some a => a * radix + v | None => v end)%Z) r
    | None => None
    end
  end.

(** An unsigned decimal literal that is all of [s]: digits with an optional
    fraction and exponent, or a fraction alone. *)
Definition unsignedDecimal (s : text) : option Q :=
  let '(iv, ni, r1) := takeDigits 0 0 s in
  let fp :=
    match r1 with
    | 46%N :: r => let '(fv, nf, r2) := takeDigits 0 0 r in Some (fv, nf, r2, true)
    | _ => Some (0%Z, 0%nat, r1, false)
    end in
  match fp with
  | Some (fv, nf, r2, _) =>
    if ((ni + nf)%nat =? 0)%nat then None
    else
      let mant := (inject_Z iv + inject_Z fv * pow10 (- Z.of_nat nf))%Q in
      match r2 with
      | [] => Some mant
      | _ =>
        match takeExponent r2 with
        | Some (e, []) => Some (mant * pow10 e)%Q
        | _ => None
        end
      end
  | None => None
  end.

(** StringToNumber *)
Definition stringToNumber (s : text) : number :=
  let t := trim s in
  let radixLit (radix : Z) (r : text) :=
    match allDigits radix None r with Some v => Fin (inject_Z v) | None => NaN end in
  match t with
  | [] => Fin 0
  | 48%N :: x :: r =>
    if ((x =? 120) || (x =? 88))%N then radixLit 16%Z r
    else if ((x =? 111) || (x =? 79))%N then radixLit 8%Z r
    else if ((x =? 98) || (x =? 66))%N then radixLit 2%Z r
    else match unsignedDecimal t with Some q => Fin q | None => NaN end
  | _ =>
    let '(neg, body) :=
      match t with
      | 45%N :: r => (true, r)
      | 43%N :: r => (false, r)
      | _ => (false, t)
      end in
    if text_eqb body (u "Infinity") then (if neg then NInf else PInf)
    else
      match unsignedDecimal body with
      | Some q => Fin (if neg then - q else q)%Q
      | None => NaN
      end
  end.

(** ToNumber of a parsed JSON value.  An array is first joined into a
    string: the empty array is the empty string, a one-element array is its
    element as a string, a longer one has a comma in it. *)
Fixpoint toNumber (v : json) : number :=
  match v with
  | JNull => Fin 0
  | JBool b => if b then Fin 1 else Fin 0
  | JNum q => Fin q
  | JStr s => stringToNumber s
  | JArr [] => Fin 0
  | JArr [e] =>
    match e with
    | JNull => Fin 0
    | JNum q => Fin q
    | JStr s => stringToNumber s
    | JArr _ => toNumber e
    | JBool _ | JObj _ => NaN
    end
  | JArr _ => NaN
  | JObj _ => NaN
  end.

(** [Math.max(0, Math.min(100, x))] *)
Definition clamp100 (x : number) : number :=
  match x with
  | Fin q => Fin (Qmax 0 (Qmin 100 q))
  | PInf => Fin 100
  | NInf => Fin 0
  | NaN => NaN
  end.

(** [x > c] on numbers: false on NaN. *)
Definition gtNum (x : number) (c : Q) : bool :=
  match x with
  | Fin q => negb (Qle_bool q c)
  | PInf => true
  | NInf | NaN => false
  end.

End Json.

(** ** Records of the pipeline *)

(** The wall clock: [new Date()] and [Date.now()]. *)
Record Clock := { clockDate : JsDate.Date; clockMs : N }.

(** A chat message as the runner hands it to the detector.  An absent field
    is the empty string, or 0 for the timestamp: the code reads every field
    through [||] or [?.], which treat both alike. *)
Module Message.
Record t := {
  id : Js.text;
  text : Js.text;
  timestamp : Q;
  senderName : Js.text;
  senderId : Js.text;
  chatId : Js.text
}.
End Message.

(** The oracle's verdict (LLMAnalysisResult). *)
Module Verdict.
Record t := {
  isValidMeeting : bool;
  confidence : Json.number;
  extractedDateTime : option Json.json;
  extractedLocation : option Json.json;
  extractedParticipants : option Json.json;
  meetingType : option Json.json;
  reasoning : Json.json
}.
End Verdict.

(** A candidate (DetectedMeeting); the [llm] fields are the ones
    enhanceWithLLMAnalysis adds. *)
Module Detection.
Record t := {
  id : Js.text;
  messageId : Js.text;
  chatId : Js.text;
  senderName : Js.text;
  extractedText : Js.text;
  detectedKeywords : list Js.text;
  detectedDate : option Js.text;
  detectedTime : option Js.text;
  detectedNames : option (list Js.text);
  parsedDates : list JsDate.Date;
  confidence : Q;
  timestamp : Q;
  llmAnalysis : option Verdict.t;
  llmDateTime : option Json.json;
  llmLocation : option Json.json;
  llmParticipants : option Json.json;
  llmMeetingType : option Json.json
}.

Definition withLLM (d : t) (a : option Verdict.t)
           (dt loc parts mt : option Json.json) : t :=
  {| id := id d; messageId := messageId d; chatId := chatId d;
     senderName := senderName d; extractedText := extractedText d;
     detectedKeywords := detectedKeywords d; detectedDate := detectedDate d;
     detectedTime := detectedTime d; detectedNames := detectedNames d;
     parsedDates := parsedDates d; confidence := confidence d;
     timestamp := timestamp d;
     llmAnalysis := a; llmDateTime := dt; llmLocation := loc;
     llmParticipants := parts; llmMeetingType := mt |}.
End Detection.

(** Helpers shared by the detectors. *)
Module Num.

Definition count (n : nat) : Q := inject_Z (Z.of_nat n).

(** [a < b] and [a > b] on numbers. *)
Definition ltb (a b : Q) : bool := negb (Qle_bool b a).
Definition gtb (a b : Q) : bool := negb (Qle_bool a b).

(** [Math.round]: the nearest integer, halves upwards. *)
Definition round (q : Q) : Z := Qfloor (q + (1 # 2))%Q.

(** [x || y] on strings. *)
Definition orText (x y : Js.text) : Js.text :=
  match x with [] => y | _ => x end.

(** [xs[0] || undefined] *)
Definition firstOrUndefined (xs : list Js.text) : option Js.text :=
  match xs with
  | (_ :: _) as x :: _ => Some x
  | _ => None
  end.

(** A string that is present and not empty. *)
Definition truthyText (x : option Js.text) : bool :=
  match x with Some (_ :: _) => true | _ => false end.

(** [Math.abs(a - b) <= w] *)
Definition absWithin (a b w : Q) : bool := Qle_bool (Qabs (a - b)) w.

End Num.

(** [Array.prototype.sort] with a comparator: the stable sort, here by
    insertion.  [le a b] holds when the comparator does not order [b] before
    [a]. *)
Module Arr.

Fixpoint insertBy {A : Type} (le : A -> A -> bool) (x : A) (l : list A) : list A :=
  match l with
  | [] => [x]
  | y :: r => if le x y then x :: l else y :: insertBy le x r
  end.

Definition sortBy {A : Type} (le : A -> A -> bool) (l : list A) : list A :=
  fold_right (insertBy le) [] l.

End Arr.

(** ** keyword-detector.js *)

Module KeywordDetector.
Import Js Regex JsDate.

Definition hebrewKeywords : list string :=
  ["פגישה"; "מפגש"; "פגישת"; "נפגש"; "להיפגש"; "מינוי"; "תור";
   "זמן"; "מחר"; "היום"; "שעה"; "בוקר"; "צהריים"; "אחר הצהריים";
   "ערב"; "ראשון"; "שני"; "שלישי"; "רביעי"; "חמישי"; "שישי";
   "שבת"; "ביום"; "תאריך"; "מועד"; "נקבע"; "קובעים"; "לקבוע";
   "לתאם"; "לזמן"; "טיפול"; "אוסתאופתיה"; "אוסתאופטיה"; "כאב";
   "גב"; "רופא"; "דוקטור"; "קליניקה"; "בדיקה"; "תור"; "בסדר";
   "מוכן"; "מוכנה"; "טוב"; "נהדר"; "מושלם"; "אוקיי"; "מסכים";
   "מסכימה"; "נפלא"; "יופי"; "סבבה"; "תמים"; "נפגשים"; "נפגש";
   "נפגשת"; "ניפגש"; "להיפגש"; "נפגישה"; "אנחנו"; "יהיה";
   "יכול"; "יכולה"; "נוכל"; "בואו"; "תן"; "תני"; "מתאים";
   "מתאימה"; "נוח"; "נוחה"; "אפשר"; "אפשרי"; "אצל"; "בבית";
   "במשרד"; "בקליניקה"; "שם"; "פה"; "כאן"; "ב-"; "את"; "של";
   "עם"; "אחרי"; "לפני"; "במקום"].

Definition englishKeywords : list string :=
  ["meeting"; "meet"; "appointment"; "schedule"; "scheduled";
   "planned"; "today"; "tomorrow"; "monday"; "tuesday";
   "wednesday"; "thursday"; "friday"; "saturday"; "sunday";
   "morning"; "afternoon"; "evening"; "night"; "am"; "pm";
   "time"; "date"; "when"; "at"; "on"; "call"; "visit";
   "doctor"; "clinic"; "checkup"; "treatment"; "therapy";
   "osteopath"; "set"; "confirmed"; "good"; "sounds"; "okay";
   "ok"; "ready"; "fine"; "perfect"; "great"; "awesome"; "cool";
   "works"; "done"; "agreed"; "yes"; "yep"; "sure";
   "absolutely"; "we"; "were"; "are"; "lets"; "let's"; "can";
   "will"; "shall"; "could"; "should"; "see"; "meet"; "there";
   "here"; "place"; "location"; "where"; "when"; "then"; "so";
   "but"; "and"; "the"; "for"; "with"; "at"; "in"; "on"].

Definition numericDate (sep : string) : regex :=
  cat [digits 1 2; lit sep; digits 1 2; lit sep; digits 2 4].

Definition hebrewWeekdays : list string :=
  ["ראשון"; "שני"; "שלישי"; "רביעי"; "חמישי"; "שישי"; "שבת"].

Definition englishWeekdays : list string :=
  ["monday"; "tuesday"; "wednesday"; "thursday"; "friday"; "saturday"; "sunday"].

(** The patterns, each with its [i] flag; all have the [g] flag. *)
Definition datePatterns : list (bool * regex) :=
  [ (false, numericDate "/");
    (false, numericDate "-");
    (false, numericDate ".");
    (true, alts ["tomorrow"; "today"; "מחר"; "היום"]);
    (true, alts englishWeekdays);
    (true, alts hebrewWeekdays);
    (true, alts ["next week"; "השבוע הבא"; "השבוע"]) ].

Definition meridiem : regex := alts ["am"; "pm"; "AM"; "PM"].

(** The abbreviation of "afternoon", written with an ASCII quotation mark. *)
Definition afternoonAbbrev : text := u "אחה" ++ [34%N] ++ u "צ".

Definition timePatterns : list (bool * regex) :=
  [ (false, cat [digits 1 2; lit ":"; digits 2 2; Opt (cat [spaceOpt; meridiem])]);
    (false, cat [digits 1 2; spaceOpt; meridiem]);
    (true, alts ["morning"; "afternoon"; "evening"; "בוקר"; "צהריים";
                 "אחר הצהריים"; "ערב"]);
    (true, cat [digits 1 2; spaceOpt;
                alt [lit "בבוקר"; lit "בצהריים"; lit "בערב"; Lit afternoonAbbrev]]) ].

(** [[A-Za-z֐-׿\s]] *)
Definition nameChars : cclass :=
  cls [rng "A" "Z"; rng "a" "z"; CRange 1424 1535; CSpace].

Definition capitalized : regex :=
  cat [Cls (cls [rng "A" "Z"]); plus (cls [rng "a" "z"])].

Definition hebrewWord : regex := plus (cls [rng "א" "ת"]).

Definition namePatterns : list (bool * regex) :=
  [ (true, cat [lit "with"; space1; plus nameChars]);
    (true, cat [lit "עם"; space1; plus nameChars]);
    (false, cat [capitalized; space1; capitalized]);
    (false, cat [hebrewWord; space1; hebrewWord]) ].

(** The loop of the three extractors: the matches of every pattern, in
    order. *)
Definition allMatches (patterns : list (bool * regex)) (s : text) : list text :=
  flat_map (fun p => match matchAll (fst p) (snd p) s with
                     | Some ms => ms
                     | None => []
                     end) patterns.

Definition extractDates (s : text) : list text := dedup (allMatches datePatterns s).

Definition extractTimes (s : text) : list text := dedup (allMatches timePatterns s).

(** [match.replace(/^(with|עם)\s+/i, '').trim()] *)
Definition cleanName (m : text) : text :=
  trim (removeFirst true (cat [Bol; alts ["with"; "עם"]; space1]) m).

Definition extractNames (s : text) : list text :=
  dedup (filter (fun n => 2 <? List.length n)
                (map cleanName (allMatches namePatterns s))).

(** getNextWeekday: the date [daysUntilTarget] days after now, between 1 and
    7 days ahead. *)
Definition getNextWeekday (now : Date) (targetDay : Z) : Date :=
  match getDay now with
  | Some currentDay =>
    let daysUntilTarget := (targetDay - currentDay)%Z in
    let daysUntilTarget :=
      if (daysUntilTarget <=? 0)%Z then (daysUntilTarget + 7)%Z
      else daysUntilTarget in
    addDays daysUntilTarget now
  | None => InvalidDate
  end.

Definition has (ws : list string) (s : text) : bool := test true (alts ws) s.

(** The date a token stands for; [None] is the [null] a token of no branch
    leaves in [targetDate]. *)
Definition parseDate (now : Date) (dateStr : text) : option Date :=
  if has ["tomorrow"; "מחר"] dateStr then Some (addDays 1 now)
  else if has ["today"; "היום"] dateStr then Some now
  else if has ["monday"; "ראשון"] dateStr then Some (getNextWeekday now 1)
  else if has ["tuesday"; "שני"] dateStr then Some (getNextWeekday now 2)
  else if has ["wednesday"; "שלישי"] dateStr then Some (getNextWeekday now 3)
  else if has ["thursday"; "רביעי"] dateStr then Some (getNextWeekday now 4)
  else if has ["friday"; "חמישי"] dateStr then Some (getNextWeekday now 5)
  else if has ["saturday"; "שישי"] dateStr then Some (getNextWeekday now 6)
  else if has ["sunday"; "שבת"] dateStr then Some (getNextWeekday now 0)
  else
    let sep := cls [chr "/"; chr "-"; chr "."] in
    if test false (cat [digits 1 2; Cls sep; digits 1 2; Cls sep; digits 2 4])
            dateStr
    then
      match splitOn (inClass false sep) [] dateStr with
      | p0 :: p1 :: p2 :: _ =>
        let day := parseInt p0 in
        let month := option_map (fun m => (m - 1)%Z) (parseInt p1) in
        let year := parseInt p2 in
        Some (newDateYMD
                (option_map (fun y => if (y <? 100)%Z then (2000 + y)%Z else y) year)
                month day)
      | _ => None
      end
    else None.

(** parseDates: the valid dates of the tokens, in order. *)
Definition parseDates (now : Date) (dateStrings : list text) : list Date :=
  flat_map (fun dateStr =>
              match parseDate now dateStr with
              | Some targetDate => if isNaN targetDate then [] else [targetDate]
              | None => []
              end) dateStrings.

Definition calculateConfidence (keywordMatches dateMatches timeMatches nameMatches : nat)
  : Q :=
  let confidence := 0%Q in
  let confidence := (confidence + Qmin (Num.count keywordMatches * 0.3) 0.6)%Q in
  let confidence := (confidence + Qmin (Num.count dateMatches * 0.25) 0.4)%Q in
  let confidence := (confidence + Qmin (Num.count timeMatches * 0.2) 0.3)%Q in
  let confidence := (confidence + Qmin (Num.count nameMatches * 0.1) 0.2)%Q in
  Qmin confidence 1.0.

Definition keywordMatches (keywords : list string) (lowered : text) : list text :=
  filter (fun keyword => includes lowered (toLowerCase keyword)) (map u keywords).

Definition analyzeMessage (clock : Clock) (message : Message.t)
  : option Detection.t :=
  let text := toLowerCase (Message.text message) in
  let originalText := Message.text message in
  match trim text with
  | [] => None
  | _ =>
    let hebrewMatches := keywordMatches hebrewKeywords text in
    let englishMatches := keywordMatches englishKeywords text in
    let totalMatches := List.length hebrewMatches + List.length englishMatches in
    if totalMatches =? 0 then None
    else
      let detectedDates := extractDates originalText in
      let detectedTimes := extractTimes originalText in
      let detectedNames := extractNames originalText in
      let confidence :=
        calculateConfidence totalMatches (List.length detectedDates)
                            (List.length detectedTimes) (List.length detectedNames) in
      if Num.ltb confidence 0.1 then None
      else
        let parsedDates := parseDates (clockDate clock) detectedDates in
        Some {| Detection.id :=
                  Num.orText (Message.id message) (u "msg") ++ u "_"
                  ++ natToString (clockMs clock);
                Detection.messageId := Message.id message;
                Detection.chatId := Message.chatId message;
                Detection.senderName :=
                  Num.orText (Message.senderName message) (Message.senderId message);
                Detection.extractedText := originalText;
                Detection.detectedKeywords := hebrewMatches ++ englishMatches;
                Detection.detectedDate := Num.firstOrUndefined detectedDates;
                Detection.detectedTime := Num.firstOrUndefined detectedTimes;
                Detection.detectedNames :=
                  match detectedNames with [] => None | _ => Some detectedNames end;
                Detection.parsedDates := parsedDates;
                Detection.confidence := confidence;
                Detection.timestamp :=
                  if Json.Qzero (Message.timestamp message)
                  then (inject_Z (Z.of_N (clockMs clock)) / 1000)%Q
                  else Message.timestamp message;
                Detection.llmAnalysis := None;
                Detection.llmDateTime := None;
                Detection.llmLocation := None;
                Detection.llmParticipants := None;
                Detection.llmMeetingType := None |}
  end.

(** detectMeetings: the candidates of the messages, in the order of the
    messages. *)
Definition detectMeetings (clock : Clock) (messages : list Message.t)
  : list Detection.t :=
  flat_map (fun message =>
              match analyzeMessage clock message with
              | Some detection => [detection]
              | None => []
              end) messages.

End KeywordDetector.

(** ** llm-analyzer.js *)

Module LLMAnalyzer.
Import Js Regex Json.

(** [this.enabled]: a key is configured when it is not blank. *)
Definition enabled (apiKey : option text) : bool :=
  match apiKey with
  | Some k => 0 <? List.length (trim k)
  | None => false
  end.

Definition failedVerdict : Verdict.t :=
  {| Verdict.isValidMeeting := false;
     Verdict.confidence := Fin 0;
     Verdict.extractedDateTime := None;
     Verdict.extractedLocation := None;
     Verdict.extractedParticipants := None;
     Verdict.meetingType := None;
     Verdict.reasoning := JStr (u "Failed to parse Claude response") |}.

(** The verdict read off a parsed value; [None] is the TypeError of a
    property access on [null]. *)
Definition verdictOf (parsed : json) : option Verdict.t :=
  match getProp parsed "isValidMeeting", getProp parsed "confidence",
        getProp parsed "extractedDateTime", getProp parsed "extractedLocation",
        getProp parsed "extractedParticipants", getProp parsed "meetingType",
        getProp parsed "reasoning" with
  | Some valid, Some conf, Some dt, Some loc, Some parts, Some mt, Some why =>
    Some {| Verdict.isValidMeeting :=
              match valid with Some v => truthy v | None => false end;
            Verdict.confidence :=
              clamp100 (toNumber (match orUndefined conf with
                                  | Some v => v
                                  | None => JNum 0
                                  end));
            Verdict.extractedDateTime := orUndefined dt;
            Verdict.extractedLocation := orUndefined loc;
            Verdict.extractedParticipants := orUndefined parts;
            Verdict.meetingType := orUndefined mt;
            Verdict.reasoning :=
              match orUndefined why with
              | Some v => v
              | None => JStr (u "No reasoning provided")
              end |}
  | _, _, _, _, _, _, _ => None
  end.

(** [/\{[\s\S]*\}/] *)
Definition jsonBlock : regex :=
  cat [lit "{"; star (cls [CSpace; CNotSpace]); lit "}"].

(** The three clean-up replacements and the final trim. *)
Definition stripFences (s : text) : text :=
  trim (removeAll false (cat [Bol; space0; lit "json"; space0])
         (removeAll false (cat [lit "```"; space0])
           (removeAll false (cat [lit "```json"; space0]) s))).

Definition getFallbackResult (detectedMeeting : Detection.t) : Verdict.t :=
  let hasDateTime :=
    Num.truthyText (Detection.detectedDate detectedMeeting)
    || Num.truthyText (Detection.detectedTime detectedMeeting) in
  let confidence := Num.round (Detection.confidence detectedMeeting * 100)%Q in
  {| Verdict.isValidMeeting := hasDateTime && (30 <? confidence)%Z;
     Verdict.confidence := Fin (inject_Z confidence);
     Verdict.extractedDateTime := None;
     Verdict.extractedLocation := None;
     Verdict.extractedParticipants := None;
     Verdict.meetingType := None;
     Verdict.reasoning :=
       JStr (u "Claude analysis unavailable, using fallback keyword detection") |}.

Section Analyzer.

(** [JSON.parse]; [None] is the SyntaxError it throws. *)
Variable jsonParse : text -> option json.

(** The oracle: the text of the first content block of the reply (empty
    when the block is not text); [None] when the request fails. *)
Variable oracle : Detection.t -> list Message.t -> option text.

(** The body of the [try] block of parseAnalysisResponse. *)
Definition tryParse (response : text) : option Verdict.t :=
  let jsonStr := trim response in
  let jsonStr :=
    match matchFirst false jsonBlock response with
    | Some m => m
    | None => jsonStr
    end in
  let jsonStr := stripFences jsonStr in
  match jsonParse jsonStr with
  | Some parsed => verdictOf parsed
  | None => None
  end.

Definition parseAnalysisResponse (response : text) : Verdict.t :=
  match tryParse response with
  | Some v => v
  | None => failedVerdict
  end.

Definition analyzeConversation (apiKey : option text)
           (detectedMeeting : Detection.t) (conversationHistory : list Message.t)
  : Verdict.t :=
  if negb (enabled apiKey) then getFallbackResult detectedMeeting
  else
    match oracle detectedMeeting conversationHistory with
    | Some analysis =>
      match analysis with
      | [] => getFallbackResult detectedMeeting
      | _ => parseAnalysisResponse analysis
      end
    | None => getFallbackResult detectedMeeting
    end.

End Analyzer.

End LLMAnalyzer.

(** ** The TypeScript service: LLMAnalyzer *)

Module LLMAnalyzerTs.
Import Js Regex Json.

Definition getFallbackResult (detectedMeeting : Detection.t) : Verdict.t :=
  let hasDateTime :=
    Num.truthyText (Detection.detectedDate detectedMeeting)
    || Num.truthyText (Detection.detectedTime detectedMeeting) in
  let confidence := Num.round (Detection.confidence detectedMeeting * 100)%Q in
  {| Verdict.isValidMeeting := hasDateTime && (30 <? confidence)%Z;
     Verdict.confidence := Fin (inject_Z confidence);
     Verdict.extractedDateTime := None;
     Verdict.extractedLocation := None;
     Verdict.extractedParticipants := None;
     Verdict.meetingType := None;
     Verdict.reasoning :=
       JStr (u "Claude analysis unavailable, using fallback detection") |}.

Section Analyzer.

Variable jsonParse : text -> option json.
Variable oracle : Detection.t -> list Message.t -> option text.

(** The body of the [try] block: without a brace-delimited block it throws
    at once. *)
Definition tryParse (response : text) : option Verdict.t :=
  match matchFirst false LLMAnalyzer.jsonBlock response with
  | None => None
  | Some jsonMatch =>
    match jsonParse jsonMatch with
    | Some parsed => LLMAnalyzer.verdictOf parsed
    | None => None
    end
  end.

Definition parseAnalysisResponse (response : text) : Verdict.t :=
  match tryParse response with
  | Some v => v
  | None => LLMAnalyzer.failedVerdict
  end.

Definition analyzeConversation (apiKey : option text)
           (detectedMeeting : Detection.t) (conversationHistory : list Message.t)
  : Verdict.t :=
  if negb (LLMAnalyzer.enabled apiKey) then getFallbackResult detectedMeeting
  else
    match oracle detectedMeeting conversationHistory with
    | Some analysis =>
      match analysis with
      | [] => getFallbackResult detectedMeeting
      | _ => parseAnalysisResponse analysis
      end
    | None => getFallbackResult detectedMeeting
    end.

End Analyzer.

End LLMAnalyzerTs.

(** ** The TypeScript service: KeywordDetector and its configuration *)

Module Config.

Definition hebrew : list string :=
  ["פגישה"; "מפגש"; "פגישת"; "נפגש"; "להיפגש"; "מינוי"; "תור";
   "זמן"; "מחר"; "היום"; "שעה"; "בוקר"; "צהריים"; "אחר הצהריים";
   "ערב"; "ראשון"; "שני"; "שלישי"; "רביעי"; "חמישי"; "שישי";
   "שבת"; "ביום"; "תאריך"; "מועד"; "נקבע"; "קובעים"; "טיפול";
   "אוסתאופתיה"; "אוסתאופטיה"; "כאב"; "גב"].

Definition english : list string :=
  ["meeting"; "meet"; "appointment"; "schedule"; "planned";
   "today"; "tomorrow"; "monday"; "tuesday"; "wednesday";
   "thursday"; "friday"; "saturday"; "sunday"; "morning";
   "afternoon"; "evening"; "night"; "am"; "pm"; "time"; "date";
   "when"; "at"; "on"; "call"].

End Config.

Module KeywordDetectorTs.
Import Js Regex.

Definition datePatterns : list (bool * regex) :=
  [ (false, KeywordDetector.numericDate "/");
    (false, KeywordDetector.numericDate "-");
    (false, KeywordDetector.numericDate ".");
    (true, alts ["tomorrow"; "today"; "מחר"; "היום"]);
    (true, alts KeywordDetector.englishWeekdays);
    (true, alts KeywordDetector.hebrewWeekdays) ].

Definition timePatterns : list (bool * regex) :=
  [ (false, cat [digits 1 2; lit ":"; digits 2 2;
                 Opt (cat [spaceOpt; KeywordDetector.meridiem])]);
    (false, cat [digits 1 2; spaceOpt; KeywordDetector.meridiem]);
    (true, alts ["morning"; "afternoon"; "evening"; "בוקר"; "צהריים";
                 "אחר הצהריים"; "ערב"]) ].

Definition namePatterns : list (bool * regex) :=
  [ (true, cat [lit "with"; space1; plus KeywordDetector.nameChars]);
    (true, cat [lit "עם"; space1; plus KeywordDetector.nameChars]);
    (false, cat [Opt (lit "מ"); KeywordDetector.capitalized; space1;
                 KeywordDetector.capitalized]);
    (false, cat [KeywordDetector.hebrewWord; space1; KeywordDetector.hebrewWord]) ].

Definition extractDates (s : text) : list text :=
  dedup (KeywordDetector.allMatches datePatterns s).

Definition extractTimes (s : text) : list text :=
  dedup (KeywordDetector.allMatches timePatterns s).

Definition extractNames (s : text) : list text :=
  dedup (filter (fun n => 2 <? List.length n)
                (map KeywordDetector.cleanName
                     (KeywordDetector.allMatches namePatterns s))).

Definition calculateConfidence (keywordMatches dateMatches timeMatches nameMatches : nat)
  : Q :=
  let confidence := 0%Q in
  let confidence := (confidence + Qmin (Num.count keywordMatches * 0.3) 0.6)%Q in
  let confidence := (confidence + Qmin (Num.count dateMatches * 0.2) 0.4)%Q in
  let confidence := (confidence + Qmin (Num.count timeMatches * 0.15) 0.3)%Q in
  let confidence := (confidence + Qmin (Num.count nameMatches * 0.1) 0.2)%Q in
  Qmin confidence 1.0.

(** The candidate of a message.  The TypeScript DetectedMeeting has no
    parsed dates; the field stays empty. *)
Definition analyzeMessage (clock : Clock) (message : Message.t)
  : option Detection.t :=
  let text := toLowerCase (Message.text message) in
  let originalText := Message.text message in
  let hebrewMatches := KeywordDetector.keywordMatches Config.hebrew text in
  let englishMatches := KeywordDetector.keywordMatches Config.english text in
  let totalMatches := List.length hebrewMatches + List.length englishMatches in
  if totalMatches =? 0 then None
  else
    let detectedDates := extractDates originalText in
    let detectedTimes := extractTimes originalText in
    let detectedNames := extractNames originalText in
    let confidence :=
      calculateConfidence totalMatches (List.length detectedDates)
                          (List.length detectedTimes) (List.length detectedNames) in
    if Num.ltb confidence 0.3 then None
    else
      Some {| Detection.id := Message.id message ++ u "_" ++ natToString (clockMs clock);
              Detection.messageId := Message.id message;
              Detection.chatId := Message.chatId message;
              Detection.senderName := Message.senderName message;
              Detection.extractedText := originalText;
              Detection.detectedKeywords := hebrewMatches ++ englishMatches;
              Detection.detectedDate := Num.firstOrUndefined detectedDates;
              Detection.detectedTime := Num.firstOrUndefined detectedTimes;
              Detection.detectedNames :=
                match detectedNames with [] => None | _ => Some detectedNames end;
              Detection.parsedDates := [];
              Detection.confidence := confidence;
              Detection.timestamp := Message.timestamp message;
              Detection.llmAnalysis := None;
              Detection.llmDateTime := None;
              Detection.llmLocation := None;
              Detection.llmParticipants := None;
              Detection.llmMeetingType := None |}.

Section Detect.

Variable jsonParse : text -> option Json.json.
Variable oracle : Detection.t -> list Message.t -> option text.
Variable apiKey : option text.

Definition getConversationContext (targetMessage : Message.t)
           (allMessages : list Message.t) : list Message.t :=
  let targetTime := Message.timestamp targetMessage in
  let chatMessages :=
    filter (fun msg => text_eqb (Message.chatId msg) (Message.chatId targetMessage))
           allMessages in
  let contextWindow := inject_Z (2 * 60 * 60) in
  Arr.sortBy (fun a b => Qle_bool (Message.timestamp a) (Message.timestamp b))
         (filter (fun msg => Num.absWithin (Message.timestamp msg) targetTime contextWindow)
                 chatMessages).

(** detectMeetings: with the oracle enabled a candidate is kept when the
    verdict is valid with confidence above 50; without it every candidate is
    kept.  Either way the candidate carries the verdict. *)
Definition detectMeetings (clock : Clock) (messages : list Message.t)
  : list Detection.t :=
  flat_map
    (fun message =>
       match analyzeMessage clock message with
       | None => []
       | Some detection =>
         let conversationContext := getConversationContext message messages in
         let llmAnalysis :=
           LLMAnalyzerTs.analyzeConversation jsonParse oracle apiKey detection
                                             conversationContext in
         let detection :=
           Detection.withLLM detection (Some llmAnalysis)
                             (Detection.llmDateTime detection)
                             (Detection.llmLocation detection)
                             (Detection.llmParticipants detection)
                             (Detection.llmMeetingType detection) in
         if LLMAnalyzer.enabled apiKey then
           if Verdict.isValidMeeting llmAnalysis
              && Json.gtNum (Verdict.confidence llmAnalysis) 50
           then [detection] else []
         else [detection]
       end) messages.

End Detect.

End KeywordDetectorTs.

(** ** Calendar events and audit results *)

(** A calendar event.  [startDateTime] and [startDate] hold the [Date] that
    [new Date] makes of [event.start.dateTime] and [event.start.date]; [None]
    is an absent field.  Every event has a [start]. *)
Module Event.
Record t := {
  id : Js.text;
  summary : Js.text;
  startDateTime : option JsDate.Date;
  startDate : option JsDate.Date
}.

(** [new Date(event.start.dateTime || event.start.date)] *)
Definition start (e : t) : JsDate.Date :=
  match startDateTime e with
  | Some d => d
  | None => match startDate e with Some d => d | None => JsDate.InvalidDate end
  end.
End Event.

Module Audit.

Inductive MissingReason :=
| ClaudeConfirmedNotFound (confidence : Json.number)
    (* `Claude confirmed meeting (${confidence}%) not found in calendar` *)
| HighConfidenceNotFound.
    (* 'High confidence meeting not found in calendar' *)

Record Conflict := {
  conflictMeeting : Detection.t;
  conflictingEvent : Event.t;
  conflictReason : Js.text
}.

Record Missing := {
  missingMeeting : Detection.t;
  missingReason : MissingReason
}.

Record Confirmed := {
  confirmedMeeting : Detection.t;
  calendarEvent : Event.t;
  confirmedReason : Js.text
}.

Record Results := {
  conflicts : list Conflict;
  missingEvents : list Missing;
  confirmedMeetings : list Confirmed
}.

(** The three arrays with the two flags of the candidate in hand. *)
Record State := {
  results : Results;
  foundConflict : bool;
  foundMatch : bool
}.

Definition empty : Results :=
  {| conflicts := []; missingEvents := []; confirmedMeetings := [] |}.

Definition pushConflict (st : State) (c : Conflict) : State :=
  {| results := {| conflicts := conflicts (results st) ++ [c];
                   missingEvents := missingEvents (results st);
                   confirmedMeetings := confirmedMeetings (results st) |};
     foundConflict := true;
     foundMatch := foundMatch st |}.

Definition pushConfirmed (st : State) (c : Confirmed) : State :=
  {| results := {| conflicts := conflicts (results st);
                   missingEvents := missingEvents (results st);
                   confirmedMeetings := confirmedMeetings (results st) ++ [c] |};
     foundConflict := foundConflict st;
     foundMatch := true |}.

Definition pushMissing (r : Results) (m : Missing) : Results :=
  {| conflicts := conflicts r;
     missingEvents := missingEvents r ++ [m];
     confirmedMeetings := confirmedMeetings r |}.

(** [d.getHours() + ':' + String(d.getMinutes()).padStart(2, '0')] *)
Definition timeString (d : JsDate.Date) : Js.text :=
  match d with
  | JsDate.DateAt _ m =>
    Js.natToString (Z.to_N (m / 60)) ++ Js.u ":" ++ Js.pad2 (Z.to_N (m mod 60))
  | JsDate.InvalidDate => Js.u "NaN:NaN"
  end.

(** The loose comparison of a time string of the candidate with the start
    time of the event. *)
Definition timesAgree (meetingTime eventTime : Js.text) : bool :=
  Js.includes meetingTime eventTime
  || Js.includes eventTime
       (Regex.removeAll false
          (Regex.Cls (Regex.ncls [Regex.CDigit; Regex.chr ":"])) meetingTime).

(** The body of the same-day branch: [meetingTime] is the time to compare,
    when there is one. *)
Definition classify (st : State) (meeting : Detection.t) (event : Event.t)
           (meetingTime : option Js.text) : State :=
  match meetingTime, Event.startDateTime event with
  | Some ((_ :: _) as mt), Some _ =>
    let eventTime := timeString (Event.start event) in
    if timesAgree mt eventTime then
      pushConfirmed st {| confirmedMeeting := meeting; calendarEvent := event;
                          confirmedReason := Js.u "Time and date match" |}
    else
      pushConflict st {| conflictMeeting := meeting; conflictingEvent := event;
                         conflictReason :=
                           Js.u "Same day, potentially conflicting time" |}
  | _, _ =>
    pushConfirmed st {| confirmedMeeting := meeting; calendarEvent := event;
                        confirmedReason := Js.u "Date match, time unclear" |}
  end.

(** Two dates on the same local day. *)
Definition sameDay (a b : JsDate.Date) : bool :=
  JsDate.sameTime (JsDate.dateOnly a) (JsDate.dateOnly b).

End Audit.

(** ** The audit runner without the oracle *)

Module SimpleRunner.
Import Js JsDate Audit.

Definition checkDate (meeting : Detection.t) (event : Event.t)
           (st : State) (meetingDate : Date) : State :=
  if sameDay meetingDate (Event.start event) then
    classify st meeting event
             (option_map toLowerCase
                (if Num.truthyText (Detection.detectedTime meeting)
                 then Detection.detectedTime meeting else None))
  else st.

Definition checkEvent (meeting : Detection.t) (st : State) (event : Event.t)
  : State :=
  fold_left (checkDate meeting event) (Detection.parsedDates meeting) st.

Definition checkMeeting (calendarEvents : list Event.t) (r : Results)
           (meeting : Detection.t) : Results :=
  let st := {| results := r; foundConflict := false; foundMatch := false |} in
  let st := fold_left (checkEvent meeting) calendarEvents st in
  if negb (foundMatch st) && negb (foundConflict st)
     && Num.gtb (Detection.confidence meeting) 0.4
  then pushMissing (results st)
                   {| missingMeeting := meeting;
                      missingReason := HighConfidenceNotFound |}
  else results st.

Definition analyzeConflictsAndMissing (detectedMeetings : list Detection.t)
           (calendarEvents : list Event.t) : Results :=
  fold_left (checkMeeting calendarEvents) detectedMeetings empty.

End SimpleRunner.

(** ** The audit runner with the oracle *)

Module AuditRunner.
Import Js JsDate Audit.

(** [x / 100] *)
Definition div100 (x : Json.number) : Json.number :=
  match x with
  | Json.Fin q => Json.Fin (q / 100)%Q
  | other => other
  end.

(** [value.includes(':')]: a string has it as a substring, an array as an
    element; on any other value the call throws, and the caller catches. *)
Definition hasColon (v : Json.json) : bool :=
  match v with
  | Json.JStr s => includes s (u ":")
  | Json.JArr vs =>
    existsb (fun e => match e with
                      | Json.JStr s => text_eqb s (u ":")
                      | _ => false
                      end) vs
  | _ => false
  end.

Section Runner.

(** [new Date(value)] of the date and time the oracle extracted. *)
Variable newDate : Json.json -> Date.

Variable jsonParse : text -> option Json.json.
Variable oracle : Detection.t -> list Message.t -> option text.
Variable apiKey : option text.

(** The dates of the candidate: the oracle's when it is a valid date, else
    the detector's. *)
Definition meetingDates (meeting : Detection.t) : list Date :=
  let fromLLM :=
    match Detection.llmDateTime meeting with
    | Some v => let llmDate := newDate v in
                if isNaN llmDate then [] else [llmDate]
    | None => []
    end in
  match fromLLM with
  | [] => Detection.parsedDates meeting
  | _ => fromLLM
  end.

(** The time to compare: the oracle's when its value has a colon, else the
    detector's token in lower case. *)
Definition meetingTimeForComparison (meeting : Detection.t) : option text :=
  let fromLLM :=
    match Detection.llmDateTime meeting with
    | Some v => let llmDate := newDate v in
                if negb (isNaN llmDate) && hasColon v
                then Some (timeString llmDate) else None
    | None => None
    end in
  match fromLLM with
  | Some (_ :: _) => fromLLM
  | _ => if Num.truthyText (Detection.detectedTime meeting)
         then option_map toLowerCase (Detection.detectedTime meeting)
         else None
  end.

Definition checkDate (meeting : Detection.t) (event : Event.t)
           (st : State) (meetingDate : Date) : State :=
  if sameDay meetingDate (Event.start event) then
    classify st meeting event (meetingTimeForComparison meeting)
  else st.

Definition checkEvent (meeting : Detection.t) (st : State) (event : Event.t)
  : State :=
  fold_left (checkDate meeting event) (meetingDates meeting) st.

Definition effectiveConfidence (meeting : Detection.t) : Json.number :=
  match Detection.llmAnalysis meeting with
  | Some a => div100 (Verdict.confidence a)
  | None => Json.Fin (Detection.confidence meeting)
  end.

Definition checkMeeting (calendarEvents : list Event.t) (r : Results)
           (meeting : Detection.t) : Results :=
  let st := {| results := r; foundConflict := false; foundMatch := false |} in
  let st := fold_left (checkEvent meeting) calendarEvents st in
  if negb (foundMatch st) && negb (foundConflict st)
     && Json.gtNum (effectiveConfidence meeting) 0.6
  then
    pushMissing (results st)
      {| missingMeeting := meeting;
         missingReason :=
           match Detection.llmAnalysis meeting with
           | Some a => ClaudeConfirmedNotFound (Verdict.confidence a)
           | None => HighConfidenceNotFound
           end |}
  else results st.

Definition analyzeConflictsAndMissing (detectedMeetings : list Detection.t)
           (calendarEvents : list Event.t) : Results :=
  fold_left (checkMeeting calendarEvents) detectedMeetings empty.

(** getConversationContext *)
Definition getConversationContext (clock : Clock) (targetDetection : Detection.t)
           (allMessages : list Message.t) : list Message.t :=
  let isEmpty (s : text) := match s with [] => true | _ => false end in
  let chatMessages :=
    filter (fun msg =>
              text_eqb (Message.chatId msg) (Detection.chatId targetDetection)
              || text_eqb (Message.senderId msg) (Detection.senderName targetDetection)
              || (isEmpty (Message.chatId msg)
                  && isEmpty (Detection.chatId targetDetection)))
           allMessages in
  let targetTime := Detection.timestamp targetDetection in
  let contextWindow := inject_Z (2 * 60 * 60) in
  let contextMessages :=
    filter (fun msg =>
              let msgTime :=
                if Json.Qzero (Message.timestamp msg)
                then (inject_Z (Z.of_N (clockMs clock)) / 1000)%Q
                else Message.timestamp msg in
              Num.absWithin msgTime targetTime contextWindow)
           chatMessages in
  Arr.sortBy (fun a b => Qle_bool (Message.timestamp a) (Message.timestamp b))
             contextMessages.

(** enhanceWithLLMAnalysis: the candidates the verdict accepts, each with
    the verdict and what it extracted.  analyzeConversation catches its own
    errors, so the [catch] of the loop, which would keep the candidate as it
    is, has nothing to catch. *)
Definition enhanceWithLLMAnalysis (clock : Clock)
           (keywordDetections : list Detection.t) (allMessages : list Message.t)
  : list Detection.t :=
  flat_map
    (fun detection =>
       let conversationContext :=
         getConversationContext clock detection allMessages in
       let llmResult :=
         LLMAnalyzer.analyzeConversation jsonParse oracle apiKey detection
                                         conversationContext in
       if Verdict.isValidMeeting llmResult
          && Json.gtNum (Verdict.confidence llmResult) 50
       then
         [Detection.withLLM detection (Some llmResult)
            (Json.orUndefined (Verdict.extractedDateTime llmResult))
            (Json.orUndefined (Verdict.extractedLocation llmResult))
            (Json.orUndefined (Verdict.extractedParticipants llmResult))
            (Json.orUndefined (Verdict.meetingType llmResult))]
       else [])
    keywordDetections.

End Runner.

End AuditRunner.

(** ** The summary message *)

Module Summary.
Import Js Audit.

Record AuditData := {
  messagesScanned : nat;
  meetingsDetected : nat;
  calendarEvents : nat;
  conflicts : list Conflict;
  missingEvents : list Missing;
  confirmedMeetings : list Confirmed;
  allGood : bool
}.

(** The lines of the message that depend on the audit, each with the values
    the template prints. *)
Inductive Line :=
| ScanResults (messages meetings events : nat)
| AllGood
| ProperlyScheduled (n : nat)
| ConflictsHeader (n : nat)
| ConflictItem (i : nat) (excerpt eventSummary : text)
| MissingHeader (n : nat)
| MissingItem (i : nat) (excerpt : text) (percent : Z)
| AndMore (n : nat)
| NextAudit.

(** [xs.forEach((x, i) => ...)], with the [i + 1] the templates print. *)
Definition numbered {A : Type} (xs : list A) : list (nat * A) :=
  combine (seq 1 (List.length xs)) xs.

(** [xs.slice(0, 3)] *)
Definition top3 {A : Type} (xs : list A) : list A := firstn 3 xs.

Definition conflictLines (cs : list Conflict) : list Line :=
  if 0 <? List.length cs then
    ConflictsHeader (List.length cs)
    :: map (fun ic =>
              ConflictItem (fst ic)
                (substring0 50 (Detection.extractedText (conflictMeeting (snd ic))))
                (Event.summary (conflictingEvent (snd ic))))
           (numbered (top3 cs))
    ++ (if 3 <? List.length cs then [AndMore (List.length cs - 3)] else [])
  else [].

Definition missingLines (ms : list Missing) : list Line :=
  if 0 <? List.length ms then
    MissingHeader (List.length ms)
    :: map (fun im =>
              MissingItem (fst im)
                (substring0 50 (Detection.extractedText (missingMeeting (snd im))))
                (Num.round (Detection.confidence (missingMeeting (snd im)) * 100)%Q))
           (numbered (top3 ms))
    ++ (if 3 <? List.length ms then [AndMore (List.length ms - 3)] else [])
  else [].

(** sendComprehensiveSummary: the message it sends. *)
Definition sendComprehensiveSummary (auditData : AuditData) : list Line :=
  ScanResults (messagesScanned auditData) (meetingsDetected auditData)
              (calendarEvents auditData)
  :: (if allGood auditData then
        AllGood
        :: (if 0 <? List.length (confirmedMeetings auditData)
            then [ProperlyScheduled (List.length (confirmedMeetings auditData))]
            else [])
      else conflictLines (conflicts auditData)
           ++ missingLines (missingEvents auditData))
  ++ [NextAudit].

(** The argument auditUser builds for sendComprehensiveSummary. *)
Definition auditDataOf (messages : list Message.t)
           (detectedMeetings : list Detection.t) (relevantEvents : list Event.t)
           (auditResults : Results) : AuditData :=
  {| messagesScanned := List.length messages;
     meetingsDetected := List.length detectedMeetings;
     calendarEvents := List.length relevantEvents;
     conflicts := Audit.conflicts auditResults;
     missingEvents := Audit.missingEvents auditResults;
     confirmedMeetings := Audit.confirmedMeetings auditResults;
     allGood := (List.length (Audit.conflicts auditResults) =? 0)
                && (List.length (Audit.missingEvents auditResults) =? 0) |}.

End Summary.

(** ** auditUser of the two runners

    Fetching is outside the embedding: [collected] are the messages
    getRecentMessages gathered from the chats before its final sort, and
    [calendar] is getRelevantCalendarEvents as a function of the
    candidates. *)

Module Pipeline.
Import Js Audit.

(** The last step of getRecentMessages: newest first. *)
Definition getRecentMessages (collected : list Message.t) : list Message.t :=
  Arr.sortBy (fun a b => Qle_bool (Message.timestamp b) (Message.timestamp a))
             collected.

Section WithOracle.

Variable newDate : Json.json -> JsDate.Date.
Variable jsonParse : text -> option Json.json.
Variable oracle : Detection.t -> list Message.t -> option text.
Variable apiKey : option text.
Variable calendar : list Detection.t -> list Event.t.

Definition detectedMeetings (clock : Clock) (collected : list Message.t)
  : list Detection.t :=
  let messages := getRecentMessages collected in
  AuditRunner.enhanceWithLLMAnalysis jsonParse oracle apiKey clock
    (KeywordDetector.detectMeetings clock messages) messages.

Definition auditResults (clock : Clock) (collected : list Message.t) : Results :=
  let meetings := detectedMeetings clock collected in
  AuditRunner.analyzeConflictsAndMissing newDate meetings (calendar meetings).

Definition auditData (clock : Clock) (collected : list Message.t)
  : Summary.AuditData :=
  let meetings := detectedMeetings clock collected in
  Summary.auditDataOf (getRecentMessages collected) meetings (calendar meetings)
                      (auditResults clock collected).

Definition auditUser (clock : Clock) (collected : list Message.t)
  : list Summary.Line :=
  Summary.sendComprehensiveSummary (auditData clock collected).

End WithOracle.

(** The runner without the oracle takes the messages as they come. *)
Definition auditUserSimple (calendar : list Detection.t -> list Event.t)
           (clock : Clock) (messages : list Message.t) : list Summary.Line :=
  let detectedMeetings := KeywordDetector.detectMeetings clock messages in
  let relevantEvents := calendar detectedMeetings in
  Summary.sendComprehensiveSummary
    (Summary.auditDataOf messages detectedMeetings relevantEvents
       (SimpleRunner.analyzeConflictsAndMissing detectedMeetings relevantEvents)).

End Pipeline.

(** ** The TypeScript service: AuditService *)

Module AuditService.
Import Js JsDate.

(** A calendar event with its fields as the strings the calendar sends. *)
Module CalendarEvent.
Record t := {
  id : text;
  summary : text;
  description : option text;
  startDateTime : text;
  startDate : option text;
  endDateTime : text;
  endDate : option text;
  attendees : option (list (option text))   (* the display names *)
}.

(** [event.start.dateTime || event.start.date || ''] *)
Definition startText (e : t) : text :=
  Num.orText (startDateTime e) (match startDate e with Some d => d | None => [] end).

Definition endText (e : t) : text :=
  Num.orText (endDateTime e) (match endDate e with Some d => d | None => [] end).
End CalendarEvent.

Inductive Status :=
| missing_from_calendar
| found_in_calendar
| conflict_detected.

Record AuditRecord := {
  id : text;
  detectedMeetingId : text;
  calendarEventId : option text;
  status : Status;
  conflictDetails : option text;
  createdAt : N
}.

Record NotificationSummary := {
  totalMessages : nat;
  detectedMeetings : nat;
  missingFromCalendar : nat;
  conflicts : nat
}.

Section Service.

(** date-fns and the Date constructor, on strings: [parseISO], [new Date],
    [isWithinInterval date {start, end}] and [format date 'HH:mm'].  [None]
    is a thrown RangeError. *)
Variable parseISO : text -> Date.
Variable newDate : text -> Date.
Variable isWithinInterval : Date -> Date -> Date -> option bool.
Variable formatHHmm : Date -> option text.

(** [a.toDateString() === b.toDateString()]: the invalid date prints as
    itself. *)
Definition sameDateString (a b : Date) : bool :=
  match a, b with
  | DateAt d1 _, DateAt d2 _ => (d1 =? d2)%Z
  | InvalidDate, InvalidDate => true
  | _, _ => false
  end.

Definition isDateMatching (detectedDate : text) (event : CalendarEvent.t) : bool :=
  sameDateString (parseISO (CalendarEvent.startText event)) (newDate detectedDate).

Definition mentions (field : option text) (name : text) : bool :=
  match field with
  | Some s => includes (toLowerCase s) (toLowerCase name)
  | None => false
  end.

Definition scoreOf (meeting : Detection.t) (event : CalendarEvent.t) : Q :=
  let nameScore :=
    match Detection.detectedNames meeting with
    | Some names =>
      fold_left
        (fun score name =>
           if mentions (Some (CalendarEvent.summary event)) name
              || mentions (CalendarEvent.description event) name
              || match CalendarEvent.attendees event with
                 | Some ats => existsb (fun displayName => mentions displayName name) ats
                 | None => false
                 end
           then (score + 0.4)%Q else score)
        names 0%Q
    | None => 0%Q
    end in
  let senderScore :=
    match Detection.senderName meeting with
    | [] => nameScore
    | sender =>
      if mentions (Some (CalendarEvent.summary event)) sender
         || mentions (CalendarEvent.description event) sender
      then (nameScore + 0.3)%Q else nameScore
    end in
  match Detection.detectedDate meeting with
  | Some ((_ :: _) as d) =>
    if isDateMatching d event then (senderScore + 0.3)%Q else senderScore
  | _ => senderScore
  end.

Definition findMatchingEvents (meeting : Detection.t)
           (calendarEvents : list CalendarEvent.t) : list CalendarEvent.t :=
  let matches :=
    flat_map (fun event =>
                let score := scoreOf meeting event in
                if Num.gtb score 0.2 then [(event, score)] else [])
             calendarEvents in
  map fst (Arr.sortBy (fun a b => Qle_bool (snd b) (snd a)) matches).

(** The overlap test of one other event; [None] when a date-fns call
    throws. *)
Definition overlaps (matchedEvent event : CalendarEvent.t) : option bool :=
  if text_eqb (CalendarEvent.id event) (CalendarEvent.id matchedEvent)
  then Some false
  else
    let start := parseISO (CalendarEvent.startText matchedEvent) in
    let end_ := parseISO (CalendarEvent.endText matchedEvent) in
    let otherStart := parseISO (CalendarEvent.startText event) in
    let otherEnd := parseISO (CalendarEvent.endText event) in
    match isWithinInterval otherStart start end_ with
    | None => None
    | Some true => Some true
    | Some false =>
      match isWithinInterval otherEnd start end_ with
      | None => None
      | Some true => Some true
      | Some false => isWithinInterval start otherStart otherEnd
      end
    end.

(** [xs.filter(f)] when [f] may throw. *)
Fixpoint filterThrowing {A : Type} (f : A -> option bool) (xs : list A)
  : option (list A) :=
  match xs with
  | [] => Some []
  | x :: r =>
    match f x with
    | None => None
    | Some b =>
      match filterThrowing f r with
      | None => None
      | Some r' => Some (if b then x :: r' else r')
      end
    end
  end.

(** [xs.map(f)] when [f] may throw. *)
Fixpoint mapThrowing {A B : Type} (f : A -> option B) (xs : list A)
  : option (list B) :=
  match xs with
  | [] => Some []
  | x :: r =>
    match f x with
    | None => None
    | Some y =>
      match mapThrowing f r with
      | None => None
      | Some r' => Some (y :: r')
      end
    end
  end.

(** [xs.join(', ')] *)
Fixpoint joinComma (xs : list text) : text :=
  match xs with
  | [] => []
  | [x] => x
  | x :: r => x ++ u ", " ++ joinComma r
  end.

(** detectConflict: the description of the events that overlap the matched
    one; [None] is [undefined], also when something throws. *)
Definition detectConflict (matchedEvent : CalendarEvent.t)
           (allEvents : list CalendarEvent.t) : option text :=
  match filterThrowing (overlaps matchedEvent) allEvents with
  | None => None
  | Some overlappingEvents =>
    if 0 <? List.length overlappingEvents then
      match mapThrowing
              (fun event =>
                 match formatHHmm (parseISO (CalendarEvent.startText event)) with
                 | Some hhmm =>
                   Some (CalendarEvent.summary event ++ u " (" ++ hhmm ++ u ")")
                 | None => None
                 end) overlappingEvents with
      | Some conflictDescriptions =>
        Some (u "Time conflict with: " ++ joinComma conflictDescriptions)
      | None => None
      end
    else None
  end.

Definition auditMeeting (clock : Clock) (meeting : Detection.t)
           (calendarEvents : list CalendarEvent.t) : AuditRecord :=
  let auditId :=
    u "audit_" ++ Detection.id meeting ++ u "_" ++ natToString (clockMs clock) in
  match findMatchingEvents meeting calendarEvents with
  | [] =>
    {| id := auditId; detectedMeetingId := Detection.id meeting;
       calendarEventId := None; status := missing_from_calendar;
       conflictDetails := None; createdAt := clockMs clock |}
  | bestMatch :: _ =>
    match detectConflict bestMatch calendarEvents with
    | Some ((_ :: _) as conflict) =>
      {| id := auditId; detectedMeetingId := Detection.id meeting;
         calendarEventId := Some (CalendarEvent.id bestMatch);
         status := conflict_detected;
         conflictDetails := Some conflict; createdAt := clockMs clock |}
    | _ =>
      {| id := auditId; detectedMeetingId := Detection.id meeting;
         calendarEventId := Some (CalendarEvent.id bestMatch);
         status := found_in_calendar;
         conflictDetails := None; createdAt := clockMs clock |}
    end
  end.

Definition isStatus (s : Status) (r : AuditRecord) : bool :=
  match s, status r with
  | missing_from_calendar, missing_from_calendar
  | found_in_calendar, found_in_calendar
  | conflict_detected, conflict_detected => true
  | _, _ => false
  end.

(** The records performAudit collects, one per candidate. *)
Definition auditRecords (clock : Clock) (meetings : list Detection.t)
           (calendarEvents : list CalendarEvent.t) : list AuditRecord :=
  map (fun meeting => auditMeeting clock meeting calendarEvents) meetings.

Definition createSummary (meetings : list Detection.t)
           (records : list AuditRecord) : NotificationSummary :=
  {| totalMessages := List.length meetings;
     detectedMeetings := List.length meetings;
     missingFromCalendar :=
       List.length (filter (isStatus missing_from_calendar) records);
     conflicts := List.length (filter (isStatus conflict_detected) records) |}.

End Service.

End AuditService.

(** ** JavaScript maps *)

(** A [Map] with string keys: its entries in the order the keys were first
    set.  [set] on a key of the map replaces the value and leaves the entry
    in its place. *)
Module JsMap.
Import Js.

Definition t (V : Type) : Type := list (text * V).

Definition empty {V : Type} : t V := [].

Fixpoint get {V : Type} (key : text) (m : t V) : option V :=
  match m with
  | [] => None
  | (k, v) :: r => if text_eqb k key then Some v else get key r
  end.

Fixpoint set {V : Type} (key : text) (value : V) (m : t V) : t V :=
  match m with
  | [] => [(key, value)]
  | (k, v) :: r =>
    if text_eqb k key then (k, value) :: r else (k, v) :: set key value r
  end.

Definition delete {V : Type} (key : text) (m : t V) : t V :=
  filter (fun kv => negb (text_eqb (fst kv) key)) m.

Definition keys {V : Type} (m : t V) : list text := map fst m.

Definition values {V : Type} (m : t V) : list V := map snd m.

End JsMap.

(** ** The TypeScript service: GoogleCalendarService *)

Module GoogleCalendar.
Import Js AuditService.

(** removeDuplicateEvents: the events are put into a map under their ids,
    and the values of the map are returned. *)
Definition removeDuplicateEvents (events : list CalendarEvent.t)
  : list CalendarEvent.t :=
  let uniqueEvents :=
    fold_left (fun uniqueEvents event =>
                 JsMap.set (CalendarEvent.id event) event uniqueEvents)
              events JsMap.empty in
  JsMap.values uniqueEvents.

End GoogleCalendar.

(** ** The TypeScript service: WebhookService *)

Module Webhook.
Import Js.

(** [this.recentMessages]: the messages kept for each chat. *)
Definition Store : Type := JsMap.t (list Message.t).

(** [chatMessages.shift()] *)
Definition shift {A : Type} (l : list A) : list A := tl l.

(** addToRecentMessages: the message goes to the end of the list of its
    chat, and a list of more than 50 messages loses its first one. *)
Definition addToRecentMessages (message : Message.t) (recentMessages : Store)
  : Store :=
  let chatMessages :=
    match JsMap.get (Message.chatId message) recentMessages with
    | Some l => l
    | None => []
    end in
  let chatMessages := chatMessages ++ [message] in
  let chatMessages :=
    if 50 <? List.length chatMessages then shift chatMessages else chatMessages in
  JsMap.set (Message.chatId message) chatMessages recentMessages.

(** getRecentMessages: the kept messages of the last three days, newest
    first.  [clockMs] is [Date.now()]. *)
Definition getRecentMessages (clock : Clock) (recentMessages : Store)
  : list Message.t :=
  let threeDaysAgo :=
    inject_Z (Z.of_N (clockMs clock / 1000) - 3 * 24 * 60 * 60) in
  let allMessages :=
    flat_map (fun chatMessages =>
                filter (fun msg => Qle_bool threeDaysAgo (Message.timestamp msg))
                       chatMessages)
             (JsMap.values recentMessages) in
  Arr.sortBy (fun a b => Qle_bool (Message.timestamp b) (Message.timestamp a))
             allMessages.

End Webhook.

(** ** The TypeScript service: the cache of CachedGreenApiService *)

Module Cache.
Import Js.

Record CacheEntry (T : Type) := {
  data : T;
  timestamp : N;
  expiry : N
}.
Arguments data {T} _.
Arguments timestamp {T} _.
Arguments expiry {T} _.

Definition t (T : Type) : Type := JsMap.t (CacheEntry T).

Definition DEFAULT_TTL : N := 60 * 1000.
Definition CHATS_TTL : N := 5 * 60 * 1000.

(** isExpired; [now] is [Date.now()]. *)
Definition isExpired {T : Type} (now : N) (entry : CacheEntry T) : bool :=
  (expiry entry <? now)%N.

(** setCache; [now] and [later] are the two readings of the clock it
    takes. *)
Definition setCache {T : Type} (key : text) (value : T) (ttl : N)
           (now later : N) (cache : t T) : t T :=
  JsMap.set key {| data := value; timestamp := now; expiry := (later + ttl)%N |}
            cache.

(** getCache: the data of an entry that has not expired; otherwise [null],
    and the key is deleted. *)
Definition getCache {T : Type} (key : text) (now : N) (cache : t T)
  : option T * t T :=
  match JsMap.get key cache with
  | Some entry =>
    if isExpired now entry then (None, JsMap.delete key cache)
    else (Some (data entry), cache)
  | None => (None, JsMap.delete key cache)
  end.

(** The key of a call without parameters: the name of the method and the
    text of the empty object. *)
Definition getCacheKey0 (method : string) : text := u method ++ u "_{}".

(** getChats.  [fetched] is the outcome of the request, [None] when it
    throws; [now] is the clock when the cache is read, [setNow] and
    [setLater] when the entry is written.  The result [None] is the error
    thrown on.  The list read from the cache is never taken for a missing
    value: an array is true in a condition. *)
Definition getChats {T : Type} (fetched : option (list T))
           (now setNow setLater : N) (cache : t (list T))
  : option (list T) * t (list T) :=
  let cacheKey := getCacheKey0 "getChats" in
  match getCache cacheKey now cache with
  | (Some cached, cache) => (Some cached, cache)
  | (None, cache) =>
    match fetched with
    | Some chats => (Some chats, setCache cacheKey chats CHATS_TTL setNow setLater cache)
    | None =>
      match JsMap.get cacheKey cache with
      | Some staleEntry => (Some (data staleEntry), cache)
      | None => (None, cache)
      end
    end
  end.

(** getLastThreeDaysMessages, with the outcome of
    getLastThreeDaysMessagesWithRateLimit as [fetched]. *)
Definition getLastThreeDaysMessages {T : Type} (fetched : option (list T))
           (now setNow setLater : N) (cache : t (list T))
  : option (list T) * t (list T) :=
  let cacheKey := getCacheKey0 "getLastThreeDaysMessages" in
  match getCache cacheKey now cache with
  | (Some cached, cache) => (Some cached, cache)
  | (None, cache) =>
    match fetched with
    | Some messages =>
      (Some messages, setCache cacheKey messages DEFAULT_TTL setNow setLater cache)
    | None =>
      match JsMap.get cacheKey cache with
      | Some staleEntry => (Some (data staleEntry), cache)
      | None => (None, cache)
      end
    end
  end.

End Cache.

(** ** The TypeScript service: GreenApiService and its caching subclass *)

Module GreenApi.
Import Js.

(** A chat as getChats returns it. *)
Record Chat := { chatId : text; name : text }.

(** [chat.chatId.includes('@g.us')] *)
Definition isGroupChat (chat : Chat) : bool := includes (chatId chat) (u "@g.us").

(** The chats to read: all of them when group chats are included. *)
Definition filterChats (includeGroupChats : bool) (chats : list Chat) : list Chat :=
  if includeGroupChats then chats
  else filter (fun chat => negb (isGroupChat chat)) chats.

(** [msg.timestamp >= threeDaysAgo && msg.text && msg.text.trim().length > 0] *)
Definition isRecent (threeDaysAgo : Q) (msg : Message.t) : bool :=
  Qle_bool threeDaysAgo (Message.timestamp msg)
  && match Message.text msg with [] => false | _ => true end
  && (0 <? List.length (trim (Message.text msg))).

(** [xs.slice(i, j)] *)
Definition slice {A : Type} (i j : nat) (xs : list A) : list A :=
  firstn (j - i) (skipn i xs).

Section Service.

(** getChatHistory of a chat id and a count; [None] when it throws. *)
Variable getChatHistory : text -> nat -> option (list Message.t).

(** getLastThreeDaysMessages of GreenApiService.  [chats] is the outcome of
    getChats, [None] when it throws, and [threeDaysAgo] the time three days
    before now, in seconds.  At most 20 chats are read; a chat with a blank
    id is skipped, and so is one whose history cannot be fetched. *)
Definition getLastThreeDaysMessages (chats : option (list Chat))
           (includeGroupChats : bool) (threeDaysAgo : Q)
  : option (list Message.t) :=
  match chats with
  | None => None
  | Some chats =>
    let filteredChats := filterChats includeGroupChats chats in
    let allMessages :=
      flat_map
        (fun chat =>
           match trim (chatId chat) with
           | [] => []
           | _ =>
             match getChatHistory (chatId chat) 50 with
             | Some messages => filter (isRecent threeDaysAgo) messages
             | None => []
             end
           end)
        (firstn 20 filteredChats) in
    Some (Arr.sortBy (fun a b => Qle_bool (Message.timestamp b) (Message.timestamp a))
                     allMessages)
  end.

(** The recent messages of one chat of a batch; a chat whose history cannot
    be fetched gives none. *)
Definition batchPromise (threeDaysAgo : Q) (chat : Chat) : list Message.t :=
  match getChatHistory (chatId chat) 30 with
  | Some messages => filter (isRecent threeDaysAgo) messages
  | None => []
  end.

Definition batchSize : nat := 5.

(** The loop over the batches: [i] is the index of the first chat of the
    batch.  [fuel] bounds the number of batches. *)
Fixpoint batches (fuel : nat) (threeDaysAgo : Q) (filteredChats : list Chat)
         (i : nat) (allMessages : list Message.t) : list Message.t :=
  match fuel with
  | O => allMessages
  | S fuel' =>
    if (i <? List.length filteredChats) && (i <? 15) then
      let batch := slice i (i + batchSize) filteredChats in
      let batchResults := map (batchPromise threeDaysAgo) batch in
      batches fuel' threeDaysAgo filteredChats (i + batchSize)
              (allMessages ++ List.concat batchResults)
    else allMessages
  end.

(** getLastThreeDaysMessagesWithRateLimit of CachedGreenApiService; the loop
    runs at most three times, which [fuel] 15 allows. *)
Definition getLastThreeDaysMessagesWithRateLimit (chats : option (list Chat))
           (includeGroupChats : bool) (clock : Clock)
  : option (list Message.t) :=
  match chats with
  | None => None
  | Some chats =>
    let threeDaysAgo :=
      (inject_Z (Z.of_N (clockMs clock)) / 1000 - inject_Z (3 * 24 * 60 * 60))%Q in
    let filteredChats := filterChats includeGroupChats chats in
    let allMessages := batches 15 threeDaysAgo filteredChats 0 [] in
    Some (Arr.sortBy (fun a b => Qle_bool (Message.timestamp b) (Message.timestamp a))
                     allMessages)
  end.

End Service.

End GreenApi.

(** ** Notions used to state the properties *)

(** The confidence in hundredths, computed on integers. *)
Module Percent.
Local Open Scope Z_scope.

Definition capped (weight cap : Z) (n : nat) : Z := Z.min (weight * Z.of_nat n) cap.

Definition js (k d t n : nat) : Z :=
  Z.min (capped 30 60 k + capped 25 40 d + capped 20 30 t + capped 10 20 n) 100.

Definition ts (k d t n : nat) : Z :=
  Z.min (capped 30 60 k + capped 20 40 d + capped 15 30 t + capped 10 20 n) 100.

(** The shape both weight tables share: four capped terms, summed and
    capped at 1. *)
Definition score (w1 c1 w2 c2 w3 c3 w4 c4 : Q) (k d t n : nat) : Q :=
  Qmin (0 + Qmin (Num.count k * w1) c1 + Qmin (Num.count d * w2) c2
        + Qmin (Num.count t * w3) c3 + Qmin (Num.count n * w4) c4) 1.0.

End Percent.

Module KeywordCount.
Import Js.

(** The number of keyword matches of a message, in either list. *)
Definition js (message : Message.t) : nat :=
  let text := toLowerCase (Message.text message) in
  List.length (KeywordDetector.keywordMatches KeywordDetector.hebrewKeywords text)
  + List.length (KeywordDetector.keywordMatches KeywordDetector.englishKeywords text).

Definition ts (message : Message.t) : nat :=
  let text := toLowerCase (Message.text message) in
  List.length (KeywordDetector.keywordMatches Config.hebrew text)
  + List.length (KeywordDetector.keywordMatches Config.english text).

End KeywordCount.

(** ** Concrete inputs *)

Module Samples.
Import Js.

(** Monday 16 December 2024, 10:00. *)
Definition monday : Clock :=
  {| clockDate := JsDate.DateAt 20073 600; clockMs := 1734343200000 |}.

Definition messageAt (ts : Q) (ident body : string) : Message.t :=
  {| Message.id := u ident;
     Message.text := u body;
     Message.timestamp := ts;
     Message.senderName := u "Dana";
     Message.senderId := u "972500000000@c.us";
     Message.chatId := u "972500000000@c.us" |}.

Definition meetTomorrow : Message.t :=
  messageAt 1734336000 "m1" "Let's meet tomorrow at 3".

(** The candidate of [meetTomorrow]: six keyword matches ("meet" and "at"
    are listed twice), the date token "tomorrow", no time token and no
    name. *)
Definition meetTomorrowCandidate (clock : Clock) : Detection.t :=
  {| Detection.id := u "m1" ++ u "_" ++ natToString (clockMs clock);
     Detection.messageId := u "m1";
     Detection.chatId := u "972500000000@c.us";
     Detection.senderName := u "Dana";
     Detection.extractedText := u "Let's meet tomorrow at 3";
     Detection.detectedKeywords :=
       map u ["meet"; "tomorrow"; "at"; "let's"; "meet"; "at"];
     Detection.detectedDate := Some (u "tomorrow");
     Detection.detectedTime := None;
     Detection.detectedNames := None;
     Detection.parsedDates :=
       KeywordDetector.parseDates (clockDate clock) [u "tomorrow"];
     Detection.confidence := KeywordDetector.calculateConfidence 6 1 0 0;
     Detection.timestamp := 1734336000;
     Detection.llmAnalysis := None;
     Detection.llmDateTime := None;
     Detection.llmLocation := None;
     Detection.llmParticipants := None;
     Detection.llmMeetingType := None |}.

Definition meetTomorrowAt1500 : Message.t :=
  messageAt 1734336100 "m4" "Let's meet tomorrow at 15:00".

Definition callMe : Message.t := messageAt 1734336200 "m5" "call".

(** Two messages an hour apart, the older one first. *)
Definition older : Message.t := messageAt 1734336000 "m6" "Meeting tomorrow".
Definition newer : Message.t := messageAt 1734339600 "m7" "Meeting tomorrow".

(** A calendar without events. *)
Definition emptyCalendar (_ : list Detection.t) : list Event.t := [].

(** A candidate filled in by hand: two keywords, one date token. *)
Definition callToday : Detection.t :=
  {| Detection.id := u "m2_0";
     Detection.messageId := u "m2";
     Detection.chatId := u "c";
     Detection.senderName := u "Dana";
     Detection.extractedText := u "call today";
     Detection.detectedKeywords := [u "today"; u "call"];
     Detection.detectedDate := Some (u "today");
     Detection.detectedTime := None;
     Detection.detectedNames := None;
     Detection.parsedDates := [JsDate.DateAt 20073 600];
     Detection.confidence := 0.85;
     Detection.timestamp := 1734336000;
     Detection.llmAnalysis := None;
     Detection.llmDateTime := None;
     Detection.llmLocation := None;
     Detection.llmParticipants := None;
     Detection.llmMeetingType := None |}.

(** A candidate with a time token, for Tuesday 17 December 2024. *)
Definition meetAt1500 : Detection.t :=
  {| Detection.id := u "m3_0";
     Detection.messageId := u "m3";
     Detection.chatId := u "c";
     Detection.senderName := u "Dana";
     Detection.extractedText := u "meet tomorrow 15:00";
     Detection.detectedKeywords := [u "meet"; u "tomorrow"];
     Detection.detectedDate := Some (u "tomorrow");
     Detection.detectedTime := Some (u "15:00");
     Detection.detectedNames := None;
     Detection.parsedDates := [JsDate.DateAt 20074 600];
     Detection.confidence := 1.0;
     Detection.timestamp := 1734336000;
     Detection.llmAnalysis := None;
     Detection.llmDateTime := None;
     Detection.llmLocation := None;
     Detection.llmParticipants := None;
     Detection.llmMeetingType := None |}.

(** A candidate with the time token "05:00", for the same Tuesday. *)
Definition meetAt0500 : Detection.t :=
  {| Detection.id := u "m8_0";
     Detection.messageId := u "m8";
     Detection.chatId := u "c";
     Detection.senderName := u "Dana";
     Detection.extractedText := u "meet tomorrow 05:00";
     Detection.detectedKeywords := [u "meet"; u "tomorrow"];
     Detection.detectedDate := Some (u "tomorrow");
     Detection.detectedTime := Some (u "05:00");
     Detection.detectedNames := None;
     Detection.parsedDates := [JsDate.DateAt 20074 600];
     Detection.confidence := 1.0;
     Detection.timestamp := 1734336000;
     Detection.llmAnalysis := None;
     Detection.llmDateTime := None;
     Detection.llmLocation := None;
     Detection.llmParticipants := None;
     Detection.llmMeetingType := None |}.

(** A literal with quotation marks, written with apostrophes. *)
Definition quoted (s : string) : text :=
  map (fun c => if (c =? 39)%N then 34%N else c) (u s).

(** An oracle whose request always fails. *)
Definition noOracle (_ : Detection.t) (_ : list Message.t) : option text := None.

(** A Date constructor that makes the invalid date of every value. *)
Definition noDate (_ : Json.json) : JsDate.Date := JsDate.InvalidDate.

(** date-fns stand-ins for an audit that looks at no event. *)
Definition noParse (_ : text) : JsDate.Date := JsDate.InvalidDate.
Definition noInterval (_ _ _ : JsDate.Date) : option bool := None.
Definition noFormat (_ : JsDate.Date) : option text := None.

(** An event with a start time, on the given day and minute. *)
Definition eventAt (ident title : string) (day minute : Z) : Event.t :=
  {| Event.id := u ident;
     Event.summary := u title;
     Event.startDateTime := Some (JsDate.DateAt day minute);
     Event.startDate := None |}.

(** Tuesday 17 December 2024: two events at 15:00 and one at 10:00. *)
Definition coffee : Event.t := eventAt "e1" "Coffee with Dana" 20074 900.
Definition dentist : Event.t := eventAt "e2" "Dentist" 20074 600.
Definition standup : Event.t := eventAt "e3" "Standup" 20074 900.

End Samples.

(** ** The matcher, record by record *)

Module Matcher.
Import Js JsDate Audit.

(** What the same-day branch records for a candidate and an event. *)
Definition Outcome : Type := (Confirmed + Conflict)%type.

Definition outcome (meeting : Detection.t) (event : Event.t)
           (meetingTime : option text) : Outcome :=
  match meetingTime, Event.startDateTime event with
  | Some ((_ :: _) as mt), Some _ =>
    if timesAgree mt (timeString (Event.start event)) then
      inl {| confirmedMeeting := meeting; calendarEvent := event;
             confirmedReason := u "Time and date match" |}
    else
      inr {| conflictMeeting := meeting; conflictingEvent := event;
             conflictReason := u "Same day, potentially conflicting time" |}
  | _, _ =>
    inl {| confirmedMeeting := meeting; calendarEvent := event;
           confirmedReason := u "Date match, time unclear" |}
  end.

Definition record (st : State) (o : Outcome) : State :=
  match o with
  | inl c => pushConfirmed st c
  | inr c => pushConflict st c
  end.

Fixpoint lefts (os : list Outcome) : list Confirmed :=
  match os with
  | [] => []
  | inl c :: r => c :: lefts r
  | inr _ :: r => lefts r
  end.

Fixpoint rights (os : list Outcome) : list Conflict :=
  match os with
  | [] => []
  | inl _ :: r => rights r
  | inr c :: r => c :: rights r
  end.

(** The candidate and the event an outcome is about. *)
Definition about (o : Outcome) : Detection.t * Event.t :=
  match o with
  | inl c => (confirmedMeeting c, calendarEvent c)
  | inr c => (conflictMeeting c, conflictingEvent c)
  end.

Definition isNil {A : Type} (l : list A) : bool :=
  match l with [] => true | _ => false end.

Section Generic.

(** The two runners differ in the dates and the time they read off a
    candidate, and in when and how they report it missing. *)
Variable dates : Detection.t -> list Date.
Variable timeOf : Detection.t -> option text.
Variable wantsMissing : Detection.t -> bool.
Variable missingRecord : Detection.t -> Missing.

Definition checkMeeting (calendarEvents : list Event.t) (r : Results)
           (meeting : Detection.t) : Results :=
  let st := {| results := r; foundConflict := false; foundMatch := false |} in
  let st :=
    fold_left
      (fun st event =>
         fold_left
           (fun st meetingDate =>
              if sameDay meetingDate (Event.start event)
              then classify st meeting event (timeOf meeting)
              else st)
           (dates meeting) st)
      calendarEvents st in
  if negb (foundMatch st) && negb (foundConflict st) && wantsMissing meeting
  then pushMissing (results st) (missingRecord meeting)
  else results st.

Definition analyze (detectedMeetings : list Detection.t)
           (calendarEvents : list Event.t) : Results :=
  fold_left (checkMeeting calendarEvents) detectedMeetings empty.

(** The outcomes of a candidate: one per event and per date of the
    candidate on the event's day, in the order of the loops. *)
Definition eventOutcomes (meeting : Detection.t) (event : Event.t)
  : list Outcome :=
  map (fun _ => outcome meeting event (timeOf meeting))
      (filter (fun d => sameDay d (Event.start event)) (dates meeting)).

Definition meetingOutcomes (calendarEvents : list Event.t)
           (meeting : Detection.t) : list Outcome :=
  flat_map (eventOutcomes meeting) calendarEvents.

Definition missingFor (calendarEvents : list Event.t) (meeting : Detection.t)
  : list Missing :=
  if isNil (meetingOutcomes calendarEvents meeting) && wantsMissing meeting
  then [missingRecord meeting] else [].

(** A candidate has an event on one of its days. *)
Definition dayMatch (meeting : Detection.t) (event : Event.t) : Prop :=
  exists d, In d (dates meeting) /\ sameDay d (Event.start event) = true.

End Generic.

(** The parameters of the two runners. *)
Definition simpleTime (meeting : Detection.t) : option text :=
  option_map toLowerCase
    (if Num.truthyText (Detection.detectedTime meeting)
     then Detection.detectedTime meeting else None).

Definition simpleWants (meeting : Detection.t) : bool :=
  Num.gtb (Detection.confidence meeting) 0.4.

Definition simpleMissing (meeting : Detection.t) : Missing :=
  {| missingMeeting := meeting; missingReason := HighConfidenceNotFound |}.

Definition oracleWants (meeting : Detection.t) : bool :=
  Json.gtNum (AuditRunner.effectiveConfidence meeting) 0.6.

Definition oracleMissing (meeting : Detection.t) : Missing :=
  {| missingMeeting := meeting;
     missingReason :=
       match Detection.llmAnalysis meeting with
       | Some a => ClaudeConfirmedNotFound (Verdict.confidence a)
       | None => HighConfidenceNotFound
       end |}.

(** A record of the results is about the candidate. *)
Definition names (r : Results) (meeting : Detection.t) : Prop :=
  (exists c, In c (conflicts r) /\ conflictMeeting c = meeting)
  \/ (exists x, In x (missingEvents r) /\ missingMeeting x = meeting)
  \/ (exists c, In c (confirmedMeetings r) /\ confirmedMeeting c = meeting).

End Matcher.

(** ** Statements about the matcher *)

Module MatcherSpec.
Import Audit Matcher.

(** The outcome of a candidate against an event is in the results, and the
    results hold no record of the other kind for the two. *)
Definition recordedOnce (r : Results) (o : Outcome)
           (meeting : Detection.t) (event : Event.t) : Prop :=
  match o with
  | inl c =>
    In c (confirmedMeetings r)
    /\ forall x, In x (conflicts r) ->
                 ~ (conflictMeeting x = meeting /\ conflictingEvent x = event)
  | inr c =>
    In c (conflicts r)
    /\ forall x, In x (confirmedMeetings r) ->
                 ~ (confirmedMeeting x = meeting /\ calendarEvent x = event)
  end.

(** No event is on a day of the candidate. *)
Definition noDayMatch (dates : Detection.t -> list JsDate.Date)
           (meeting : Detection.t) (events : list Event.t) : Prop :=
  forall e d, In e events -> In d (dates meeting) ->
              sameDay d (Event.start e) = false.

End MatcherSpec.

(** ** Statements about date resolution *)

Module DateSpec.
Import Js Regex.

(** The word groups parseDates tests, in order. *)
Definition wordGroups : list (list string) :=
  [ ["tomorrow"; "מחר"]; ["today"; "היום"]; ["monday"; "ראשון"];
    ["tuesday"; "שני"]; ["wednesday"; "שלישי"]; ["thursday"; "רביעי"];
    ["friday"; "חמישי"]; ["saturday"; "שישי"]; ["sunday"; "שבת"] ].

(** The numeric form parseDates tests. *)
Definition numericForm (dateStr : text) : bool :=
  let sep := cls [chr "/"; chr "-"; chr "."] in
  test false (cat [digits 1 2; Cls sep; digits 1 2; Cls sep; digits 2 4]) dateStr.

(** Some branch of parseDates applies to the token. *)
Definition recognised (dateStr : text) : bool :=
  existsb (fun ws => KeywordDetector.has ws dateStr) wordGroups
  || numericForm dateStr.

(** The weekday number ([getDay]) of an English weekday name. *)
Definition englishWeekdays : list (string * Z) :=
  [ ("sunday", 0%Z); ("monday", 1%Z); ("tuesday", 2%Z); ("wednesday", 3%Z);
    ("thursday", 4%Z); ("friday", 5%Z); ("saturday", 6%Z) ].

(** The weekday number parseDates gives each Hebrew weekday name. *)
Definition hebrewWeekdaysAsCoded : list (string * Z) :=
  [ ("ראשון", 1%Z); ("שני", 2%Z); ("שלישי", 3%Z); ("רביעי", 4%Z);
    ("חמישי", 5%Z); ("שישי", 6%Z); ("שבת", 0%Z) ].

(** One of the separators of the numeric form. *)
Definition isSeparator (c : N) : bool :=
  inClass false (cls [chr "/"; chr "-"; chr "."]) c.

(** Between [lo] and [hi] decimal digits. *)
Definition digitRun (lo hi : nat) (ds : text) : Prop :=
  Forall (fun c => isDigit c = true) ds /\ lo <= List.length ds <= hi.

(** The number a run of decimal digits writes. *)
Definition decimal (ds : text) : Z :=
  fold_left (fun a c => (a * 10 + (Z.of_N c - 48))%Z) ds 0%Z.

(** A token of the numeric form: day, separator, month, separator, year. *)
Definition numericToken (d : text) (s1 : N) (m : text) (s2 : N) (y : text) : text :=
  d ++ s1 :: m ++ s2 :: y.

(** A word that starts with a character above the digits and the
    separators, also after case folding. *)
Definition lettered (w : string) : bool :=
  match u w with a :: _ => (65 <=? upperUnit a)%N | [] => false end.

(** The next day after [day] that falls on the weekday: [k] days ahead. *)
Definition nextOccurrence (day target k : Z) : Prop :=
  (1 <= k <= 7)%Z
  /\ JsDate.weekdayOf (day + k) = target
  /\ forall j, (1 <= j < k)%Z -> JsDate.weekdayOf (day + j) <> target.

End DateSpec.

(** ** Statements about the verdict parser *)

Module BlockSpec.
Import Js.

(** The length of the prefix of [s] that ends with the last closing brace
    of [s]. *)
Fixpoint lastClose (s : text) : option nat :=
  match s with
  | [] => None
  | c :: r =>
    match lastClose r with
    | Some n => Some (S n)
    | None => if (c =? 125)%N then Some 1 else None
    end
  end.

(** The span from the first opening brace that has a closing brace after it
    to the last closing brace. *)
Fixpoint firstToLast (s : text) : option text :=
  match s with
  | [] => None
  | c :: r =>
    if (c =? 123)%N then
      match lastClose r with
      | Some n => Some (c :: firstn n r)
      | None => firstToLast r
      end
    else firstToLast r
  end.

(** The class [[\s\S]] of the block pattern. *)
Definition anyUnit : Regex.cclass := Regex.cls [Regex.CSpace; Regex.CNotSpace].

(** The continuation after the star of the block pattern: a closing brace,
    then the end of the match. *)
Definition closeThen (pos : nat) (s : text) : option nat :=
  Regex.run false (Regex.Lit (u "}")) pos s (fun e _ => Some e).

(** The text the JavaScript analyzer hands to [JSON.parse]. *)
Definition candidate (response : text) : text :=
  LLMAnalyzer.stripFences
    (match firstToLast response with
     | Some block => block
     | None => trim response
     end).

(** A parsed value that is neither an object nor null. *)
Definition plain (v : Json.json) : Prop :=
  match v with
  | Json.JNull | Json.JObj _ => False
  | _ => True
  end.

End BlockSpec.

(** ** Statements about the summary *)

Module SummarySpec.
Import Audit Summary.

Definition isConflictItem (l : Line) : bool :=
  match l with ConflictItem _ _ _ => true | _ => false end.

Definition isMissingItem (l : Line) : bool :=
  match l with MissingItem _ _ _ => true | _ => false end.

Definition conflictItem (ic : nat * Conflict) : Line :=
  ConflictItem (fst ic)
    (Js.substring0 50 (Detection.extractedText (conflictMeeting (snd ic))))
    (Event.summary (conflictingEvent (snd ic))).

Definition missingItem (im : nat * Missing) : Line :=
  MissingItem (fst im)
    (Js.substring0 50 (Detection.extractedText (missingMeeting (snd im))))
    (Num.round (Detection.confidence (missingMeeting (snd im)) * 100)%Q).

(** Timestamps in descending order: newest first. *)
Definition newestFirst (ts : list Q) : Prop :=
  StronglySorted (fun a b => (b <= a)%Q) ts.

(** The order getRecentMessages sorts by. *)
Definition newer (a b : Message.t) : bool :=
  Qle_bool (Message.timestamp b) (Message.timestamp a).

Definition conflictTimes (data : AuditData) : list Q :=
  map (fun c => Detection.timestamp (conflictMeeting c)) (conflicts data).

Definition missingTimes (data : AuditData) : list Q :=
  map (fun x => Detection.timestamp (missingMeeting x)) (missingEvents data).

End SummarySpec.

(** ** Notions used to state the further properties *)

Module TokenSpec.
Import Js.

(** Two strings that differ in the case of ASCII letters only. *)
Definition sameLetters (a b : text) : Prop := map upperUnit a = map upperUnit b.

(** The relative date words, with the number of days they add. *)
Definition relativeWords : list (string * Z) :=
  [ ("tomorrow", 1%Z); ("מחר", 1%Z); ("today", 0%Z); ("היום", 0%Z) ].

End TokenSpec.

(** ** Statements about the oracle step *)

Module EnhanceSpec.

(** The candidate has a date or a time token and its rounded percentage is
    above 50. *)
Definition fallbackAccepts (d : Detection.t) : bool :=
  (Num.truthyText (Detection.detectedDate d)
   || Num.truthyText (Detection.detectedTime d))
  && (50 <? Num.round (Detection.confidence d * 100)%Q)%Z.

(** The candidate with the fallback verdict attached and nothing
    extracted. *)
Definition withFallback (d : Detection.t) : Detection.t :=
  Detection.withLLM d (Some (LLMAnalyzer.getFallbackResult d)) None None None None.

(** The same for the TypeScript detector, which leaves the other fields as
    they are. *)
Definition withFallbackTs (d : Detection.t) : Detection.t :=
  Detection.withLLM d (Some (LLMAnalyzerTs.getFallbackResult d))
                    (Detection.llmDateTime d) (Detection.llmLocation d)
                    (Detection.llmParticipants d) (Detection.llmMeetingType d).

(** The candidates of the keyword analysis of the TypeScript detector. *)
Definition keywordCandidates (clock : Clock) (messages : list Message.t)
  : list Detection.t :=
  flat_map (fun message =>
              match KeywordDetectorTs.analyzeMessage clock message with
              | Some d => [d]
              | None => []
              end) messages.

End EnhanceSpec.

(** ** Statements about the conversation context *)

Module ContextSpec.

(** Oldest first. *)
Definition oldestFirst (ms : list Message.t) : Prop :=
  StronglySorted (fun a b => (Message.timestamp a <= Message.timestamp b)%Q) ms.

(** Within two hours of a time, in seconds. *)
Definition withinTwoHours (t target : Q) : Prop := (Qabs (t - target) <= 7200)%Q.

(** The time getConversationContext of the runner reads off a message. *)
Definition messageTime (clock : Clock) (m : Message.t) : Q :=
  if Json.Qzero (Message.timestamp m)
  then (inject_Z (Z.of_N (clockMs clock)) / 1000)%Q
  else Message.timestamp m.

(** The messages the runner takes to be of the chat of a candidate. *)
Definition related (d : Detection.t) (m : Message.t) : Prop :=
  Message.chatId m = Detection.chatId d
  \/ Message.senderId m = Detection.senderName d
  \/ (Message.chatId m = [] /\ Detection.chatId d = []).

End ContextSpec.

(** ** Statements about verdicts *)

Module VerdictSpec.

(** A number between 0 and 100, or NaN. *)
Definition percentOrNaN (x : Json.number) : Prop :=
  match x with
  | Json.Fin q => (0 <= q <= 100)%Q
  | Json.NaN => True
  | Json.PInf | Json.NInf => False
  end.

End VerdictSpec.

(** ** Statements about the comparison of times *)

Module TimeSpec.
Import Js.



(** A candidate as the keyword detector leaves it: no verdict and nothing
    extracted by the oracle. *)
Definition plainCandidate (m : Detection.t) : Prop :=
  Detection.llmAnalysis m = None /\ Detection.llmDateTime m = None.


End TimeSpec.

(** ** Statements about the extractors *)

Module ExtractSpec.
Import Js.

(** No white space at the start and none at the end. *)
Definition trimmed (s : text) : Prop :=
  match s with [] => True | c :: _ => isSpace c = false end
  /\ match rev s with [] => True | c :: _ => isSpace c = false end.

End ExtractSpec.

(** ** Statements about maps and caches *)

Module MapSpec.
Import Js AuditService.

(** The last event with the id, if any. *)
Definition lastWithId (key : text) (events : list CalendarEvent.t)
  : option CalendarEvent.t :=
  fold_left (fun found event =>
               if text_eqb (CalendarEvent.id event) key then Some event else found)
            events None.

(** One step of removeDuplicateEvents: the event is stored under its id. *)
Definition put (uniqueEvents : JsMap.t CalendarEvent.t) (event : CalendarEvent.t)
  : JsMap.t CalendarEvent.t :=
  JsMap.set (CalendarEvent.id event) event uniqueEvents.

(** The last [n] elements. *)
Definition lastN {A : Type} (n : nat) (l : list A) : list A :=
  skipn (List.length l - n) l.

(** The messages of a chat. *)
Definition ofChat (chat : text) (messages : list Message.t) : list Message.t :=
  filter (fun m => text_eqb (Message.chatId m) chat) messages.

(** The store after the messages have arrived, in their order. *)
Definition received (messages : list Message.t) : Webhook.Store :=
  fold_left (fun store message => Webhook.addToRecentMessages message store)
            messages JsMap.empty.

End MapSpec.

(** ** Statements about fetching messages *)

Module FetchSpec.
Import Js GreenApi.

(** A message of the last three days with a text that is not blank. *)
Definition recent (threeDaysAgo : Q) (msg : Message.t) : Prop :=
  (threeDaysAgo <= Message.timestamp msg)%Q /\ trim (Message.text msg) <> [].

(** A chat that is read: not a group chat, unless those are included. *)
Definition wanted (includeGroupChats : bool) (chat : Chat) : Prop :=
  includeGroupChats = true \/ isGroupChat chat = false.

End FetchSpec.

(* ================================================================== *)
(** * Part II. Theorems *)
(* ================================================================== *)

(** ** The confidence score *)

Module ConfidenceFacts.
Import Num.

Lemma count_nonneg (n : nat) : (0 <= count n)%Q.
Proof.
  unfold count. change 0%Q with (inject_Z 0). rewrite <- Zle_Qle. lia.
Qed.

Lemma count_mono (a b : nat) : a <= b -> (count a <= count b)%Q.
Proof.
  intros H. unfold count. rewrite <- Zle_Qle. lia.
Qed.

Lemma count_ge_1 (n : nat) : 1 <= n -> (1 <= count n)%Q.
Proof.
  intros H. unfold count. change 1%Q with (inject_Z 1). rewrite <- Zle_Qle. lia.
Qed.

(** A capped term [min(count * weight, cap)] lies between 0 and its cap and
    grows with the count. *)
Lemma capped_range (n : nat) (w c : Q) :
  (0 <= w)%Q -> (0 <= c)%Q -> (0 <= Qmin (count n * w) c <= c)%Q.
Proof.
  intros Hw Hc. split.
  - apply Q.min_glb; [|exact Hc].
    apply Qmult_le_0_compat; [apply count_nonneg | exact Hw].
  - apply Q.le_min_r.
Qed.

Lemma capped_mono (a b : nat) (w c : Q) :
  (0 <= w)%Q -> a <= b -> (Qmin (count a * w) c <= Qmin (count b * w) c)%Q.
Proof.
  intros Hw Hab. apply Q.min_le_compat_r.
  apply Qmult_le_compat_r; [apply count_mono; exact Hab | exact Hw].
Qed.

(** One keyword already contributes the full weight 0.3. *)
Lemma keyword_term_floor (k : nat) :
  1 <= k -> (0.3 <= Qmin (count k * 0.3) 0.6)%Q.
Proof.
  intros H. apply Q.min_glb; [|lra].
  pose proof (count_ge_1 _ H). lra.
Qed.

(** The sum of four capped terms, capped at 1, for any table of weights and
    caps. *)
Section Table.

Variables w1 c1 w2 c2 w3 c3 w4 c4 : Q.
Hypothesis weights : (0 <= w1 /\ 0 <= w2 /\ 0 <= w3 /\ 0 <= w4)%Q.
Hypothesis caps : (0 <= c1 /\ 0 <= c2 /\ 0 <= c3 /\ 0 <= c4)%Q.

Let score := Percent.score w1 c1 w2 c2 w3 c3 w4 c4.

Lemma score_range (k d t n : nat) : (0 <= score k d t n <= 1)%Q.
Proof.
  destruct weights as (W1 & W2 & W3 & W4), caps as (C1 & C2 & C3 & C4).
  unfold score, Percent.score. split.
  - apply Q.min_glb; [|lra].
    pose proof (capped_range k _ _ W1 C1). pose proof (capped_range d _ _ W2 C2).
    pose proof (capped_range t _ _ W3 C3). pose proof (capped_range n _ _ W4 C4). lra.
  - apply Qle_trans with 1.0%Q; [apply Q.le_min_r | lra].
Qed.

Lemma score_mono (k d t n d' t' n' : nat) :
  d <= d' -> t <= t' -> n <= n' -> (score k d t n <= score k d' t' n')%Q.
Proof.
  destruct weights as (W1 & W2 & W3 & W4).
  intros Hd Ht Hn. unfold score, Percent.score. apply Q.min_le_compat_r.
  pose proof (capped_mono _ _ _ c2 W2 Hd). pose proof (capped_mono _ _ _ c3 W3 Ht).
  pose proof (capped_mono _ _ _ c4 W4 Hn). lra.
Qed.

End Table.

Lemma js_is_score (k d t n : nat) :
  KeywordDetector.calculateConfidence k d t n
  = Percent.score 0.3 0.6 0.25 0.4 0.2 0.3 0.1 0.2 k d t n.
Proof. reflexivity. Qed.

Lemma ts_is_score (k d t n : nat) :
  KeywordDetectorTs.calculateConfidence k d t n
  = Percent.score 0.3 0.6 0.2 0.4 0.15 0.3 0.1 0.2 k d t n.
Proof. reflexivity. Qed.

Lemma js_floor (k d t n : nat) :
  1 <= k -> (0.3 <= KeywordDetector.calculateConfidence k d t n)%Q.
Proof.
  intros H. unfold KeywordDetector.calculateConfidence.
  apply Q.min_glb; [|lra].
  pose proof (keyword_term_floor _ H).
  assert (W : (0 <= 0.25)%Q) by lra. assert (C : (0 <= 0.4)%Q) by lra.
  pose proof (capped_range d _ _ W C).
  assert (W3 : (0 <= 0.2)%Q) by lra. assert (C3 : (0 <= 0.3)%Q) by lra.
  pose proof (capped_range t _ _ W3 C3).
  assert (W4 : (0 <= 0.1)%Q) by lra.
  pose proof (capped_range n _ _ W4 W3). lra.
Qed.

Lemma ts_floor (k d t n : nat) :
  1 <= k -> (0.3 <= KeywordDetectorTs.calculateConfidence k d t n)%Q.
Proof.
  intros H. unfold KeywordDetectorTs.calculateConfidence.
  apply Q.min_glb; [|lra].
  pose proof (keyword_term_floor _ H).
  assert (W : (0 <= 0.2)%Q) by lra. assert (C : (0 <= 0.4)%Q) by lra.
  pose proof (capped_range d _ _ W C).
  assert (W3 : (0 <= 0.15)%Q) by lra. assert (C3 : (0 <= 0.3)%Q) by lra.
  pose proof (capped_range t _ _ W3 C3).
  assert (W4 : (0 <= 0.1)%Q) by lra.
  pose proof (capped_range n _ _ W4 W). lra.
Qed.

End ConfidenceFacts.

(** C5. For all signal counts the heuristic confidence lies in [0,1], and
    with the keyword count fixed it does not decrease when the date, time
    and name counts grow; in both weight tables. *)
Theorem confidence_bounded_and_monotone :
  forall k d t n d' t' n' : nat,
    d <= d' -> t <= t' -> n <= n' ->
    (0 <= KeywordDetector.calculateConfidence k d t n <= 1)%Q
    /\ (KeywordDetector.calculateConfidence k d t n
        <= KeywordDetector.calculateConfidence k d' t' n')%Q
    /\ (0 <= KeywordDetectorTs.calculateConfidence k d t n <= 1)%Q
    /\ (KeywordDetectorTs.calculateConfidence k d t n
        <= KeywordDetectorTs.calculateConfidence k d' t' n')%Q.
Proof.
  intros k d t n d' t' n' Hd Ht Hn.
  rewrite !ConfidenceFacts.js_is_score, !ConfidenceFacts.ts_is_score.
  assert (W : (0 <= 0.3 /\ 0 <= 0.25 /\ 0 <= 0.2 /\ 0 <= 0.1)%Q) by (repeat split; lra).
  assert (C : (0 <= 0.6 /\ 0 <= 0.4 /\ 0 <= 0.3 /\ 0 <= 0.2)%Q) by (repeat split; lra).
  assert (W' : (0 <= 0.3 /\ 0 <= 0.2 /\ 0 <= 0.15 /\ 0 <= 0.1)%Q) by (repeat split; lra).
  repeat split.
  - apply (ConfidenceFacts.score_range _ _ _ _ _ _ _ _ W C).
  - apply (ConfidenceFacts.score_range _ _ _ _ _ _ _ _ W C).
  - apply (ConfidenceFacts.score_mono _ _ _ _ _ _ _ _ W); assumption.
  - apply (ConfidenceFacts.score_range _ _ _ _ _ _ _ _ W' C).
  - apply (ConfidenceFacts.score_range _ _ _ _ _ _ _ _ W' C).
  - apply (ConfidenceFacts.score_mono _ _ _ _ _ _ _ _ W'); assumption.
Qed.

(** One keyword and one time token, then a date token and a second time
    token more. *)
Lemma confidence_bounded_and_monotone_witness :
  (0 <= 1 /\ 1 <= 2 /\ 0 <= 0)
  /\ (0 <= KeywordDetector.calculateConfidence 1 0 1 0 <= 1)%Q
  /\ (KeywordDetector.calculateConfidence 1 0 1 0
      <= KeywordDetector.calculateConfidence 1 1 2 0)%Q
  /\ (0 <= KeywordDetectorTs.calculateConfidence 1 0 1 0 <= 1)%Q
  /\ (KeywordDetectorTs.calculateConfidence 1 0 1 0
      <= KeywordDetectorTs.calculateConfidence 1 1 2 0)%Q.
Proof.
  split; [lia|].
  apply (confidence_bounded_and_monotone 1 0 1 0 1 2 0); lia.
Defined.

(** ** The confidence in hundredths *)

Module PercentFacts.
Import Num.

(** Division by 100 as a multiplication, which [lra] reads. *)
Ltac hundredths :=
  unfold Qdiv in *; change (/ 100)%Q with (1 # 100)%Q in *.

Lemma capped_percent (W C : Z) (n : nat) (w c : Q) :
  (w == inject_Z W / 100)%Q -> (c == inject_Z C / 100)%Q ->
  (Qmin (count n * w) c == inject_Z (Percent.capped W C n) / 100)%Q.
Proof.
  intros Hw Hc.
  assert (E : (count n * w == inject_Z (W * Z.of_nat n) / 100)%Q).
  { rewrite Hw, inject_Z_mult. unfold count. field. }
  rewrite E, Hc. unfold Percent.capped.
  destruct (Z.min_spec (W * Z.of_nat n) C) as [[H ->] | [H ->]].
  - apply Q.min_l. apply Z.lt_le_incl in H. rewrite Zle_Qle in H. hundredths. lra.
  - apply Q.min_r. rewrite Zle_Qle in H. hundredths. lra.
Qed.

Lemma min_percent (a b : Z) :
  (Qmin (inject_Z a / 100) (inject_Z b / 100) == inject_Z (Z.min a b) / 100)%Q.
Proof.
  destruct (Z.min_spec a b) as [[H ->] | [H ->]].
  - apply Q.min_l. apply Z.lt_le_incl in H. rewrite Zle_Qle in H. hundredths. lra.
  - apply Q.min_r. rewrite Zle_Qle in H. hundredths. lra.
Qed.

Lemma score_percent (W1 C1 W2 C2 W3 C3 W4 C4 : Z) (w1 c1 w2 c2 w3 c3 w4 c4 : Q)
      (k d t n : nat) :
  (w1 == inject_Z W1 / 100)%Q -> (c1 == inject_Z C1 / 100)%Q ->
  (w2 == inject_Z W2 / 100)%Q -> (c2 == inject_Z C2 / 100)%Q ->
  (w3 == inject_Z W3 / 100)%Q -> (c3 == inject_Z C3 / 100)%Q ->
  (w4 == inject_Z W4 / 100)%Q -> (c4 == inject_Z C4 / 100)%Q ->
  (Percent.score w1 c1 w2 c2 w3 c3 w4 c4 k d t n
   == inject_Z (Z.min (Percent.capped W1 C1 k + Percent.capped W2 C2 d
                       + Percent.capped W3 C3 t + Percent.capped W4 C4 n) 100)
      / 100)%Q.
Proof.
  intros H1 G1 H2 G2 H3 G3 H4 G4. unfold Percent.score.
  rewrite (capped_percent _ _ k _ _ H1 G1), (capped_percent _ _ d _ _ H2 G2),
          (capped_percent _ _ t _ _ H3 G3), (capped_percent _ _ n _ _ H4 G4).
  rewrite <- min_percent. apply Q.min_compat.
  - rewrite !inject_Z_plus. field.
  - reflexivity.
Qed.

Lemma js_percent (k d t n : nat) :
  (KeywordDetector.calculateConfidence k d t n
   == inject_Z (Percent.js k d t n) / 100)%Q.
Proof.
  rewrite ConfidenceFacts.js_is_score. unfold Percent.js.
  apply score_percent; reflexivity.
Qed.

Lemma ts_percent (k d t n : nat) :
  (KeywordDetectorTs.calculateConfidence k d t n
   == inject_Z (Percent.ts k d t n) / 100)%Q.
Proof.
  rewrite ConfidenceFacts.ts_is_score. unfold Percent.ts.
  apply score_percent; reflexivity.
Qed.

(** Rounding a whole number of hundredths gives it back. *)
Lemma round_hundredths (q : Q) (z : Z) :
  (q == inject_Z z / 100)%Q -> round (q * 100) = z.
Proof.
  intros H. unfold round.
  assert (E : (q * 100 + (1 # 2) == inject_Z z + (1 # 2))%Q) by (rewrite H; field).
  rewrite (Qfloor_comp _ _ E).
  pose proof (Qfloor_le (inject_Z z + (1 # 2))) as Lo.
  pose proof (Qlt_floor (inject_Z z + (1 # 2))) as Hi.
  set (f := Qfloor (inject_Z z + (1 # 2))) in *.
  assert (A : (inject_Z f < inject_Z (z + 1))%Q)
    by (rewrite inject_Z_plus; change (inject_Z 1) with 1%Q; lra).
  assert (B : (inject_Z z < inject_Z (f + 1))%Q) by lra.
  rewrite <- Zlt_Qlt in A, B. lia.
Qed.

Lemma above_30 (q : Q) (z : Z) :
  (q == inject_Z z / 100)%Q -> ((30 < z)%Z <-> (0.3 < q)%Q).
Proof.
  intros H. rewrite H. split; intros L.
  - rewrite Zlt_Qlt in L. change (inject_Z 30) with 30%Q in L. hundredths. lra.
  - rewrite Zlt_Qlt. change (inject_Z 30) with 30%Q. hundredths. lra.
Qed.

End PercentFacts.

(** ** What analyzeMessage returns *)

Module DetectorFacts.
Import Num.

Lemma ltb_false (a b : Q) : (b <= a)%Q -> ltb a b = false.
Proof.
  intros H. unfold ltb. apply negb_false_iff, Qle_bool_iff. exact H.
Qed.

(** A candidate has a keyword match, and its confidence is the score of the
    four counts. *)
Lemma js_candidate (clock : Clock) (message : Message.t) (c : Detection.t) :
  KeywordDetector.analyzeMessage clock message = Some c ->
  1 <= KeywordCount.js message
  /\ exists d t n,
      Detection.confidence c
      = KeywordDetector.calculateConfidence (KeywordCount.js message) d t n.
Proof.
  unfold KeywordDetector.analyzeMessage, KeywordCount.js. cbv zeta.
  destruct (Js.trim _); [discriminate|].
  destruct (_ =? 0) eqn:E; [discriminate|].
  destruct (ltb _ _); [discriminate|].
  intros H. injection H as <-. cbn [Detection.confidence].
  apply Nat.eqb_neq in E. split; [lia|].
  eexists _, _, _. reflexivity.
Qed.

Lemma ts_candidate (clock : Clock) (message : Message.t) (c : Detection.t) :
  KeywordDetectorTs.analyzeMessage clock message = Some c ->
  1 <= KeywordCount.ts message
  /\ exists d t n,
      Detection.confidence c
      = KeywordDetectorTs.calculateConfidence (KeywordCount.ts message) d t n.
Proof.
  unfold KeywordDetectorTs.analyzeMessage, KeywordCount.ts. cbv zeta.
  destruct (_ =? 0) eqn:E; [discriminate|].
  destruct (ltb _ _); [discriminate|].
  intros H. injection H as <-. cbn [Detection.confidence].
  apply Nat.eqb_neq in E. split; [lia|].
  eexists _, _, _. reflexivity.
Qed.

End DetectorFacts.

(** C10. A candidate, when one is produced, has confidence at least 0.3,
    and the pruning branch (below 0.1 in the JavaScript detector, below 0.3
    in the TypeScript one) is never taken: a message yields no candidate
    only when it is blank or no keyword matches. *)
Theorem pruning_never_discards_a_keyword_match :
  forall (clock : Clock) (message : Message.t),
    (forall c, KeywordDetector.analyzeMessage clock message = Some c ->
               (0.3 <= Detection.confidence c)%Q)
    /\ (KeywordDetector.analyzeMessage clock message = None <->
        Js.trim (Js.toLowerCase (Message.text message)) = []
        \/ KeywordCount.js message = 0)
    /\ (forall c, KeywordDetectorTs.analyzeMessage clock message = Some c ->
                  (0.3 <= Detection.confidence c)%Q)
    /\ (KeywordDetectorTs.analyzeMessage clock message = None <->
        KeywordCount.ts message = 0).
Proof.
  intros clock message. repeat split.
  - intros c H. apply DetectorFacts.js_candidate in H as (K & d & t & n & ->).
    apply ConfidenceFacts.js_floor, K.
  - unfold KeywordDetector.analyzeMessage, KeywordCount.js. cbv zeta.
    destruct (Js.trim _); [left; reflexivity|].
    destruct (_ =? 0) eqn:E; [intros _; right; apply Nat.eqb_eq, E|].
    rewrite DetectorFacts.ltb_false; [discriminate|].
    apply Nat.eqb_neq in E.
    apply Qle_trans with 0.3%Q; [lra | apply ConfidenceFacts.js_floor; lia].
  - unfold KeywordDetector.analyzeMessage, KeywordCount.js. cbv zeta.
    intros [-> | H]; [reflexivity|].
    destruct (Js.trim _); [reflexivity|]. rewrite H. reflexivity.
  - intros c H. apply DetectorFacts.ts_candidate in H as (K & d & t & n & ->).
    apply ConfidenceFacts.ts_floor, K.
  - unfold KeywordDetectorTs.analyzeMessage, KeywordCount.ts. cbv zeta.
    destruct (_ =? 0) eqn:E; [intros _; apply Nat.eqb_eq, E|].
    rewrite DetectorFacts.ltb_false; [discriminate|].
    apply Nat.eqb_neq in E. apply ConfidenceFacts.ts_floor; lia.
  - unfold KeywordDetectorTs.analyzeMessage, KeywordCount.ts. cbv zeta.
    intros H. rewrite H. reflexivity.
Qed.

(** ** The fallback verdict *)

Module FallbackFacts.

Lemma js_valid_iff (m : Detection.t) :
  Verdict.isValidMeeting (LLMAnalyzer.getFallbackResult m) = true <->
  (Num.truthyText (Detection.detectedDate m) = true
   \/ Num.truthyText (Detection.detectedTime m) = true)
  /\ (30 < Num.round (Detection.confidence m * 100))%Z.
Proof.
  unfold LLMAnalyzer.getFallbackResult. cbn [Verdict.isValidMeeting].
  rewrite andb_true_iff, orb_true_iff, Z.ltb_lt. reflexivity.
Qed.

Lemma ts_valid_iff (m : Detection.t) :
  Verdict.isValidMeeting (LLMAnalyzerTs.getFallbackResult m) = true <->
  (Num.truthyText (Detection.detectedDate m) = true
   \/ Num.truthyText (Detection.detectedTime m) = true)
  /\ (30 < Num.round (Detection.confidence m * 100))%Z.
Proof.
  unfold LLMAnalyzerTs.getFallbackResult. cbn [Verdict.isValidMeeting].
  rewrite andb_true_iff, orb_true_iff, Z.ltb_lt. reflexivity.
Qed.

(** The confidence of a candidate of either detector is a whole number of
    hundredths. *)
Lemma candidate_hundredths (clock : Clock) (message : Message.t) (m : Detection.t) :
  KeywordDetector.analyzeMessage clock message = Some m
  \/ KeywordDetectorTs.analyzeMessage clock message = Some m ->
  exists z : Z, (Detection.confidence m == inject_Z z / 100)%Q.
Proof.
  intros [H | H].
  - apply DetectorFacts.js_candidate in H as (_ & d & t & n & ->).
    eexists. apply PercentFacts.js_percent.
  - apply DetectorFacts.ts_candidate in H as (_ & d & t & n & ->).
    eexists. apply PercentFacts.ts_percent.
Qed.

(** Math.round gives the nearest whole number, the upper one of two. *)
Lemma round_nearest (q : Q) :
  (inject_Z (Num.round q) - (1 # 2) <= q /\ q < inject_Z (Num.round q) + (1 # 2))%Q.
Proof.
  unfold Num.round.
  pose proof (Qfloor_le (q + (1 # 2))) as Lo.
  pose proof (Qlt_floor (q + (1 # 2))) as Hi.
  rewrite inject_Z_plus in Hi. change (inject_Z 1) with 1%Q in Hi.
  split; lra.
Qed.

End FallbackFacts.

(** C6. Without a configured credential every candidate receives the
    fallback verdict: valid exactly when a date or time token was detected
    and the rounded percentage of the heuristic confidence is above 30, with
    that percentage as the verdict's confidence: the heuristic confidence
    times 100, rounded to the nearest whole number.  For a candidate the
    detector produced, "above 30" is "confidence above 0.3". *)
Theorem disabled_oracle_gives_fallback_verdict :
  forall (jsonParse : Js.text -> option Json.json)
         (oracle : Detection.t -> list Message.t -> option Js.text)
         (apiKey : option Js.text) (m : Detection.t) (history : list Message.t),
    LLMAnalyzer.enabled apiKey = false ->
    let percent := Num.round (Detection.confidence m * 100) in
    let hasToken :=
      Num.truthyText (Detection.detectedDate m) = true
      \/ Num.truthyText (Detection.detectedTime m) = true in
    let v := LLMAnalyzer.analyzeConversation jsonParse oracle apiKey m history in
    let w := LLMAnalyzerTs.analyzeConversation jsonParse oracle apiKey m history in
    v = LLMAnalyzer.getFallbackResult m
    /\ w = LLMAnalyzerTs.getFallbackResult m
    /\ (Verdict.isValidMeeting v = true <-> hasToken /\ (30 < percent)%Z)
    /\ (Verdict.isValidMeeting w = true <-> hasToken /\ (30 < percent)%Z)
    /\ Verdict.confidence v = Json.Fin (inject_Z percent)
    /\ Verdict.confidence w = Json.Fin (inject_Z percent)
    /\ (inject_Z percent - (1 # 2) <= Detection.confidence m * 100
        /\ Detection.confidence m * 100 < inject_Z percent + (1 # 2))%Q
    /\ (forall clock message,
          KeywordDetector.analyzeMessage clock message = Some m
          \/ KeywordDetectorTs.analyzeMessage clock message = Some m ->
          ((30 < percent)%Z <-> (0.3 < Detection.confidence m)%Q)).
Proof.
  intros jsonParse oracle apiKey m history Off percent hasToken v w.
  assert (Ev : v = LLMAnalyzer.getFallbackResult m).
  { unfold v, LLMAnalyzer.analyzeConversation. rewrite Off. reflexivity. }
  assert (Ew : w = LLMAnalyzerTs.getFallbackResult m).
  { unfold w, LLMAnalyzerTs.analyzeConversation. rewrite Off. reflexivity. }
  split; [exact Ev|]. split; [exact Ew|].
  rewrite Ev, Ew.
  split; [apply FallbackFacts.js_valid_iff|].
  split; [apply FallbackFacts.ts_valid_iff|].
  split; [reflexivity|]. split; [reflexivity|].
  split; [apply FallbackFacts.round_nearest|].
  intros clock message H.
  destruct (FallbackFacts.candidate_hundredths _ _ _ H) as (z & Hz).
  unfold percent. rewrite (PercentFacts.round_hundredths _ _ Hz).
  apply PercentFacts.above_30, Hz.
Qed.

(** No credential, and a candidate with a date token and confidence 0.85. *)
Lemma disabled_oracle_gives_fallback_verdict_witness :
  let m := Samples.callToday in
  let v := LLMAnalyzer.analyzeConversation Json.parse Samples.noOracle None m [] in
  let w := LLMAnalyzerTs.analyzeConversation Json.parse Samples.noOracle None m [] in
  LLMAnalyzer.enabled None = false
  /\ Verdict.isValidMeeting v = true
  /\ Verdict.isValidMeeting w = true
  /\ Verdict.confidence v = Json.Fin (inject_Z 85)
  /\ Verdict.confidence w = Json.Fin (inject_Z 85).
Proof.
  intros m v w.
  pose proof (disabled_oracle_gives_fallback_verdict
                Json.parse Samples.noOracle None m [] eq_refl)
    as (_ & _ & _ & _ & Cv & Cw & _ & _).
  split; [reflexivity|].
  split; [reflexivity|]. split; [reflexivity|].
  split; [exact Cv | exact Cw].
Defined.

(** ** The matcher as a list of outcomes *)

Module MatcherFacts.
Import Audit Matcher.

Lemma classify_record (st : State) (m : Detection.t) (e : Event.t)
      (mt : option Js.text) :
  classify st m e mt = record st (outcome m e mt).
Proof.
  unfold classify, outcome.
  destruct mt as [[|c s]|]; try reflexivity.
  destruct (Event.startDateTime e); try reflexivity.
  destruct (timesAgree _ _); reflexivity.
Qed.

(** The state after recording a list of outcomes. *)
Lemma record_all (os : list Outcome) (st : State) :
  let st' := fold_left record os st in
  conflicts (results st') = conflicts (results st) ++ rights os
  /\ confirmedMeetings (results st') = confirmedMeetings (results st) ++ lefts os
  /\ missingEvents (results st') = missingEvents (results st)
  /\ foundMatch st' = foundMatch st || negb (isNil (lefts os))
  /\ foundConflict st' = foundConflict st || negb (isNil (rights os)).
Proof.
  revert st. induction os as [|o os IH]; intros st; cbn.
  - rewrite !app_nil_r, !orb_false_r. repeat split.
  - specialize (IH (record st o)). cbn zeta in IH.
    destruct IH as (A & B & C & D & E).
    rewrite A, B, C, D, E.
    destruct o; cbn; rewrite <- ?app_assoc, ?orb_true_r, ?orb_false_r;
      repeat split; try reflexivity; now destruct (foundMatch st), (foundConflict st).
Qed.

Lemma nil_lefts_rights (os : list Outcome) :
  isNil (lefts os) && isNil (rights os) = isNil os.
Proof. destruct os as [|[c|c] r]; cbn; try reflexivity. apply andb_false_r. Qed.

Section Generic.

Variable dates : Detection.t -> list JsDate.Date.
Variable timeOf : Detection.t -> option Js.text.
Variable wantsMissing : Detection.t -> bool.
Variable missingRecord : Detection.t -> Missing.

Let outcomesOf := meetingOutcomes dates timeOf.

Lemma dates_loop (m : Detection.t) (e : Event.t) (ds : list JsDate.Date)
      (st : State) :
  fold_left (fun st d => if sameDay d (Event.start e)
                         then classify st m e (timeOf m) else st) ds st
  = fold_left record
      (map (fun _ => outcome m e (timeOf m))
           (filter (fun d => sameDay d (Event.start e)) ds)) st.
Proof.
  revert st. induction ds as [|d ds IH]; intros st; cbn; [reflexivity|].
  destruct (sameDay d (Event.start e)); cbn; rewrite IH; [|reflexivity].
  rewrite classify_record. reflexivity.
Qed.

Lemma events_loop (m : Detection.t) (es : list Event.t) (st : State) :
  fold_left
    (fun st e =>
       fold_left (fun st d => if sameDay d (Event.start e)
                              then classify st m e (timeOf m) else st)
                 (dates m) st) es st
  = fold_left record (outcomesOf es m) st.
Proof.
  revert st. induction es as [|e es IH]; intros st; cbn; [reflexivity|].
  rewrite IH, dates_loop. unfold outcomesOf, meetingOutcomes. cbn.
  rewrite fold_left_app. reflexivity.
Qed.

(** One candidate adds its conflicts, its confirmations, and the missing
    record when it has no outcome and asks for one. *)
Lemma checkMeeting_spec (es : list Event.t) (r : Results) (m : Detection.t) :
  let r' := checkMeeting dates timeOf wantsMissing missingRecord es r m in
  conflicts r' = conflicts r ++ rights (outcomesOf es m)
  /\ confirmedMeetings r' = confirmedMeetings r ++ lefts (outcomesOf es m)
  /\ missingEvents r'
     = missingEvents r ++ missingFor dates timeOf wantsMissing missingRecord es m.
Proof.
  unfold checkMeeting. cbv zeta. rewrite events_loop.
  destruct (record_all (outcomesOf es m)
              {| results := r; foundConflict := false; foundMatch := false |})
    as (A & B & C & D & E).
  cbn [results foundMatch foundConflict] in A, B, C, D, E.
  rewrite D, E. cbn [orb]. rewrite !negb_involutive, nil_lefts_rights.
  unfold missingFor. fold outcomesOf.
  destruct (isNil (outcomesOf es m) && wantsMissing m); cbn.
  - rewrite A, B, C. repeat split.
  - rewrite A, B, C, app_nil_r. repeat split.
Qed.

Lemma analyze_from (es : list Event.t) (ms : list Detection.t) (r : Results) :
  let r' := fold_left (checkMeeting dates timeOf wantsMissing missingRecord es)
                      ms r in
  conflicts r' = conflicts r ++ flat_map (fun m => rights (outcomesOf es m)) ms
  /\ confirmedMeetings r'
     = confirmedMeetings r ++ flat_map (fun m => lefts (outcomesOf es m)) ms
  /\ missingEvents r'
     = missingEvents r
       ++ flat_map (missingFor dates timeOf wantsMissing missingRecord es) ms.
Proof.
  revert r. induction ms as [|m ms IH]; intros r; cbn.
  - rewrite !app_nil_r. repeat split.
  - destruct (checkMeeting_spec es r m) as (A & B & C).
    destruct (IH (checkMeeting dates timeOf wantsMissing missingRecord es r m))
      as (A' & B' & C').
    cbn zeta in A', B', C'. rewrite A', B', C', A, B, C, <- !app_assoc.
    repeat split.
Qed.

(** The three arrays of the result, candidate by candidate. *)
Lemma analyze_spec (ms : list Detection.t) (es : list Event.t) :
  let r := analyze dates timeOf wantsMissing missingRecord ms es in
  conflicts r = flat_map (fun m => rights (outcomesOf es m)) ms
  /\ confirmedMeetings r = flat_map (fun m => lefts (outcomesOf es m)) ms
  /\ missingEvents r
     = flat_map (missingFor dates timeOf wantsMissing missingRecord es) ms.
Proof. apply (analyze_from es ms empty). Qed.

End Generic.

(** The two runners are instances. *)
Lemma simple_is_generic (ms : list Detection.t) (es : list Event.t) :
  SimpleRunner.analyzeConflictsAndMissing ms es
  = analyze Detection.parsedDates simpleTime simpleWants simpleMissing ms es.
Proof. reflexivity. Qed.

Lemma oracle_is_generic (newDate : Json.json -> JsDate.Date)
      (ms : list Detection.t) (es : list Event.t) :
  AuditRunner.analyzeConflictsAndMissing newDate ms es
  = analyze (AuditRunner.meetingDates newDate)
            (AuditRunner.meetingTimeForComparison newDate)
            oracleWants oracleMissing ms es.
Proof. reflexivity. Qed.

End MatcherFacts.

(** ** Which records the matcher holds *)

Module RecordFacts.
Import Audit Matcher MatcherSpec.

Lemma in_lefts (c : Confirmed) (os : list Outcome) :
  In c (lefts os) <-> In (inl c) os.
Proof.
  induction os as [|[x|x] os IH]; cbn; [tauto| |].
  - rewrite IH. split; intros [H|H]; auto; left; congruence.
  - rewrite IH. split; [auto|]. intros [H|H]; [discriminate|exact H].
Qed.

Lemma in_rights (c : Conflict) (os : list Outcome) :
  In c (rights os) <-> In (inr c) os.
Proof.
  induction os as [|[x|x] os IH]; cbn; [tauto| |].
  - rewrite IH. split; [auto|]. intros [H|H]; [discriminate|exact H].
  - rewrite IH. split; intros [H|H]; auto; left; congruence.
Qed.

Lemma outcome_about (m : Detection.t) (e : Event.t) (mt : option Js.text) :
  about (outcome m e mt) = (m, e).
Proof.
  unfold outcome. destruct mt as [[|c s]|]; try reflexivity.
  destruct (Event.startDateTime e); try reflexivity.
  destruct (timesAgree _ _); reflexivity.
Qed.

Section Generic.

Variable dates : Detection.t -> list JsDate.Date.
Variable timeOf : Detection.t -> option Js.text.
Variable wantsMissing : Detection.t -> bool.
Variable missingRecord : Detection.t -> Missing.
Hypothesis missing_about :
  forall m, missingMeeting (missingRecord m) = m.

Let R := analyze dates timeOf wantsMissing missingRecord.

Lemma in_eventOutcomes (o : Outcome) (m : Detection.t) (e : Event.t) :
  In o (eventOutcomes dates timeOf m e) <->
  dayMatch dates m e /\ o = outcome m e (timeOf m).
Proof.
  unfold eventOutcomes, dayMatch. rewrite in_map_iff. split.
  - intros (d & <- & H). apply filter_In in H. split; [exists d; exact H | reflexivity].
  - intros ((d & H) & ->). exists d. split; [reflexivity | apply filter_In, H].
Qed.

Lemma in_meetingOutcomes (o : Outcome) (es : list Event.t) (m : Detection.t) :
  In o (meetingOutcomes dates timeOf es m) <->
  exists e, In e es /\ dayMatch dates m e /\ o = outcome m e (timeOf m).
Proof.
  unfold meetingOutcomes. rewrite in_flat_map.
  split; intros (e & H & G); exists e; (split; [exact H|]);
    apply in_eventOutcomes; exact G.
Qed.

(** A recorded outcome comes from a candidate, an event of the calendar and
    a date of the candidate on the day of the event. *)
Lemma recorded_outcome (ms : list Detection.t) (es : list Event.t) (o : Outcome) :
  match o with
  | inl c => In c (confirmedMeetings (R ms es))
  | inr c => In c (conflicts (R ms es))
  end <->
  exists m e, In m ms /\ In e es /\ dayMatch dates m e
              /\ o = outcome m e (timeOf m).
Proof.
  destruct (MatcherFacts.analyze_spec dates timeOf wantsMissing missingRecord ms es)
    as (A & B & _).
  fold R in A, B. cbv zeta in A, B.
  destruct o as [c|c]; [rewrite B | rewrite A]; rewrite in_flat_map;
    (split; [intros (m & Hm & H) | intros (m & e & Hm & H)]).
  - apply in_lefts, in_meetingOutcomes in H as (e & H). exists m, e. tauto.
  - exists m. split; [exact Hm|]. apply in_lefts, in_meetingOutcomes.
    exists e. exact H.
  - apply in_rights, in_meetingOutcomes in H as (e & H). exists m, e. tauto.
  - exists m. split; [exact Hm|]. apply in_rights, in_meetingOutcomes.
    exists e. exact H.
Qed.

Lemma recorded_missing (ms : list Detection.t) (es : list Event.t) (x : Missing) :
  In x (missingEvents (R ms es)) <->
  exists m, In m ms /\ meetingOutcomes dates timeOf es m = []
            /\ wantsMissing m = true /\ x = missingRecord m.
Proof.
  destruct (MatcherFacts.analyze_spec dates timeOf wantsMissing missingRecord ms es)
    as (_ & _ & C).
  fold R in C. cbv zeta in C. rewrite C, in_flat_map. unfold missingFor.
  split; intros (m & Hm & H); exists m.
  - destruct (meetingOutcomes dates timeOf es m); cbn in H; [|contradiction].
    destruct (wantsMissing m); cbn in H; [|contradiction].
    destruct H as [<-|[]]. auto.
  - destruct H as (-> & -> & ->). cbn. auto.
Qed.

(** Every event on a day of the candidate is recorded, as a confirmation or
    as a conflict, and never as both. *)
Lemma day_match_recorded_once (ms : list Detection.t) (es : list Event.t)
      (m : Detection.t) (e : Event.t) :
  In m ms -> In e es -> dayMatch dates m e ->
  recordedOnce (R ms es) (outcome m e (timeOf m)) m e.
Proof.
  intros Hm He Hd.
  assert (In_o : match outcome m e (timeOf m) with
                 | inl c => In c (confirmedMeetings (R ms es))
                 | inr c => In c (conflicts (R ms es))
                 end).
  { apply recorded_outcome. exists m, e. auto. }
  unfold recordedOnce.
  destruct (outcome m e (timeOf m)) as [c|c] eqn:O; (split; [exact In_o|]);
    intros x Hx [Xm Xe].
  - apply (recorded_outcome ms es (inr x)) in Hx as (m' & e' & _ & _ & _ & E).
    pose proof (outcome_about m' e' (timeOf m')) as Ab.
    rewrite <- E in Ab. cbn in Ab. rewrite Xm, Xe in Ab.
    injection Ab as <- <-. congruence.
  - apply (recorded_outcome ms es (inl x)) in Hx as (m' & e' & _ & _ & _ & E).
    pose proof (outcome_about m' e' (timeOf m')) as Ab.
    rewrite <- E in Ab. cbn in Ab. rewrite Xm, Xe in Ab.
    injection Ab as <- <-. congruence.
Qed.

(** A candidate with no event on its days that does not ask to be reported
    missing is in no record. *)
Lemma silent_candidate (ms : list Detection.t) (es : list Event.t)
      (m : Detection.t) :
  noDayMatch dates m es -> wantsMissing m = false -> ~ names (R ms es) m.
Proof.
  intros No Off [(c & Hc & E) | [(x & Hx & E) | (c & Hc & E)]].
  - apply (recorded_outcome ms es (inr c)) in Hc as (m' & e & _ & He & (d & Hd & S) & O).
    pose proof (outcome_about m' e (timeOf m')) as Ab.
    rewrite <- O in Ab. cbn in Ab. injection Ab as Am _.
    rewrite E in Am. subst m'. rewrite (No e d He Hd) in S. discriminate.
  - apply recorded_missing in Hx as (m' & _ & _ & W & ->).
    rewrite missing_about in E. subst m'. congruence.
  - apply (recorded_outcome ms es (inl c)) in Hc as (m' & e & _ & He & (d & Hd & S) & O).
    pose proof (outcome_about m' e (timeOf m')) as Ab.
    rewrite <- O in Ab. cbn in Ab. injection Ab as Am _.
    rewrite E in Am. subst m'. rewrite (No e d He Hd) in S. discriminate.
Qed.

End Generic.

End RecordFacts.

(** ** Candidates against the calendar *)

(** C2, as the code has it.  For a candidate and an event of the calendar
    on one of the candidate's days, the matcher records the outcome of the
    two: a confirmation when the times agree or cannot be compared, a
    conflict otherwise, and never a record of the other kind for the same
    candidate and event.  Every such event is recorded; a confirmation for
    one event leaves the conflicts with the other events in place. *)
Theorem day_matching_events_recorded_once :
  forall (newDate : Json.json -> JsDate.Date)
         (meetings : list Detection.t) (events : list Event.t)
         (m : Detection.t) (e : Event.t),
    In m meetings -> In e events ->
    (Matcher.dayMatch Detection.parsedDates m e ->
     MatcherSpec.recordedOnce
       (SimpleRunner.analyzeConflictsAndMissing meetings events)
       (Matcher.outcome m e (Matcher.simpleTime m)) m e)
    /\ (Matcher.dayMatch (AuditRunner.meetingDates newDate) m e ->
        MatcherSpec.recordedOnce
          (AuditRunner.analyzeConflictsAndMissing newDate meetings events)
          (Matcher.outcome m e (AuditRunner.meetingTimeForComparison newDate m))
          m e).
Proof.
  intros newDate meetings events m e Hm He. split; intros Hd.
  - rewrite MatcherFacts.simple_is_generic.
    apply RecordFacts.day_match_recorded_once; assumption.
  - rewrite MatcherFacts.oracle_is_generic.
    apply RecordFacts.day_match_recorded_once; assumption.
Qed.

(** A candidate for 15:00 against an event at 15:00 and one at 10:00 on its
    day: the second is recorded as a conflict.  A candidate for 05:00 is in
    conflict with the event at 15:00: the whole time token is compared. *)
Lemma day_matching_events_recorded_once_witness :
  let m := Samples.meetAt1500 in
  let events := [Samples.coffee; Samples.dentist] in
  In m [m] /\ In Samples.dentist events
  /\ MatcherSpec.recordedOnce
    (SimpleRunner.analyzeConflictsAndMissing [m] events)
    (Matcher.outcome m Samples.dentist (Matcher.simpleTime m)) m Samples.dentist
  /\ MatcherSpec.recordedOnce
       (AuditRunner.analyzeConflictsAndMissing Samples.noDate [m] events)
       (Matcher.outcome m Samples.dentist
          (AuditRunner.meetingTimeForComparison Samples.noDate m))
       m Samples.dentist
  /\ map (fun c => Event.summary (Audit.conflictingEvent c))
         (Audit.conflicts (SimpleRunner.analyzeConflictsAndMissing [m] events))
     = [Js.u "Dentist"]
  /\ map (fun c => Event.summary (Audit.conflictingEvent c))
         (Audit.conflicts
            (SimpleRunner.analyzeConflictsAndMissing [Samples.meetAt0500] events))
     = [Js.u "Coffee with Dana"; Js.u "Dentist"]
  /\ Audit.confirmedMeetings
       (AuditRunner.analyzeConflictsAndMissing Samples.noDate [Samples.meetAt0500]
                                               events)
     = [].
Proof.
  intros m events.
  destruct (day_matching_events_recorded_once
              Samples.noDate [m] events m Samples.dentist)
    as [A B].
  - left. reflexivity.
  - right. left. reflexivity.
  - split; [left; reflexivity|]. split; [right; left; reflexivity|].
    split; [|split; [|split; [reflexivity|split; reflexivity]]];
      [apply A | apply B];
      (exists (JsDate.DateAt 20074 600); split; [left; reflexivity | reflexivity]).
Defined.

(** C2, as the claim states it, fails: with two events at the candidate's
    time and one at another time on the candidate's day, the matcher records
    both confirmations and the conflict, not the first confirmation
    alone. *)
Lemma confirmations_and_conflicts_side_by_side :
  let meetings :=
    KeywordDetector.detectMeetings Samples.monday [Samples.meetTomorrowAt1500] in
  let r :=
    SimpleRunner.analyzeConflictsAndMissing
      meetings [Samples.coffee; Samples.dentist; Samples.standup] in
  List.length meetings = 1
  /\ map (fun c => Event.summary (Audit.calendarEvent c)) (Audit.confirmedMeetings r)
     = [Js.u "Coffee with Dana"; Js.u "Standup"]
  /\ map (fun c => Event.summary (Audit.conflictingEvent c)) (Audit.conflicts r)
     = [Js.u "Dentist"].
Proof. vm_compute. repeat split. Qed.

(** C3, as the code has it.  In both runners a candidate with no event on
    its days whose effective confidence does not exceed the threshold (0.4
    on the heuristic confidence without the oracle; 0.6 on the oracle's
    confidence over 100 when a verdict is present, else on the heuristic
    one) is in no record.  AuditService.auditMeeting has no threshold: when
    no event matches, its record is missing_from_calendar whatever the
    confidence. *)
Theorem no_record_without_match_below_threshold :
  forall (newDate : Json.json -> JsDate.Date)
         (meetings : list Detection.t) (events : list Event.t)
         (m : Detection.t),
    (MatcherSpec.noDayMatch Detection.parsedDates m events ->
     Num.gtb (Detection.confidence m) 0.4 = false ->
     ~ Matcher.names (SimpleRunner.analyzeConflictsAndMissing meetings events) m)
    /\ (MatcherSpec.noDayMatch (AuditRunner.meetingDates newDate) m events ->
        Json.gtNum (AuditRunner.effectiveConfidence m) 0.6 = false ->
        ~ Matcher.names
            (AuditRunner.analyzeConflictsAndMissing newDate meetings events) m)
    /\ (forall parseISO newDateOf isWithinInterval formatHHmm clock calendarEvents,
          AuditService.findMatchingEvents parseISO newDateOf m calendarEvents = [] ->
          AuditService.status
            (AuditService.auditMeeting parseISO newDateOf isWithinInterval
                                       formatHHmm clock m calendarEvents)
          = AuditService.missing_from_calendar).
Proof.
  intros newDate meetings events m. repeat split.
  - intros No Off. rewrite MatcherFacts.simple_is_generic.
    apply RecordFacts.silent_candidate; [reflexivity | exact No | exact Off].
  - intros No Off. rewrite MatcherFacts.oracle_is_generic.
    apply RecordFacts.silent_candidate; [reflexivity | exact No | exact Off].
  - intros parseISO newDateOf within fmt clock calendarEvents H.
    unfold AuditService.auditMeeting. rewrite H. reflexivity.
Qed.

(** A candidate for Monday whose verdict has confidence 0, against an event
    on Tuesday; and the service auditing a candidate against no event. *)
Lemma no_record_without_match_below_threshold_witness :
  let m := Samples.callToday in
  let quiet :=
    Detection.withLLM m (Some LLMAnalyzer.failedVerdict) None None None None in
  ~ Matcher.names
      (AuditRunner.analyzeConflictsAndMissing Samples.noDate [quiet]
                                              [Samples.coffee]) quiet
  /\ AuditService.status
       (AuditService.auditMeeting Samples.noParse Samples.noParse
          Samples.noInterval Samples.noFormat Samples.monday m [])
     = AuditService.missing_from_calendar.
Proof.
  intros m quiet.
  destruct (no_record_without_match_below_threshold
              Samples.noDate [quiet] [Samples.coffee] quiet) as (_ & B & _).
  destruct (no_record_without_match_below_threshold
              Samples.noDate [] [] m) as (_ & _ & C).
  split.
  - apply B; [|reflexivity].
    intros e d [<-|[]] [<-|[]]. reflexivity.
  - apply C. reflexivity.
Defined.

(** C3, as the claim states it, fails in the TypeScript service: the
    message "call" gives a candidate of confidence 0.3 (fallback verdict:
    30), and with no event in the calendar auditMeeting still emits a
    record for it. *)
Lemma service_emits_record_below_threshold :
  let candidates :=
    KeywordDetectorTs.detectMeetings Json.parse Samples.noOracle None
                                     Samples.monday [Samples.callMe] in
  map (fun c => Qle_bool (Detection.confidence c) 0.4) candidates = [true]
  /\ map (fun c => option_map Verdict.confidence (Detection.llmAnalysis c)) candidates
     = [Some (Json.Fin 30)]
  /\ map AuditService.status
         (AuditService.auditRecords Samples.noParse Samples.noParse
            Samples.noInterval Samples.noFormat Samples.monday candidates [])
     = [AuditService.missing_from_calendar].
Proof. vm_compute. repeat split. Qed.

(** ** "Let's meet tomorrow at 3" *)

Module MeetTomorrow.
Import Js JsDate.

Lemma not_blank :
  exists c s, trim (toLowerCase (Message.text Samples.meetTomorrow)) = c :: s.
Proof. eexists _, _. vm_compute. reflexivity. Qed.

Lemma hebrew_matches :
  KeywordDetector.keywordMatches KeywordDetector.hebrewKeywords
    (toLowerCase (Message.text Samples.meetTomorrow)) = [].
Proof. vm_compute. reflexivity. Qed.

Lemma english_matches :
  KeywordDetector.keywordMatches KeywordDetector.englishKeywords
    (toLowerCase (Message.text Samples.meetTomorrow))
  = map u ["meet"; "tomorrow"; "at"; "let's"; "meet"; "at"].
Proof. vm_compute. reflexivity. Qed.

Lemma dates :
  KeywordDetector.extractDates (Message.text Samples.meetTomorrow) = [u "tomorrow"].
Proof. vm_compute. reflexivity. Qed.

(** No time pattern matches a bare "3". *)
Lemma times :
  KeywordDetector.extractTimes (Message.text Samples.meetTomorrow) = [].
Proof. vm_compute. reflexivity. Qed.

Lemma names :
  KeywordDetector.extractNames (Message.text Samples.meetTomorrow) = [].
Proof. vm_compute. reflexivity. Qed.

Lemma not_pruned :
  Num.ltb (KeywordDetector.calculateConfidence 6 1 0 0) 0.1 = false.
Proof. vm_compute. reflexivity. Qed.

Lemma candidate (clock : Clock) :
  KeywordDetector.analyzeMessage clock Samples.meetTomorrow
  = Some (Samples.meetTomorrowCandidate clock).
Proof.
  unfold KeywordDetector.analyzeMessage. cbv zeta.
  destruct not_blank as (c & s & ->).
  rewrite hebrew_matches, english_matches, dates, times, names.
  cbn [List.length map Nat.add Nat.eqb].
  rewrite not_pruned. reflexivity.
Qed.

Lemma is_tomorrow : KeywordDetector.has ["tomorrow"; "מחר"] (u "tomorrow") = true.
Proof. vm_compute. reflexivity. Qed.

(** "tomorrow" is the day after the clock's. *)
Lemma tomorrow_date (day minute : Z) :
  (Z.abs (day + 1) <= maxDay)%Z ->
  KeywordDetector.parseDates (DateAt day minute) [u "tomorrow"]
  = [DateAt (day + 1) minute].
Proof.
  intros H. unfold KeywordDetector.parseDates. cbn [flat_map].
  unfold KeywordDetector.parseDate. rewrite is_tomorrow.
  cbn [addDays]. unfold mkDate.
  apply Z.leb_le in H. rewrite H. reflexivity.
Qed.

Lemma next_weekday (day : Z) : weekdayOf day = 1%Z -> weekdayOf (day + 1) = 2%Z.
Proof. unfold weekdayOf. intros H. Z.div_mod_to_equations. lia. Qed.

Lemma score : (KeywordDetector.calculateConfidence 6 1 0 0 == 0.85)%Q.
Proof. vm_compute. reflexivity. Qed.

(** The fallback verdict of the candidate: valid, 85. *)
Lemma fallback (clock : Clock) :
  let v := LLMAnalyzer.getFallbackResult (Samples.meetTomorrowCandidate clock) in
  Verdict.isValidMeeting v = true
  /\ Verdict.confidence v = Json.Fin (inject_Z 85)
  /\ Verdict.extractedDateTime v = None
  /\ Verdict.extractedLocation v = None
  /\ Verdict.extractedParticipants v = None
  /\ Verdict.meetingType v = None.
Proof. lazy. repeat split. Qed.

Lemma same_day (day m1 m2 : Z) :
  Audit.sameDay (DateAt day m1) (DateAt day m2) = true.
Proof.
  unfold Audit.sameDay. cbn. rewrite Z.eqb_refl. reflexivity.
Qed.

(** A candidate with one date and no time token, against an event on that
    day. *)
Lemma untimed_simple (c : Detection.t) (e : Event.t) (d : Date) :
  Detection.parsedDates c = [d] -> Detection.detectedTime c = None ->
  Audit.sameDay d (Event.start e) = true ->
  SimpleRunner.analyzeConflictsAndMissing [c] [e]
  = {| Audit.conflicts := [];
       Audit.missingEvents := [];
       Audit.confirmedMeetings :=
         [{| Audit.confirmedMeeting := c; Audit.calendarEvent := e;
             Audit.confirmedReason := u "Date match, time unclear" |}] |}.
Proof.
  intros Hd Ht Hs.
  unfold SimpleRunner.analyzeConflictsAndMissing, SimpleRunner.checkMeeting.
  cbn [fold_left]. unfold SimpleRunner.checkEvent. rewrite Hd. cbn [fold_left].
  unfold SimpleRunner.checkDate. rewrite Hs, Ht. reflexivity.
Qed.

Lemma untimed_oracle (newDate : Json.json -> Date) (c : Detection.t)
      (e : Event.t) (d : Date) :
  Detection.parsedDates c = [d] -> Detection.detectedTime c = None ->
  Detection.llmDateTime c = None ->
  Audit.sameDay d (Event.start e) = true ->
  AuditRunner.analyzeConflictsAndMissing newDate [c] [e]
  = {| Audit.conflicts := [];
       Audit.missingEvents := [];
       Audit.confirmedMeetings :=
         [{| Audit.confirmedMeeting := c; Audit.calendarEvent := e;
             Audit.confirmedReason := u "Date match, time unclear" |}] |}.
Proof.
  intros Hd Ht Hl Hs.
  unfold AuditRunner.analyzeConflictsAndMissing, AuditRunner.checkMeeting.
  cbn [fold_left]. unfold AuditRunner.checkEvent, AuditRunner.meetingDates.
  rewrite Hl, Hd. cbn [fold_left].
  unfold AuditRunner.checkDate, AuditRunner.meetingTimeForComparison.
  rewrite Hs, Hl, Ht. reflexivity.
Qed.

(** The candidate as enhanceWithLLMAnalysis passes it on when no credential
    is configured. *)
Lemma enhanced (jsonParse : text -> option Json.json)
      (oracle : Detection.t -> list Message.t -> option text)
      (clock : Clock) (messages : list Message.t) :
  let c := Samples.meetTomorrowCandidate clock in
  AuditRunner.enhanceWithLLMAnalysis jsonParse oracle None clock [c] messages
  = [Detection.withLLM c (Some (LLMAnalyzer.getFallbackResult c))
                       None None None None].
Proof.
  intros c. destruct (fallback clock) as (V & K & D & L & P & T).
  cbv zeta in V, K, D, L, P, T. fold c in V, K, D, L, P, T.
  unfold AuditRunner.enhanceWithLLMAnalysis. cbn [flat_map].
  unfold LLMAnalyzer.analyzeConversation. cbn [LLMAnalyzer.enabled negb].
  rewrite V, K, D, L, P, T. reflexivity.
Qed.

End MeetTomorrow.

(** C1, as the code has it.  On a Monday the message "Let's meet tomorrow
    at 3" gives one candidate, for the Tuesday, with heuristic confidence
    0.85 and no time token: no time pattern matches the bare "3".  Without
    a credential its verdict is the fallback one, valid with confidence 85.
    Against an event that starts on that Tuesday at 15:00 both runners
    record one confirmation, with the detail "Date match, time unclear",
    and nothing else. *)
Theorem meet_tomorrow_at_3_is_a_date_match :
  forall (newDate : Json.json -> JsDate.Date)
         (jsonParse : Js.text -> option Json.json)
         (oracle : Detection.t -> list Message.t -> option Js.text)
         (clock : Clock) (day minute : Z) (event : Event.t),
    clockDate clock = JsDate.DateAt day minute ->
    JsDate.weekdayOf day = 1%Z ->
    (Z.abs (day + 1) <= JsDate.maxDay)%Z ->
    Event.startDateTime event = Some (JsDate.DateAt (day + 1) 900) ->
    let c := Samples.meetTomorrowCandidate clock in
    let c' := Detection.withLLM c (Some (LLMAnalyzer.getFallbackResult c))
                                None None None None in
    let confirmed (who : Detection.t) :=
      {| Audit.conflicts := [];
         Audit.missingEvents := [];
         Audit.confirmedMeetings :=
           [{| Audit.confirmedMeeting := who; Audit.calendarEvent := event;
               Audit.confirmedReason := Js.u "Date match, time unclear" |}] |} in
    KeywordDetector.detectMeetings clock [Samples.meetTomorrow] = [c]
    /\ Detection.parsedDates c = [JsDate.DateAt (day + 1) minute]
    /\ JsDate.weekdayOf (day + 1) = 2%Z
    /\ (Detection.confidence c == 0.85)%Q
    /\ Detection.detectedTime c = None
    /\ Verdict.isValidMeeting (LLMAnalyzer.getFallbackResult c) = true
    /\ Verdict.confidence (LLMAnalyzer.getFallbackResult c) = Json.Fin (inject_Z 85)
    /\ SimpleRunner.analyzeConflictsAndMissing [c] [event] = confirmed c
    /\ Pipeline.auditResults newDate jsonParse oracle None (fun _ => [event])
                             clock [Samples.meetTomorrow]
       = confirmed c'.
Proof.
  intros newDate jsonParse oracle clock day minute event Hc Hw Hr He c c' confirmed.
  assert (Dates : Detection.parsedDates c = [JsDate.DateAt (day + 1) minute]).
  { unfold c. cbn [Samples.meetTomorrowCandidate Detection.parsedDates].
    rewrite Hc. apply MeetTomorrow.tomorrow_date, Hr. }
  assert (Start : Audit.sameDay (JsDate.DateAt (day + 1) minute) (Event.start event)
                  = true).
  { unfold Event.start. rewrite He. apply MeetTomorrow.same_day. }
  assert (Detected :
            KeywordDetector.detectMeetings clock [Samples.meetTomorrow] = [c]).
  { unfold KeywordDetector.detectMeetings. cbn [flat_map].
    rewrite MeetTomorrow.candidate. reflexivity. }
  destruct (MeetTomorrow.fallback clock) as (V & K & _).
  split; [exact Detected|]. split; [exact Dates|].
  split; [apply MeetTomorrow.next_weekday, Hw|].
  split; [apply MeetTomorrow.score|]. split; [reflexivity|].
  split; [exact V|]. split; [exact K|]. split.
  - apply (MeetTomorrow.untimed_simple c event _ Dates eq_refl Start).
  - unfold Pipeline.auditResults, Pipeline.detectedMeetings,
      Pipeline.getRecentMessages.
    cbn [Arr.sortBy fold_right Arr.insertBy].
    rewrite Detected, MeetTomorrow.enhanced.
    apply (MeetTomorrow.untimed_oracle newDate c' event _ Dates eq_refl eq_refl Start).
Qed.

(** Monday 16 December 2024, and "Coffee with Dana" on the Tuesday at
    15:00. *)
Lemma meet_tomorrow_at_3_is_a_date_match_witness :
  let c := Samples.meetTomorrowCandidate Samples.monday in
  clockDate Samples.monday = JsDate.DateAt 20073 600
  /\ JsDate.weekdayOf 20073 = 1%Z
  /\ (Z.abs (20073 + 1) <= JsDate.maxDay)%Z
  /\ Event.startDateTime Samples.coffee = Some (JsDate.DateAt (20073 + 1) 900)
  /\ KeywordDetector.detectMeetings Samples.monday [Samples.meetTomorrow] = [c]
  /\ Detection.parsedDates c = [JsDate.DateAt 20074 600]
  /\ map Audit.confirmedReason
         (Audit.confirmedMeetings
            (SimpleRunner.analyzeConflictsAndMissing [c] [Samples.coffee]))
     = [Js.u "Date match, time unclear"].
Proof.
  intros c.
  destruct (meet_tomorrow_at_3_is_a_date_match
              Samples.noDate Json.parse Samples.noOracle Samples.monday
              20073 600 Samples.coffee eq_refl eq_refl)
    as (A & B & _ & _ & _ & _ & _ & S & _).
  - vm_compute. discriminate.
  - reflexivity.
  - split; [reflexivity|]. split; [reflexivity|].
    split; [vm_compute; discriminate|]. split; [reflexivity|].
    split; [exact A|]. split; [exact B|].
    fold c in S. rewrite S. reflexivity.
Defined.

(** C1, as the claim states it, fails: the detail of the record is "Date
    match, time unclear", not the detail of a time match, because the
    candidate has no time token; and the loose comparison would not accept
    "3" against "15:00" either. *)
Lemma meet_tomorrow_at_3_has_no_time_match :
  let meetings :=
    KeywordDetector.detectMeetings Samples.monday [Samples.meetTomorrow] in
  let simple := SimpleRunner.analyzeConflictsAndMissing meetings [Samples.coffee] in
  let full :=
    Pipeline.auditResults Samples.noDate Json.parse Samples.noOracle None
                          (fun _ => [Samples.coffee]) Samples.monday
                          [Samples.meetTomorrow] in
  map Detection.detectedTime meetings = [None]
  /\ map Audit.confirmedReason (Audit.confirmedMeetings simple)
     = [Js.u "Date match, time unclear"]
  /\ map Audit.confirmedReason (Audit.confirmedMeetings full)
     = [Js.u "Date match, time unclear"]
  /\ Js.text_eqb (Js.u "Date match, time unclear") (Js.u "Time and date match")
     = false
  /\ Audit.timesAgree (Js.u "3") (Audit.timeString (Event.start Samples.coffee))
     = false.
Proof. vm_compute. repeat split. Qed.

(** ** Date resolution *)

Module DateFacts.
Import Js JsDate DateSpec.

(** getNextWeekday gives the next day of the target weekday; on a day that
    is itself of that weekday, the day a week later. *)
Lemma getNextWeekday_next (day minute target : Z) :
  (0 <= target <= 6)%Z -> (Z.abs day + 7 <= maxDay)%Z ->
  exists k, KeywordDetector.getNextWeekday (DateAt day minute) target
            = DateAt (day + k) minute
            /\ nextOccurrence day target k
            /\ (weekdayOf day = target -> k = 7%Z).
Proof.
  intros Ht Hr. unfold KeywordDetector.getNextWeekday. cbn [getDay].
  set (k := if (target - weekdayOf day <=? 0)%Z
            then (target - weekdayOf day + 7)%Z else (target - weekdayOf day)%Z).
  assert (Hw : (0 <= weekdayOf day < 7)%Z) by (apply Z.mod_pos_bound; lia).
  assert (Hk : (1 <= k <= 7)%Z
               /\ ((0 < target - weekdayOf day /\ k = target - weekdayOf day)
                   \/ (target - weekdayOf day <= 0
                       /\ k = target - weekdayOf day + 7))%Z).
  { unfold k. destruct (Z.leb_spec (target - weekdayOf day) 0); lia. }
  exists k. split; [|split; [split; [|split]|]].
  - cbn [addDays]. unfold mkDate.
    assert (G : (Z.abs (day + k) <=? maxDay)%Z = true) by (apply Z.leb_le; lia).
    rewrite G. reflexivity.
  - apply Hk.
  - unfold weekdayOf in *. destruct Hk as (_ & [[_ E] | [_ E]]); rewrite E;
      Z.div_mod_to_equations; lia.
  - intros j Hj. unfold weekdayOf in *. destruct Hk as (_ & [[L E] | [L E]]);
      Z.div_mod_to_equations; lia.
  - intros E. destruct Hk as (Hk & [[L F] | [L F]]); lia.
Qed.

(** The branch of parseDates a token takes, decided by evaluating the
    tests. *)
Ltac decide_branch :=
  unfold KeywordDetector.parseDate;
  repeat match goal with
         | |- context [KeywordDetector.has ?ws ?s] =>
           let b := eval vm_compute in (KeywordDetector.has ws s) in
           replace (KeywordDetector.has ws s) with b by (vm_compute; reflexivity);
           cbv iota
         end.

(** An English weekday name goes to getNextWeekday with its own number. *)
Lemma english_weekday_branch (now : Date) :
  Forall (fun p => KeywordDetector.parseDate now (u (fst p))
                   = Some (KeywordDetector.getNextWeekday now (snd p)))
         englishWeekdays.
Proof.
  unfold englishWeekdays. repeat constructor; cbn [fst snd]; decide_branch;
    reflexivity.
Qed.

(** A Hebrew weekday name goes to getNextWeekday with the number the code
    pairs it with. *)
Lemma hebrew_weekday_branch (now : Date) :
  Forall (fun p => KeywordDetector.parseDate now (u (fst p))
                   = Some (KeywordDetector.getNextWeekday now (snd p)))
         hebrewWeekdaysAsCoded.
Proof.
  unfold hebrewWeekdaysAsCoded. repeat constructor; cbn [fst snd]; decide_branch;
    reflexivity.
Qed.

(** The dates parseDates returns are valid ones. *)
Lemma parseDates_valid (now : Date) (tokens : list text) :
  Forall (fun d => isNaN d = false) (KeywordDetector.parseDates now tokens).
Proof.
  unfold KeywordDetector.parseDates.
  induction tokens as [|tok tokens IH]; cbn [flat_map]; [constructor|].
  apply Forall_app. split; [|exact IH].
  destruct (KeywordDetector.parseDate now tok) as [d|]; [|constructor].
  destruct (isNaN d) eqn:E; constructor; [exact E | constructor].
Qed.

Lemma parseDates_length (now : Date) (tokens : list text) :
  List.length (KeywordDetector.parseDates now tokens) <= List.length tokens.
Proof.
  unfold KeywordDetector.parseDates.
  induction tokens as [|tok tokens IH]; cbn [flat_map]; [constructor|].
  rewrite length_app. cbn [List.length].
  destruct (KeywordDetector.parseDate now tok) as [d|]; [|cbn; lia].
  destruct (isNaN d); cbn; lia.
Qed.

Lemma parseDates_app (now : Date) (a b : list text) :
  KeywordDetector.parseDates now (a ++ b)
  = KeywordDetector.parseDates now a ++ KeywordDetector.parseDates now b.
Proof. unfold KeywordDetector.parseDates. apply flat_map_app. Qed.

(** A token no branch applies to leaves [targetDate] null. *)
Lemma unrecognised_is_null (now : Date) (tok : text) :
  recognised tok = false -> KeywordDetector.parseDate now tok = None.
Proof.
  unfold recognised, wordGroups. cbn [existsb]. intros H.
  apply orb_false_iff in H. destruct H as [W N].
  repeat (apply orb_false_iff in W; destruct W as [? W]).
  unfold KeywordDetector.parseDate.
  repeat match goal with
         | E : KeywordDetector.has _ _ = false |- _ => rewrite E; clear E
         end.
  match goal with
  | E : numericForm tok = false |- _ => unfold numericForm in E; cbv zeta in E;
                                        rewrite E
  end.
  reflexivity.
Qed.

(** The numeric branch with a day and a month of at most two digits and a
    year of at most four never makes the invalid date. *)
Lemma numeric_branch_valid (y m d : Z) :
  (0 <= d <= 99)%Z -> (0 <= m <= 99)%Z -> (0 <= y <= 9999)%Z ->
  exists day,
    newDateYMD (option_map (fun y => if (y <? 100)%Z then (2000 + y)%Z else y)
                           (Some y))
               (option_map (fun m => (m - 1)%Z) (Some m)) (Some d)
    = DateAt day 0.
Proof.
  intros Hd Hm Hy. cbn [option_map newDateYMD]. unfold mkDate.
  set (yy := if (y <? 100)%Z then (2000 + y)%Z else y).
  assert (Hyy : (100 <= yy <= 9999)%Z).
  { unfold yy. destruct (Z.ltb_spec y 100); lia. }
  assert (G : ((0 <=? yy) && (yy <=? 99))%Z = false).
  { apply andb_false_iff. right. apply Z.leb_gt. lia. }
  rewrite G. eexists.
  match goal with
  | |- (if ?b then _ else _) = _ => assert (B : b = true)
  end.
  { apply Z.leb_le. unfold daysFromCivil, maxDay.
    destruct ((m - 1) mod 12 <? 2)%Z; Z.div_mod_to_equations; lia. }
  rewrite B. reflexivity.
Qed.

End DateFacts.

(** ** Tokens of the numeric form *)

Module NumericFacts.
Import Js Regex JsDate DateSpec.

Ltac cmp :=
  repeat (match goal with
          | |- context [(?a <=? ?b)%N] => destruct (N.leb_spec a b)
          | |- context [(?a =? ?b)%N] => destruct (N.eqb_spec a b)
          end; try lia).

Lemma digit_bounds (c : N) : isDigit c = true -> (48 <= c <= 57)%N.
Proof.
  unfold isDigit. intros H. apply andb_true_iff in H. destruct H as [A B].
  apply N.leb_le in A, B. lia.
Qed.

Lemma separator_bounds (c : N) : isSeparator c = true -> (45 <= c <= 47)%N.
Proof.
  unfold isSeparator, inClass. cbn. intros H.
  revert H. cmp; cbn; intros; try discriminate; lia.
Qed.

Lemma separator_not_digit (c : N) : isSeparator c = true -> isDigit c = false.
Proof. intros H. apply separator_bounds in H. unfold isDigit. cmp; reflexivity. Qed.

Lemma digit_not_separator (c : N) : isDigit c = true -> isSeparator c = false.
Proof.
  intros H. apply digit_bounds in H. unfold isSeparator, inClass. cbn.
  cmp; reflexivity.
Qed.

Lemma digit_not_space (c : N) : isDigit c = true -> isSpace c = false.
Proof. intros H. apply digit_bounds in H. unfold isSpace. cmp; reflexivity. Qed.

Lemma upper_small (c : N) : (c <= 57)%N -> upperUnit c = c.
Proof. intros H. unfold upperUnit, isLowerAscii. cmp; reflexivity. Qed.

(** *** The word tests fail on digits and separators *)

Lemma word_not_at (w : string) (s : text) :
  lettered w = true -> Forall (fun c => (c <= 57)%N) s ->
  litAt true (u w) s = None.
Proof.
  unfold lettered. destruct (u w) as [|a l]; [discriminate|]. intros L F.
  destruct F as [|c s C F]; [reflexivity|]. cbn [litAt]. unfold sameUnit.
  rewrite (upper_small c C). apply N.leb_le in L.
  destruct (N.eqb_spec (upperUnit a) c); [lia|reflexivity].
Qed.

Lemma words_not_at (ws : list string) (pos : nat) (s : text)
      (k : nat -> text -> option nat) :
  ws <> [] -> forallb lettered ws = true -> Forall (fun c => (c <= 57)%N) s ->
  run true (alts ws) pos s k = None.
Proof.
  intros N L F. unfold alts. induction ws as [|w ws IH]; [congruence|].
  cbn [forallb] in L. apply andb_true_iff in L. destruct L as [Lw L].
  destruct ws as [|w' ws].
  - cbn [map alt run lit]. unfold lit. cbn [run].
    rewrite (word_not_at w s Lw F). reflexivity.
  - change (alt (map lit (w :: w' :: ws)))
      with (Alt (lit w) (alt (map lit (w' :: ws)))).
    cbn [run]. unfold lit at 1. cbn [run].
    rewrite (word_not_at w s Lw F). apply IH; [discriminate|exact L].
Qed.

Lemma has_false (ws : list string) (s : text) :
  ws <> [] -> forallb lettered ws = true -> Forall (fun c => (c <= 57)%N) s ->
  KeywordDetector.has ws s = false.
Proof.
  intros N L F. unfold KeywordDetector.has, test.
  assert (G : forall pos, search true (alts ws) pos s = None).
  { induction F as [|c s C F IH]; intros pos; cbn [search]; unfold matchAt.
    - rewrite (words_not_at ws pos [] _ N L (Forall_nil _)). reflexivity.
    - rewrite (words_not_at ws pos (c :: s) _ N L (Forall_cons c C F)).
      apply IH. }
  rewrite G. reflexivity.
Qed.

(** *** The numeric form *)

(** A run of digits that ends where the input ends or before a character
    that is no digit is taken whole by a greedy repetition that allows its
    length. *)
Lemma rep_digits (ds rest : text) (lo hi pos : nat)
      (k : nat -> text -> option nat) (e : nat) :
  Forall (fun c => isDigit c = true) ds ->
  lo <= List.length ds <= hi ->
  match rest with c :: _ => isDigit c = false | [] => True end ->
  k (pos + List.length ds) rest = Some e ->
  rep false (cls [CDigit]) lo (Some hi) pos (ds ++ rest) k = Some e.
Proof.
  intros F. revert lo hi pos. induction F as [|c ds C F IH]; intros lo hi pos L R K.
  - cbn [List.length] in *. rewrite Nat.add_0_r in K. cbn [app].
    assert (E : lo = 0) by lia. subst lo.
    destruct rest as [|c rest]; cbn [rep Nat.eqb]; [exact K|].
    assert (G : inClass false (cls [CDigit]) c = false).
    { unfold inClass. cbn. rewrite R. reflexivity. }
    rewrite G, andb_false_r. exact K.
  - cbn [List.length] in *. cbn [app rep].
    destruct hi as [|hi]; [lia|]. cbn [hiAllows andb option_map Nat.pred].
    assert (G : inClass false (cls [CDigit]) c = true).
    { unfold inClass. cbn. rewrite C. reflexivity. }
    rewrite G.
    rewrite (IH (Nat.pred lo) hi (S pos)); [reflexivity|lia|exact R|].
    rewrite <- K. f_equal. lia.
Qed.

Lemma rep_digits_end (ds : text) (lo hi pos : nat)
      (k : nat -> text -> option nat) (e : nat) :
  Forall (fun c => isDigit c = true) ds ->
  lo <= List.length ds <= hi ->
  k (pos + List.length ds) [] = Some e ->
  rep false (cls [CDigit]) lo (Some hi) pos ds k = Some e.
Proof.
  intros F L K. rewrite <- (app_nil_r ds).
  exact (rep_digits ds [] lo hi pos k e F L I K).
Qed.

Lemma search_here (icase : bool) (r : regex) (pos : nat) (s : text) (e : nat) :
  matchAt icase r pos s = Some e -> search icase r pos s = Some (pos, e).
Proof. intros H. destruct s; cbn [search]; rewrite H; reflexivity. Qed.

Lemma numeric_form (d : text) (s1 : N) (m : text) (s2 : N) (y : text) :
  digitRun 1 2 d -> isSeparator s1 = true -> digitRun 1 2 m ->
  isSeparator s2 = true -> digitRun 2 4 y ->
  numericForm (numericToken d s1 m s2 y) = true.
Proof.
  intros [Fd Ld] S1 [Fm Lm] S2 [Fy Ly].
  unfold numericForm, numericToken, test. cbv zeta.
  erewrite search_here; [reflexivity|].
  unfold matchAt. cbn [cat run]. unfold digits. cbn [run].
  eapply rep_digits; [exact Fd|exact Ld| |].
  - apply separator_not_digit. exact S1.
  - cbn [run]. unfold isSeparator in S1. rewrite S1.
    eapply rep_digits; [exact Fm|exact Lm| |].
    + apply separator_not_digit. exact S2.
    + cbn [run]. unfold isSeparator in S2. rewrite S2.
      eapply rep_digits_end; [exact Fy|exact Ly|reflexivity].
Qed.

(** *** Splitting and reading the components *)

Lemma splitOn_run (sep : N -> bool) (ds cur rest : text) :
  Forall (fun c => sep c = false) ds ->
  splitOn sep cur (ds ++ rest) = splitOn sep (rev ds ++ cur) rest.
Proof.
  intros F. revert cur. induction F as [|c ds C F IH]; intros cur; [reflexivity|].
  cbn [app splitOn rev]. rewrite C, IH, <- app_assoc. reflexivity.
Qed.

Lemma splitOn_end (sep : N -> bool) (ds cur : text) :
  Forall (fun c => sep c = false) ds ->
  splitOn sep cur ds = [rev (rev ds ++ cur)].
Proof.
  intros F. rewrite <- (app_nil_r ds) at 1.
  rewrite (splitOn_run sep ds cur [] F). reflexivity.
Qed.

Lemma digits_not_separators (ds : text) :
  Forall (fun c => isDigit c = true) ds ->
  Forall (fun c => isSeparator c = false) ds.
Proof.
  intros F. eapply Forall_impl; [|exact F]. intros c. apply digit_not_separator.
Qed.

Lemma split_numeric (d : text) (s1 : N) (m : text) (s2 : N) (y : text) :
  digitRun 1 2 d -> isSeparator s1 = true -> digitRun 1 2 m ->
  isSeparator s2 = true -> digitRun 2 4 y ->
  splitOn isSeparator [] (numericToken d s1 m s2 y) = [d; m; y].
Proof.
  intros [Fd _] S1 [Fm _] S2 [Fy _]. unfold numericToken.
  rewrite (splitOn_run _ d [] _ (digits_not_separators d Fd)).
  cbn [splitOn]. rewrite S1.
  rewrite (splitOn_run _ m [] _ (digits_not_separators m Fm)).
  cbn [splitOn]. rewrite S2.
  rewrite (splitOn_end _ y [] (digits_not_separators y Fy)).
  rewrite !app_nil_r, !rev_involutive. reflexivity.
Qed.

Lemma digitsPrefix_decimal (ds : text) (a : Z) :
  Forall (fun c => isDigit c = true) ds ->
  digitsPrefix 10 (Some a) ds
  = Some (fold_left (fun a c => (a * 10 + (Z.of_N c - 48))%Z) ds a).
Proof.
  intros F. revert a. induction F as [|c ds C F IH]; intros a; [reflexivity|].
  cbn [digitsPrefix fold_left]. unfold digitValue, hexValue. rewrite C.
  pose proof (digit_bounds c C) as B.
  destruct (Z.ltb_spec (Z.of_N c - 48) 10); [|lia]. apply IH.
Qed.

Lemma parseInt_digits (ds : text) :
  Forall (fun c => isDigit c = true) ds -> 1 <= List.length ds ->
  parseInt ds = Some (decimal ds).
Proof.
  intros F L. destruct F as [|c ds C F]; [cbn in L; lia|].
  unfold parseInt. cbn [dropSpaces]. rewrite (digit_not_space c C).
  pose proof (digit_bounds c C) as B.
  destruct (N.eqb_spec c 45); [lia|]. destruct (N.eqb_spec c 43); [lia|].
  assert (Hx : match ds with
               | x :: _ => ((x =? 120) || (x =? 88))%N = false
               | [] => True
               end).
  { destruct F as [|x r X F]; [exact I|]. pose proof (digit_bounds x X).
    destruct (N.eqb_spec x 120); [lia|]. destruct (N.eqb_spec x 88); [lia|].
    reflexivity. }
  assert (G : digitsPrefix 10 None (c :: ds) = Some (decimal (c :: ds))).
  { cbn [digitsPrefix]. unfold digitValue, hexValue. rewrite C.
    destruct (Z.ltb_spec (Z.of_N c - 48) 10); [|lia].
    rewrite (digitsPrefix_decimal ds _ F). reflexivity. }
  destruct ds as [|x r]; [|rewrite Hx, andb_false_r]; rewrite G;
    cbn [option_map]; f_equal; destruct (decimal _); reflexivity.
Qed.

Lemma decimal_bounds (ds : text) :
  Forall (fun c => isDigit c = true) ds ->
  (0 <= decimal ds < 10 ^ Z.of_nat (List.length ds))%Z.
Proof.
  unfold decimal. intros F.
  assert (G : forall a, (0 <= a)%Z ->
              (0 <= fold_left (fun a c => (a * 10 + (Z.of_N c - 48))%Z) ds a
               < (a + 1) * 10 ^ Z.of_nat (List.length ds))%Z).
  { induction F as [|c ds C F IH]; intros a A; cbn [fold_left List.length].
    - change (10 ^ Z.of_nat 0)%Z with 1%Z. lia.
    - pose proof (digit_bounds c C) as B.
      rewrite Nat2Z.inj_succ, Z.pow_succ_r by lia.
      specialize (IH (a * 10 + (Z.of_N c - 48))%Z ltac:(lia)).
      nia. }
  specialize (G 0%Z ltac:(lia)). lia.
Qed.

(** *** The numeric branch *)

Lemma token_small (d : text) (s1 : N) (m : text) (s2 : N) (y : text) :
  digitRun 1 2 d -> isSeparator s1 = true -> digitRun 1 2 m ->
  isSeparator s2 = true -> digitRun 2 4 y ->
  Forall (fun c => (c <= 57)%N) (numericToken d s1 m s2 y).
Proof.
  intros [Fd _] S1 [Fm _] S2 [Fy _].
  assert (D : forall ds, Forall (fun c => isDigit c = true) ds ->
                         Forall (fun c => (c <= 57)%N) ds).
  { intros ds F. eapply Forall_impl; [|exact F].
    intros c C. apply digit_bounds in C. lia. }
  apply separator_bounds in S1, S2. unfold numericToken.
  apply Forall_app. split; [exact (D d Fd)|]. constructor; [lia|].
  apply Forall_app. split; [exact (D m Fm)|]. constructor; [lia|].
  exact (D y Fy).
Qed.

(** A token of the numeric form takes the numeric branch, and the Date
    constructor is given the numbers its three components write. *)
Lemma numeric_token_date (now : Date) (d : text) (s1 : N) (m : text) (s2 : N)
      (y : text) :
  digitRun 1 2 d -> isSeparator s1 = true -> digitRun 1 2 m ->
  isSeparator s2 = true -> digitRun 2 4 y ->
  KeywordDetector.parseDate now (numericToken d s1 m s2 y)
  = Some (newDateYMD
            (option_map (fun y => if (y <? 100)%Z then (2000 + y)%Z else y)
                        (Some (decimal y)))
            (option_map (fun m => (m - 1)%Z) (Some (decimal m)))
            (Some (decimal d))).
Proof.
  intros Hd S1 Hm S2 Hy.
  pose proof (token_small d s1 m s2 y Hd S1 Hm S2 Hy) as Small.
  pose proof (numeric_form d s1 m s2 y Hd S1 Hm S2 Hy) as Form.
  pose proof (split_numeric d s1 m s2 y Hd S1 Hm S2 Hy) as Split.
  unfold numericForm in Form. cbv zeta in Form. unfold isSeparator in Split.
  unfold KeywordDetector.parseDate.
  repeat match goal with
         | |- context [KeywordDetector.has ?ws ?s] =>
           rewrite (has_false ws s ltac:(discriminate) eq_refl Small)
         end.
  cbv zeta. rewrite Form.
  match goal with
  | |- context [splitOn ?f [] ?s] =>
    change (splitOn f [] s)
      with (splitOn (fun c => inClass false (cls [chr "/"; chr "-"; chr "."]) c)
                    [] s)
  end.
  rewrite Split.
  destruct Hd as [Fd Ld], Hm as [Fm Lm], Hy as [Fy Ly].
  rewrite (parseInt_digits d Fd), (parseInt_digits m Fm), (parseInt_digits y Fy)
    by lia.
  reflexivity.
Qed.

(** So a token of the numeric form is never dropped: it resolves to one
    valid date, whatever its day and month are. *)
Lemma numeric_token_resolves (now : Date) (d : text) (s1 : N) (m : text)
      (s2 : N) (y : text) :
  digitRun 1 2 d -> isSeparator s1 = true -> digitRun 1 2 m ->
  isSeparator s2 = true -> digitRun 2 4 y ->
  exists day,
    newDateYMD (Some (if (decimal y <? 100)%Z then (2000 + decimal y)%Z
                      else decimal y))
               (Some (decimal m - 1)%Z) (Some (decimal d))
    = DateAt day 0
    /\ KeywordDetector.parseDates now [numericToken d s1 m s2 y]
       = [DateAt day 0].
Proof.
  intros Hd S1 Hm S2 Hy.
  assert (B : forall lo hi ds, digitRun lo hi ds -> hi <= 4 ->
                               (0 <= decimal ds <= 10 ^ Z.of_nat hi - 1)%Z).
  { intros lo hi ds [F L] H. pose proof (decimal_bounds ds F) as G.
    assert (10 ^ Z.of_nat (List.length ds) <= 10 ^ Z.of_nat hi)%Z
      by (apply Z.pow_le_mono_r; lia).
    lia. }
  pose proof (B 1 2 d Hd ltac:(lia)) as Bd.
  pose proof (B 1 2 m Hm ltac:(lia)) as Bm.
  pose proof (B 2 4 y Hy ltac:(lia)) as By.
  change (10 ^ Z.of_nat 2 - 1)%Z with 99%Z in Bd, Bm.
  change (10 ^ Z.of_nat 4 - 1)%Z with 9999%Z in By.
  destruct (DateFacts.numeric_branch_valid (decimal y) (decimal m) (decimal d)
              Bd Bm By) as [day E].
  exists day. split; [exact E|].
  unfold KeywordDetector.parseDates. cbn [flat_map].
  rewrite (numeric_token_date now d s1 m s2 y Hd S1 Hm S2 Hy), E.
  reflexivity.
Qed.

End NumericFacts.

(** C4, at the failing input.  On Monday 16 December 2024 the English token
    "monday" resolves to the Monday a week later, but the Hebrew token for
    Monday, which the extractor cuts out of "ביום שני" ("on Monday"),
    resolves to the next day, a Tuesday: parseDates tests it together with
    "tuesday" and asks getNextWeekday for weekday 2. *)
Theorem hebrew_monday_resolves_to_tuesday :
  JsDate.getDay (clockDate Samples.monday) = Some 1%Z
  /\ KeywordDetector.extractDates (Js.u "ביום שני") = [Js.u "שני"]
  /\ KeywordDetector.parseDates (clockDate Samples.monday) [Js.u "שני"]
     = [JsDate.DateAt (20073 + 1) 600]
  /\ JsDate.weekdayOf (20073 + 1) = 2%Z
  /\ KeywordDetector.parseDates (clockDate Samples.monday) [Js.u "monday"]
     = [JsDate.DateAt (20073 + 7) 600]
  /\ JsDate.weekdayOf (20073 + 7) = 1%Z.
Proof. vm_compute. repeat split. Qed.

(** C8, as the code has it.  Date resolution is a total function of the
    tokens; every date it returns is a valid one, there are at most as many
    as tokens, and a token to which no branch applies contributes nothing.
    A token of the numeric form (one or two digits, a separator, one or two
    digits, a separator, two to four digits) is never dropped, whatever its
    day and month are: its three numbers are handed to the Date constructor,
    which carries a day or month out of range over into the following
    months, and the valid date that results is returned in the token's
    place. *)
Theorem parseDates_returns_only_valid_dates :
  forall (now : JsDate.Date) (before after : list Js.text) (tok : Js.text),
    let tokens := before ++ tok :: after in
    Forall (fun d => JsDate.isNaN d = false) (KeywordDetector.parseDates now tokens)
    /\ List.length (KeywordDetector.parseDates now tokens) <= List.length tokens
    /\ (DateSpec.recognised tok = false ->
        KeywordDetector.parseDates now tokens
        = KeywordDetector.parseDates now (before ++ after))
    /\ (forall (d : Js.text) (s1 : N) (m : Js.text) (s2 : N) (y : Js.text),
          DateSpec.digitRun 1 2 d -> DateSpec.isSeparator s1 = true ->
          DateSpec.digitRun 1 2 m -> DateSpec.isSeparator s2 = true ->
          DateSpec.digitRun 2 4 y ->
          tok = DateSpec.numericToken d s1 m s2 y ->
          exists day,
            JsDate.newDateYMD
              (Some (if (DateSpec.decimal y <? 100)%Z
                     then (2000 + DateSpec.decimal y)%Z else DateSpec.decimal y))
              (Some (DateSpec.decimal m - 1)%Z) (Some (DateSpec.decimal d))
            = JsDate.DateAt day 0
            /\ KeywordDetector.parseDates now tokens
               = KeywordDetector.parseDates now before
                 ++ JsDate.DateAt day 0 :: KeywordDetector.parseDates now after).
Proof.
  intros now before after tok tokens. split; [apply DateFacts.parseDates_valid|].
  split; [apply DateFacts.parseDates_length|].
  assert (Split : KeywordDetector.parseDates now tokens
                  = KeywordDetector.parseDates now before
                    ++ KeywordDetector.parseDates now [tok]
                    ++ KeywordDetector.parseDates now after).
  { unfold tokens. rewrite DateFacts.parseDates_app.
    change (tok :: after) with ([tok] ++ after).
    rewrite DateFacts.parseDates_app. reflexivity. }
  split.
  - intros H. rewrite Split, DateFacts.parseDates_app. f_equal.
    unfold KeywordDetector.parseDates at 1. cbn [flat_map].
    rewrite (DateFacts.unrecognised_is_null now tok H). reflexivity.
  - intros d s1 m s2 y Hd S1 Hm S2 Hy E.
    destruct (NumericFacts.numeric_token_resolves now d s1 m s2 y Hd S1 Hm S2 Hy)
      as (day & New & R).
    exists day. split; [exact New|]. rewrite Split, E, R. reflexivity.
Qed.

(** "next week" is a date token of the extractor that no branch of
    parseDates resolves; "31/02/2024" is of the numeric form. *)
Lemma parseDates_returns_only_valid_dates_witness :
  DateSpec.recognised (Js.u "next week") = false
  /\ KeywordDetector.parseDates (clockDate Samples.monday)
       [Js.u "tomorrow"; Js.u "next week"; Js.u "today"]
     = KeywordDetector.parseDates (clockDate Samples.monday)
         [Js.u "tomorrow"; Js.u "today"]
  /\ exists day,
      JsDate.newDateYMD (Some 2024%Z) (Some 1%Z) (Some 31%Z) = JsDate.DateAt day 0
      /\ KeywordDetector.parseDates (clockDate Samples.monday)
           [Js.u "tomorrow"; Js.u "31/02/2024"; Js.u "today"]
         = KeywordDetector.parseDates (clockDate Samples.monday) [Js.u "tomorrow"]
           ++ JsDate.DateAt day 0
              :: KeywordDetector.parseDates (clockDate Samples.monday)
                   [Js.u "today"].
Proof.
  split; [vm_compute; reflexivity|]. split.
  - destruct (parseDates_returns_only_valid_dates
                (clockDate Samples.monday) [Js.u "tomorrow"] [Js.u "today"]
                (Js.u "next week"))
      as (_ & _ & Drop & _).
    apply Drop. vm_compute. reflexivity.
  - destruct (parseDates_returns_only_valid_dates
                (clockDate Samples.monday) [Js.u "tomorrow"] [Js.u "today"]
                (Js.u "31/02/2024"))
      as (_ & _ & _ & Keep).
    apply (Keep (Js.u "31") 47%N (Js.u "02") 47%N (Js.u "2024")).
    + split; [repeat constructor|cbn; lia].
    + reflexivity.
    + split; [repeat constructor|cbn; lia].
    + reflexivity.
    + split; [repeat constructor|cbn; lia].
    + reflexivity.
Defined.

(** C8, as the claim states it, fails: the token "31/02/2024" names no
    calendar day, and it is not dropped; it resolves to 2 March 2024.  A
    token of two-digit components far out of range resolves as well. *)
Lemma out_of_range_token_is_not_dropped :
  let now := clockDate Samples.monday in
  KeywordDetector.extractDates (Js.u "see you on 31/02/2024") = [Js.u "31/02/2024"]
  /\ KeywordDetector.parseDates now [Js.u "31/02/2024"]
     = [JsDate.DateAt (JsDate.daysFromCivil 2024 2 2) 0]
  /\ KeywordDetector.parseDates now [Js.u "99/99/2024"]
     = [JsDate.DateAt (JsDate.daysFromCivil 2032 5 7) 0].
Proof. vm_compute. repeat split. Qed.

(** ** The verdict parser *)

Module ParserFacts.
Import Js Regex BlockSpec.

Lemma anyUnit_all (c : N) : inClass false anyUnit c = true.
Proof.
  unfold inClass, anyUnit. cbn. destruct (isSpace c); reflexivity.
Qed.

Lemma closeThen_cons (pos : nat) (c : N) (r : text) :
  closeThen pos (c :: r) = if (c =? 125)%N then Some (pos + 1) else None.
Proof.
  unfold closeThen. cbn [run]. change (u "}") with [125%N].
  cbn [litAt sameUnit List.length]. rewrite (N.eqb_sym 125 c).
  destruct (c =? 125)%N; reflexivity.
Qed.

(** The greedy star followed by a closing brace ends after the last closing
    brace. *)
Lemma star_then_close (s : text) (pos : nat) :
  rep false anyUnit 0 None pos s closeThen
  = option_map (fun n => pos + n) (lastClose s).
Proof.
  revert pos. induction s as [|c r IH]; intros pos; [reflexivity|].
  cbn [rep hiAllows andb Nat.eqb Nat.pred option_map lastClose].
  rewrite anyUnit_all, IH, closeThen_cons.
  destruct (lastClose r) as [n|]; cbn [option_map].
  - f_equal. lia.
  - destruct (c =? 125)%N; reflexivity.
Qed.

Lemma block_at (pos : nat) (s : text) :
  matchAt false LLMAnalyzer.jsonBlock pos s
  = match s with
    | c :: r => if (c =? 123)%N
                then option_map (fun n => pos + 1 + n) (lastClose r)
                else None
    | [] => None
    end.
Proof.
  unfold matchAt, LLMAnalyzer.jsonBlock.
  destruct s as [|c r]; [reflexivity|].
  cbn [cat run lit star]. change (u "{") with [123%N].
  cbn [litAt sameUnit]. rewrite (N.eqb_sym 123 c).
  destruct (c =? 123)%N; [|reflexivity].
  cbn [List.length]. change (cls [CSpace; CNotSpace]) with anyUnit.
  apply star_then_close.
Qed.

(** Where the search for the block succeeds, and what it cuts out. *)
Lemma block_search (s : text) (pos : nat) :
  match search false LLMAnalyzer.jsonBlock pos s with
  | Some (st, e) =>
    pos <= st /\ firstToLast s = Some (firstn (e - st) (skipn (st - pos) s))
  | None => firstToLast s = None
  end.
Proof.
  revert pos. induction s as [|c r IH]; intros pos.
  - cbn. reflexivity.
  - cbn [search]. rewrite block_at. cbn [firstToLast].
    destruct (c =? 123)%N.
    + destruct (lastClose r) as [n|]; cbn [option_map].
      * split; [lia|]. rewrite Nat.sub_diag. cbn [skipn].
        replace (pos + 1 + n - pos) with (S n) by lia. reflexivity.
      * specialize (IH (S pos)).
        destruct (search false LLMAnalyzer.jsonBlock (S pos) r) as [[st e]|];
          [|exact IH].
        destruct IH as [L E]. split; [lia|].
        replace (st - pos) with (S (st - S pos)) by lia. exact E.
    + specialize (IH (S pos)).
      destruct (search false LLMAnalyzer.jsonBlock (S pos) r) as [[st e]|];
        [|exact IH].
      destruct IH as [L E]. split; [lia|].
      replace (st - pos) with (S (st - S pos)) by lia. exact E.
Qed.

(** The pattern of the analyzers cuts out the span from the first opening
    brace to the last closing brace. *)
Lemma block_is_first_to_last (response : text) :
  matchFirst false LLMAnalyzer.jsonBlock response = firstToLast response.
Proof.
  unfold matchFirst. pose proof (block_search response 0) as H.
  destruct (search false LLMAnalyzer.jsonBlock 0 response) as [[st e]|].
  - destruct H as [_ H]. rewrite Nat.sub_0_r in H. symmetry. exact H.
  - symmetry. exact H.
Qed.

Lemma lastClose_split (s : text) (n : nat) :
  lastClose s = Some n ->
  exists mid post, s = mid ++ 125%N :: post /\ firstn n s = mid ++ [125%N]
                   /\ ~ In 125%N post.
Proof.
  revert n. induction s as [|c r IH]; intros n; cbn [lastClose]; [discriminate|].
  destruct (lastClose r) as [k|] eqn:E.
  - intros H. injection H as <-.
    destruct (IH k eq_refl) as (mid & post & -> & F & P).
    exists (c :: mid), post. cbn [firstn]. rewrite F. auto.
  - destruct (N.eqb_spec c 125); [|discriminate].
    intros H. injection H as <-. subst c.
    exists [], r. cbn. repeat split.
    clear IH. induction r as [|d r IHr]; [tauto|].
    cbn [lastClose] in E. destruct (lastClose r); [discriminate|].
    destruct (N.eqb_spec d 125); [discriminate|].
    intros [H|H]; [congruence | exact (IHr eq_refl H)].
Qed.

(** The span starts with the first opening brace of the response and ends
    with its last closing brace. *)
Lemma first_to_last_split (s block : text) :
  firstToLast s = Some block ->
  exists pre mid post,
    s = pre ++ block ++ post /\ block = 123%N :: mid ++ [125%N]
    /\ ~ In 123%N pre /\ ~ In 125%N post.
Proof.
  induction s as [|c r IH]; cbn [firstToLast]; [discriminate|].
  assert (Skip : firstToLast r = Some block -> lastClose r <> None).
  { clear. revert block. induction r as [|d r IHr]; cbn; [discriminate|].
    intros block H. destruct (lastClose r) as [k|] eqn:E; [discriminate|].
    destruct (d =? 123)%N; apply (IHr _) in H; congruence. }
  destruct (N.eqb_spec c 123) as [->|Hc].
  - destruct (lastClose r) as [n|] eqn:E.
    + intros H. injection H as <-.
      destruct (lastClose_split r n E) as (mid & post & -> & F & P).
      exists [], mid, post. rewrite F. cbn. rewrite <- app_assoc. auto.
    + intros H. exfalso. exact (Skip H eq_refl).
  - intros H. destruct (IH H) as (pre & mid & post & -> & B & P & Q).
    exists (c :: pre), mid, post. repeat split; auto.
    intros [G|G]; [congruence | exact (P G)].
Qed.

Section Parser.

Variable jsonParse : text -> option Json.json.

Lemma js_tryParse (response : text) :
  LLMAnalyzer.tryParse jsonParse response
  = match jsonParse (candidate response) with
    | Some parsed => LLMAnalyzer.verdictOf parsed
    | None => None
    end.
Proof.
  unfold LLMAnalyzer.tryParse, candidate. cbv zeta.
  rewrite block_is_first_to_last. reflexivity.
Qed.

Lemma ts_tryParse (response : text) :
  LLMAnalyzerTs.tryParse jsonParse response
  = match firstToLast response with
    | Some block =>
      match jsonParse block with
      | Some parsed => LLMAnalyzer.verdictOf parsed
      | None => None
      end
    | None => None
    end.
Proof.
  unfold LLMAnalyzerTs.tryParse. rewrite block_is_first_to_last. reflexivity.
Qed.

(** A value that is neither an object nor null has none of the verdict's
    keys. *)
Lemma verdict_of_plain (v : Json.json) :
  plain v ->
  LLMAnalyzer.verdictOf v
  = Some {| Verdict.isValidMeeting := false;
            Verdict.confidence := Json.Fin 0;
            Verdict.extractedDateTime := None;
            Verdict.extractedLocation := None;
            Verdict.extractedParticipants := None;
            Verdict.meetingType := None;
            Verdict.reasoning := Json.JStr (u "No reasoning provided") |}.
Proof.
  destruct v; cbn [plain]; try contradiction; intros _; reflexivity.
Qed.

End Parser.

End ParserFacts.

(** C7, as the code has it.  Parsing a response never throws: both
    analyzers return a verdict for every response.  The block they cut out
    runs from the first opening brace to the last closing brace.  The
    TypeScript analyzer returns the "failed to parse" verdict (not valid,
    confidence 0) when there is no block, when [JSON.parse] rejects the
    block, and when it yields null.  The JavaScript analyzer parses the
    block with code fences stripped, or, when there is no block, the whole
    trimmed response; it returns the "failed to parse" verdict when
    [JSON.parse] rejects that text or yields null, and when the text parses
    to a value that is not an object the verdict is not valid with
    confidence 0 and the reasoning "No reasoning provided". *)
Theorem verdict_parsing_recovers_from_failures :
  forall (jsonParse : Js.text -> option Json.json) (response : Js.text),
    let js := LLMAnalyzer.parseAnalysisResponse jsonParse response in
    let ts := LLMAnalyzerTs.parseAnalysisResponse jsonParse response in
    Regex.matchFirst false LLMAnalyzer.jsonBlock response
    = BlockSpec.firstToLast response
    /\ (forall block,
          BlockSpec.firstToLast response = Some block ->
          exists pre mid post,
            response = pre ++ block ++ post
            /\ block = 123%N :: mid ++ [125%N]
            /\ ~ In 123%N pre /\ ~ In 125%N post)
    /\ (BlockSpec.firstToLast response = None -> ts = LLMAnalyzer.failedVerdict)
    /\ (forall block,
          BlockSpec.firstToLast response = Some block ->
          jsonParse block = None \/ jsonParse block = Some Json.JNull ->
          ts = LLMAnalyzer.failedVerdict)
    /\ (jsonParse (BlockSpec.candidate response) = None
        \/ jsonParse (BlockSpec.candidate response) = Some Json.JNull ->
        js = LLMAnalyzer.failedVerdict)
    /\ (forall v,
          jsonParse (BlockSpec.candidate response) = Some v -> BlockSpec.plain v ->
          Verdict.isValidMeeting js = false
          /\ Verdict.confidence js = Json.Fin 0
          /\ Verdict.reasoning js = Json.JStr (Js.u "No reasoning provided"))
    /\ Verdict.isValidMeeting LLMAnalyzer.failedVerdict = false
    /\ Verdict.confidence LLMAnalyzer.failedVerdict = Json.Fin 0
    /\ Verdict.reasoning LLMAnalyzer.failedVerdict
       = Json.JStr (Js.u "Failed to parse Claude response").
Proof.
  intros jsonParse response js ts.
  split; [apply ParserFacts.block_is_first_to_last|].
  split; [apply ParserFacts.first_to_last_split|].
  unfold js, ts, LLMAnalyzer.parseAnalysisResponse,
    LLMAnalyzerTs.parseAnalysisResponse.
  rewrite ParserFacts.js_tryParse, ParserFacts.ts_tryParse.
  split; [intros ->; reflexivity|].
  split; [intros block -> [-> | ->]; reflexivity|].
  split; [intros [-> | ->]; reflexivity|].
  split; [|split; [reflexivity | split; reflexivity]].
  intros v -> P. rewrite (ParserFacts.verdict_of_plain v P).
  split; [reflexivity | split; reflexivity].
Qed.

(** A response without braces that is not JSON. *)
Lemma verdict_parsing_recovers_from_failures_witness :
  LLMAnalyzer.parseAnalysisResponse Json.parse (Js.u "Sorry, I cannot tell.")
  = LLMAnalyzer.failedVerdict
  /\ LLMAnalyzerTs.parseAnalysisResponse Json.parse (Js.u "Sorry, I cannot tell.")
     = LLMAnalyzer.failedVerdict.
Proof.
  destruct (verdict_parsing_recovers_from_failures
              Json.parse (Js.u "Sorry, I cannot tell."))
    as (_ & _ & T & _ & J & _).
  split; [apply J; left | apply T]; vm_compute; reflexivity.
Defined.

(** C7, as the claim states it, fails in the JavaScript analyzer: for the
    response "123" no block is found, yet the verdict does not report a
    parse failure, its reasoning is "No reasoning provided".  And the block
    is not the first JSON object of the response: a valid verdict followed
    by a second pair of braces is rejected as a whole. *)
Lemma extraction_failure_not_reported :
  let v := LLMAnalyzer.parseAnalysisResponse Json.parse (Js.u "123") in
  let two :=
    Samples.quoted "{'isValidMeeting': true, 'confidence': 90} and {later}" in
  Regex.matchFirst false LLMAnalyzer.jsonBlock (Js.u "123") = None
  /\ Verdict.isValidMeeting v = false
  /\ Verdict.confidence v = Json.Fin 0
  /\ Verdict.reasoning v = Json.JStr (Js.u "No reasoning provided")
  /\ Regex.matchFirst false LLMAnalyzer.jsonBlock two = Some two
  /\ LLMAnalyzerTs.parseAnalysisResponse Json.parse two = LLMAnalyzer.failedVerdict
  /\ Verdict.isValidMeeting
       (LLMAnalyzerTs.parseAnalysisResponse Json.parse
          (Samples.quoted "{'isValidMeeting': true, 'confidence': 90}"))
     = true.
Proof. vm_compute. repeat split. Qed.

(** ** The summary *)

Module OrderFacts.
Import Audit SummarySpec.

Lemma constant_sorted (q : Q) (l : list Q) :
  Forall (fun x => x = q) l -> newestFirst l.
Proof.
  unfold newestFirst. induction 1 as [|x l Hx Hl IH]; constructor; [exact IH|].
  subst x. apply Forall_impl with (2 := Hl). intros y ->. apply Qle_refl.
Qed.

Lemma sorted_app (l1 l2 : list Q) :
  newestFirst l1 -> newestFirst l2 ->
  (forall x y, In x l1 -> In y l2 -> (y <= x)%Q) ->
  newestFirst (l1 ++ l2).
Proof.
  unfold newestFirst. intros S1 S2 H.
  induction S1 as [|x l1 S1 IH F]; cbn; [exact S2|].
  constructor.
  - apply IH. intros a b Ha Hb. apply H; [right; exact Ha | exact Hb].
  - apply Forall_app. split; [exact F|].
    apply Forall_forall. intros y Hy. apply H; [left; reflexivity | exact Hy].
Qed.

(** A loop that turns each element into elements of the same timestamp keeps
    the order. *)
Lemma sorted_flat_map {A B : Type} (keyA : A -> Q) (keyB : B -> Q)
      (g : A -> list B) (l : list A) :
  (forall a b, In a l -> In b (g a) -> keyB b = keyA a) ->
  newestFirst (map keyA l) -> newestFirst (map keyB (flat_map g l)).
Proof.
  induction l as [|a l IH]; intros K S; cbn; [constructor|].
  cbn in S. apply StronglySorted_inv in S as [S F].
  rewrite map_app. apply sorted_app.
  - apply constant_sorted with (q := keyA a). apply Forall_forall.
    intros x Hx. apply in_map_iff in Hx as (b & <- & Hb).
    apply K; [left; reflexivity | exact Hb].
  - apply IH; [|exact S]. intros a' b Ha Hb. apply K; [right; exact Ha | exact Hb].
  - intros x y Hx Hy.
    apply in_map_iff in Hx as (b & <- & Hb).
    apply in_map_iff in Hy as (b' & <- & Hb').
    apply in_flat_map in Hb' as (a' & Ha' & Hb').
    rewrite (K a b (or_introl eq_refl) Hb), (K a' b' (or_intror Ha') Hb').
    rewrite Forall_forall in F. apply F. apply in_map. exact Ha'.
Qed.

Lemma in_insert (x z : Message.t) (l : list Message.t) :
  In z (Arr.insertBy newer x l) -> z = x \/ In z l.
Proof.
  induction l as [|y l IH]; cbn.
  - intros [H|[]]. left. symmetry. exact H.
  - destruct (newer x y); cbn.
    + intros [H|H]; [left; symmetry; exact H | right; exact H].
    + intros [H|H]; [right; left; exact H|].
      destruct (IH H); [left | right; right]; assumption.
Qed.

Lemma in_sort (z : Message.t) (l : list Message.t) :
  In z (Arr.sortBy newer l) -> In z l.
Proof.
  induction l as [|x l IH]; cbn; [tauto|].
  intros H. apply in_insert in H as [H|H]; [left; symmetry; exact H|].
  right. apply IH, H.
Qed.

Lemma insert_sorted (x : Message.t) (l : list Message.t) :
  newestFirst (map Message.timestamp l) ->
  newestFirst (map Message.timestamp (Arr.insertBy newer x l)).
Proof.
  unfold newestFirst. induction l as [|y l IH]; cbn; intros S.
  - repeat constructor.
  - apply StronglySorted_inv in S as [S F].
    destruct (newer x y) eqn:E; unfold newer in E; cbn.
    + apply Qle_bool_iff in E. constructor.
      * constructor; assumption.
      * constructor; [exact E|].
        apply Forall_impl with (2 := F). intros q Hq.
        apply Qle_trans with (Message.timestamp y); assumption.
    + assert (L : (Message.timestamp x <= Message.timestamp y)%Q).
      { apply Qlt_le_weak, Qnot_le_lt. intros G.
        apply Qle_bool_iff in G. congruence. }
      constructor; [apply IH, S|].
      apply Forall_forall. intros q Hq.
      apply in_map_iff in Hq as (z & <- & Hz).
      apply in_insert in Hz as [->|Hz]; [exact L|].
      rewrite Forall_forall in F. apply F, in_map, Hz.
Qed.

Lemma recent_sorted (collected : list Message.t) :
  newestFirst (map Message.timestamp (Pipeline.getRecentMessages collected)).
Proof.
  unfold Pipeline.getRecentMessages. fold newer.
  induction collected as [|x l IH]; cbn; [constructor|].
  apply insert_sorted, IH.
Qed.

(** A candidate keeps the timestamp of its message, when that is not 0. *)
Lemma candidate_timestamp (clock : Clock) (message : Message.t) (c : Detection.t) :
  Json.Qzero (Message.timestamp message) = false ->
  KeywordDetector.analyzeMessage clock message = Some c ->
  Detection.timestamp c = Message.timestamp message.
Proof.
  intros Z. unfold KeywordDetector.analyzeMessage. cbv zeta.
  destruct (Js.trim _); [discriminate|].
  destruct (_ =? 0); [discriminate|].
  destruct (Num.ltb _ _); [discriminate|].
  intros H. injection H as <-. cbn [Detection.timestamp]. rewrite Z. reflexivity.
Qed.

Section Pipeline.

Variable newDate : Json.json -> JsDate.Date.
Variable jsonParse : Js.text -> option Json.json.
Variable oracle : Detection.t -> list Message.t -> option Js.text.
Variable apiKey : option Js.text.
Variable calendar : list Detection.t -> list Event.t.
Variable clock : Clock.
Variable collected : list Message.t.
Hypothesis stamped :
  Forall (fun m => Json.Qzero (Message.timestamp m) = false) collected.

(** The candidates of the run are in the order of the sorted messages. *)
Lemma meetings_sorted :
  newestFirst
    (map Detection.timestamp
         (Pipeline.detectedMeetings jsonParse oracle apiKey clock collected)).
Proof.
  unfold Pipeline.detectedMeetings. cbv zeta.
  unfold AuditRunner.enhanceWithLLMAnalysis.
  apply sorted_flat_map with (keyA := Detection.timestamp).
  { intros d b _ Hb.
    destruct (Verdict.isValidMeeting _ && Json.gtNum _ 50); [|contradiction].
    destruct Hb as [<-|[]]. reflexivity. }
  unfold KeywordDetector.detectMeetings.
  apply sorted_flat_map with (keyA := Message.timestamp);
    [|apply recent_sorted].
  intros m c Hm Hc.
  destruct (KeywordDetector.analyzeMessage clock m) as [c'|] eqn:E;
    [|contradiction].
  destruct Hc as [<-|[]].
  apply candidate_timestamp with (clock := clock); [|exact E].
  rewrite Forall_forall in stamped. apply stamped, in_sort, Hm.
Qed.

Lemma conflicts_sorted :
  newestFirst
    (conflictTimes
       (Pipeline.auditData newDate jsonParse oracle apiKey calendar clock collected)).
Proof.
  unfold conflictTimes, Pipeline.auditData, Summary.auditDataOf. cbv zeta.
  cbn [Summary.conflicts]. unfold Pipeline.auditResults. cbv zeta.
  rewrite MatcherFacts.oracle_is_generic.
  set (ms := Pipeline.detectedMeetings jsonParse oracle apiKey clock collected).
  destruct (MatcherFacts.analyze_spec
              (AuditRunner.meetingDates newDate)
              (AuditRunner.meetingTimeForComparison newDate)
              Matcher.oracleWants Matcher.oracleMissing ms (calendar ms))
    as (A & _ & _).
  cbv zeta in A. rewrite A.
  apply sorted_flat_map with (keyA := Detection.timestamp);
    [|apply meetings_sorted].
  intros m c _ Hc.
  apply RecordFacts.in_rights, RecordFacts.in_meetingOutcomes in Hc
    as (e & _ & _ & O).
  pose proof (RecordFacts.outcome_about
                m e (AuditRunner.meetingTimeForComparison newDate m)) as Ab.
  rewrite <- O in Ab. cbn in Ab. injection Ab as -> _. reflexivity.
Qed.

Lemma missing_sorted :
  newestFirst
    (missingTimes
       (Pipeline.auditData newDate jsonParse oracle apiKey calendar clock collected)).
Proof.
  unfold missingTimes, Pipeline.auditData, Summary.auditDataOf. cbv zeta.
  cbn [Summary.missingEvents]. unfold Pipeline.auditResults. cbv zeta.
  rewrite MatcherFacts.oracle_is_generic.
  set (ms := Pipeline.detectedMeetings jsonParse oracle apiKey clock collected).
  destruct (MatcherFacts.analyze_spec
              (AuditRunner.meetingDates newDate)
              (AuditRunner.meetingTimeForComparison newDate)
              Matcher.oracleWants Matcher.oracleMissing ms (calendar ms))
    as (_ & _ & C).
  cbv zeta in C. rewrite C.
  apply sorted_flat_map with (keyA := Detection.timestamp);
    [|apply meetings_sorted].
  intros m x _ Hx. unfold Matcher.missingFor in Hx.
  destruct (Matcher.isNil _ && Matcher.oracleWants m); [|contradiction].
  destruct Hx as [<-|[]]. reflexivity.
Qed.

End Pipeline.

End OrderFacts.

Module SummaryFacts.
Import Audit Summary SummarySpec.

Lemma numbered_length {A : Type} (xs : list A) :
  List.length (numbered xs) = List.length xs.
Proof.
  unfold numbered. rewrite length_combine, length_seq. apply Nat.min_id.
Qed.

Lemma top3_length {A : Type} (xs : list A) :
  List.length (top3 xs) = Nat.min 3 (List.length xs).
Proof. unfold top3. apply length_firstn. Qed.

Lemma filter_all {A : Type} (p : Line -> bool) (f : A -> Line) (xs : list A) :
  (forall x, p (f x) = true) -> filter p (map f xs) = map f xs.
Proof.
  intros H. induction xs as [|x xs IH]; cbn; [reflexivity|].
  rewrite H, IH. reflexivity.
Qed.

Lemma filter_none {A : Type} (p : Line -> bool) (f : A -> Line) (xs : list A) :
  (forall x, p (f x) = false) -> filter p (map f xs) = [].
Proof.
  intros H. induction xs as [|x xs IH]; cbn; [reflexivity|].
  rewrite H, IH. reflexivity.
Qed.

Lemma conflict_items_of_conflictLines (cs : list Conflict) :
  filter isConflictItem (conflictLines cs) = map conflictItem (numbered (top3 cs))
  /\ filter isMissingItem (conflictLines cs) = [].
Proof.
  unfold conflictLines. destruct (0 <? List.length cs) eqn:E.
  - cbn [filter isConflictItem isMissingItem]. rewrite !filter_app.
    change (fun ic : nat * Conflict => _) with conflictItem.
    rewrite (filter_all isConflictItem conflictItem) by reflexivity.
    rewrite (filter_none isMissingItem conflictItem) by reflexivity.
    destruct (3 <? List.length cs); cbn; rewrite ?app_nil_r; split; reflexivity.
  - apply Nat.ltb_ge in E. destruct cs; [split; reflexivity | cbn in E; lia].
Qed.

Lemma missing_items_of_missingLines (ms : list Missing) :
  filter isMissingItem (missingLines ms) = map missingItem (numbered (top3 ms))
  /\ filter isConflictItem (missingLines ms) = [].
Proof.
  unfold missingLines. destruct (0 <? List.length ms) eqn:E.
  - cbn [filter isConflictItem isMissingItem]. rewrite !filter_app.
    change (fun im : nat * Missing => _) with missingItem.
    rewrite (filter_all isMissingItem missingItem) by reflexivity.
    rewrite (filter_none isConflictItem missingItem) by reflexivity.
    destruct (3 <? List.length ms); cbn; rewrite ?app_nil_r; split; reflexivity.
  - apply Nat.ltb_ge in E. destruct ms; [split; reflexivity | cbn in E; lia].
Qed.

(** The item lines of a summary that reports problems are those of the
    first three conflicts and of the first three missing meetings; the
    headers carry the lengths of the whole lists. *)
Lemma items_of_summary (data : AuditData) :
  allGood data = false ->
  let lines := sendComprehensiveSummary data in
  filter isConflictItem lines = map conflictItem (numbered (top3 (conflicts data)))
  /\ filter isMissingItem lines
     = map missingItem (numbered (top3 (missingEvents data)))
  /\ (conflicts data <> [] ->
      In (ConflictsHeader (List.length (conflicts data))) lines)
  /\ (missingEvents data <> [] ->
      In (MissingHeader (List.length (missingEvents data))) lines).
Proof.
  intros Bad. unfold sendComprehensiveSummary. rewrite Bad. cbv zeta.
  destruct (conflict_items_of_conflictLines (conflicts data)) as [A B].
  destruct (missing_items_of_missingLines (missingEvents data)) as [C D].
  cbn [filter isConflictItem isMissingItem app].
  rewrite !filter_app, A, B, C, D. cbn [filter isConflictItem isMissingItem].
  rewrite !app_nil_r. cbn [app].
  split; [reflexivity|]. split; [reflexivity|]. split; intros NE.
  - right. apply in_or_app. left. apply in_or_app. left.
    unfold conflictLines. destruct (conflicts data); [contradiction|].
    left. reflexivity.
  - right. apply in_or_app. left. apply in_or_app. right.
    unfold missingLines. destruct (missingEvents data); [contradiction|].
    left. reflexivity.
Qed.

End SummaryFacts.

(** C9, as the code has it.  The lists of conflicts and of missing meetings
    are in the order of the candidates, which is the order of the messages;
    getRecentMessages sorts the messages newest first, so the lists of a run
    are in descending order of the messages' timestamps.  A summary that
    reports problems shows the first three entries of each list, while its
    headers carry the lengths of the whole lists. *)
Theorem summary_lists_capped_and_newest_first :
  forall (newDate : Json.json -> JsDate.Date)
         (jsonParse : Js.text -> option Json.json)
         (oracle : Detection.t -> list Message.t -> option Js.text)
         (apiKey : option Js.text)
         (calendar : list Detection.t -> list Event.t)
         (clock : Clock) (collected : list Message.t),
    Forall (fun m => Json.Qzero (Message.timestamp m) = false) collected ->
    let data :=
      Pipeline.auditData newDate jsonParse oracle apiKey calendar clock collected in
    let lines := Summary.sendComprehensiveSummary data in
    SummarySpec.newestFirst (SummarySpec.conflictTimes data)
    /\ SummarySpec.newestFirst (SummarySpec.missingTimes data)
    /\ (Summary.allGood data = false ->
        filter SummarySpec.isConflictItem lines
        = map SummarySpec.conflictItem
              (Summary.numbered (firstn 3 (Summary.conflicts data)))
        /\ filter SummarySpec.isMissingItem lines
           = map SummarySpec.missingItem
                 (Summary.numbered (firstn 3 (Summary.missingEvents data)))
        /\ List.length (filter SummarySpec.isConflictItem lines)
           = Nat.min 3 (List.length (Summary.conflicts data))
        /\ List.length (filter SummarySpec.isMissingItem lines)
           = Nat.min 3 (List.length (Summary.missingEvents data))
        /\ (Summary.conflicts data <> [] ->
            In (Summary.ConflictsHeader (List.length (Summary.conflicts data)))
               lines)
        /\ (Summary.missingEvents data <> [] ->
            In (Summary.MissingHeader (List.length (Summary.missingEvents data)))
               lines)).
Proof.
  intros newDate jsonParse oracle apiKey calendar clock collected Stamped data lines.
  split; [apply OrderFacts.conflicts_sorted, Stamped|].
  split; [apply OrderFacts.missing_sorted, Stamped|].
  intros Bad.
  destruct (SummaryFacts.items_of_summary data Bad) as (A & B & C & D).
  fold lines in A, B, C, D. unfold Summary.top3 in A, B.
  split; [exact A|]. split; [exact B|].
  split; [rewrite A, length_map, SummaryFacts.numbered_length; apply length_firstn|].
  split; [rewrite B, length_map, SummaryFacts.numbered_length; apply length_firstn|].
  split; [exact C | exact D].
Qed.

(** Two stamped messages, the older one collected first. *)
Lemma summary_lists_capped_and_newest_first_witness :
  let data :=
    Pipeline.auditData Samples.noDate Json.parse Samples.noOracle None
                       Samples.emptyCalendar Samples.monday
                       [Samples.older; Samples.newer] in
  Forall (fun m => Json.Qzero (Message.timestamp m) = false)
         [Samples.older; Samples.newer]
  /\ SummarySpec.newestFirst (SummarySpec.conflictTimes data)
  /\ SummarySpec.newestFirst (SummarySpec.missingTimes data).
Proof.
  intros data.
  destruct (summary_lists_capped_and_newest_first
              Samples.noDate Json.parse Samples.noOracle None
              Samples.emptyCalendar Samples.monday
              [Samples.older; Samples.newer])
    as (A & B & _).
  - repeat constructor.
  - split; [repeat constructor|]. split; [exact A | exact B].
Defined.

(** C9, as the claim states it, fails: of two messages an hour apart, both
    reported missing, the newer one comes first in the list and in the
    summary. *)
Lemma missing_list_is_newest_first :
  let data :=
    Pipeline.auditData Samples.noDate Json.parse Samples.noOracle None
                       Samples.emptyCalendar Samples.monday
                       [Samples.older; Samples.newer] in
  SummarySpec.missingTimes data
  = [Message.timestamp Samples.newer; Message.timestamp Samples.older]
  /\ (Message.timestamp Samples.older < Message.timestamp Samples.newer)%Q
  /\ map (fun x => Detection.messageId (Audit.missingMeeting x))
         (Summary.missingEvents data)
     = [Message.id Samples.newer; Message.id Samples.older].
Proof. vm_compute. repeat split. Qed.

(** ** Sorting with a comparator *)

Module ArrFacts.

Section Sort.

Variable A : Type.
Variable le : A -> A -> bool.

Lemma insertBy_perm (x : A) (l : list A) :
  Permutation (Arr.insertBy le x l) (x :: l).
Proof.
  induction l as [|y l IH]; cbn; [reflexivity|].
  destruct (le x y); [reflexivity|].
  rewrite IH. apply perm_swap.
Qed.

Lemma sortBy_perm (l : list A) : Permutation (Arr.sortBy le l) l.
Proof.
  induction l as [|x l IH]; cbn; [reflexivity|].
  fold (Arr.sortBy le l). rewrite insertBy_perm, IH. reflexivity.
Qed.

Lemma sortBy_in (x : A) (l : list A) : In x (Arr.sortBy le l) <-> In x l.
Proof.
  split; apply Permutation_in; [|symmetry]; apply sortBy_perm.
Qed.

Lemma sortBy_length (l : list A) : List.length (Arr.sortBy le l) = List.length l.
Proof. apply Permutation_length, sortBy_perm. Qed.

Hypothesis le_total : forall a b, le a b = true \/ le b a = true.
Hypothesis le_trans : forall a b c, le a b = true -> le b c = true -> le a c = true.

Lemma insertBy_sorted (x : A) (l : list A) :
  StronglySorted (fun a b => le a b = true) l ->
  StronglySorted (fun a b => le a b = true) (Arr.insertBy le x l).
Proof.
  induction l as [|y l IH]; cbn; intros S.
  - repeat constructor.
  - apply StronglySorted_inv in S as [S F].
    destruct (le x y) eqn:E.
    + constructor; [constructor; assumption|].
      constructor; [exact E|].
      apply Forall_impl with (2 := F). intros z Hz. apply le_trans with y; assumption.
    + assert (L : le y x = true) by (destruct (le_total x y); congruence).
      constructor; [apply IH, S|].
      apply Forall_forall. intros z Hz.
      apply (Permutation_in _ (insertBy_perm x l)) in Hz.
      destruct Hz as [<-|Hz]; [exact L|].
      rewrite Forall_forall in F. apply F, Hz.
Qed.

Lemma sortBy_sorted (l : list A) :
  StronglySorted (fun a b => le a b = true) (Arr.sortBy le l).
Proof.
  induction l as [|x l IH]; cbn; [constructor|].
  apply insertBy_sorted, IH.
Qed.

End Sort.

(** Orders by a rational key, ascending and descending. *)
Lemma ascending_total {A : Type} (key : A -> Q) (a b : A) :
  Qle_bool (key a) (key b) = true \/ Qle_bool (key b) (key a) = true.
Proof.
  destruct (Qlt_le_dec (key b) (key a)) as [H|H].
  - right. apply Qle_bool_iff, Qlt_le_weak, H.
  - left. apply Qle_bool_iff, H.
Qed.

Lemma ascending_trans {A : Type} (key : A -> Q) (a b c : A) :
  Qle_bool (key a) (key b) = true -> Qle_bool (key b) (key c) = true ->
  Qle_bool (key a) (key c) = true.
Proof.
  rewrite !Qle_bool_iff. apply Qle_trans.
Qed.

Lemma sorted_impl {A : Type} (R R' : A -> A -> Prop) (l : list A) :
  (forall a b, R a b -> R' a b) -> StronglySorted R l -> StronglySorted R' l.
Proof.
  intros H. induction 1 as [|x l S IH F]; constructor; [exact IH|].
  apply Forall_impl with (2 := F). apply H.
Qed.

Lemma sorted_map_in {A B : Type} (R : A -> A -> Prop) (R' : B -> B -> Prop)
      (f : A -> B) (l : list A) :
  (forall a b, In a l -> In b l -> R a b -> R' (f a) (f b)) ->
  StronglySorted R l -> StronglySorted R' (map f l).
Proof.
  intros H S. induction S as [|x l S IH F]; cbn; constructor.
  - apply IH. intros a b Ha Hb. apply H; right; assumption.
  - apply Forall_forall. intros y Hy. apply in_map_iff in Hy as (b & <- & Hb).
    rewrite Forall_forall in F. apply H; [left; reflexivity|right; exact Hb|].
    apply F, Hb.
Qed.

(** Sorting by a key, smallest first. *)
Lemma sortBy_ascending {A : Type} (key : A -> Q) (l : list A) :
  StronglySorted (fun a b => (key a <= key b)%Q)
                 (Arr.sortBy (fun a b => Qle_bool (key a) (key b)) l).
Proof.
  apply sorted_impl with (R := fun a b => Qle_bool (key a) (key b) = true).
  - intros a b. apply Qle_bool_iff.
  - apply sortBy_sorted.
    + intros a b. apply ascending_total.
    + intros a b c. apply ascending_trans.
Qed.

(** Sorting by a key, largest first. *)
Lemma sortBy_descending {A : Type} (key : A -> Q) (l : list A) :
  StronglySorted (fun a b => (key b <= key a)%Q)
                 (Arr.sortBy (fun a b => Qle_bool (key b) (key a)) l).
Proof.
  apply sorted_impl with (R := fun a b => Qle_bool (key b) (key a) = true).
  - intros a b. apply Qle_bool_iff.
  - apply sortBy_sorted.
    + intros a b. destruct (ascending_total key a b); [right|left]; assumption.
    + intros a b c H1 H2. apply (ascending_trans key c b a); assumption.
Qed.

End ArrFacts.

(** ** Patterns *)

Module RegexFacts.
Import Js Regex.



(** Case folding is idempotent. *)
Lemma upperUnit_idem (c : N) : upperUnit (upperUnit c) = upperUnit c.
Proof.
  unfold upperUnit, isLowerAscii.
  destruct ((97 <=? c) && (c <=? 122))%N eqn:E; [|rewrite E; reflexivity].
  apply andb_true_iff in E. destruct E as [A B]. apply N.leb_le in A, B.
  replace (97 <=? c - 32)%N with false by (symmetry; apply N.leb_gt; lia).
  reflexivity.
Qed.

(** A literal with the [i] flag sees the input through case folding. *)
Lemma litAt_fold (l s : text) :
  litAt true l (map upperUnit s) = option_map (map upperUnit) (litAt true l s).
Proof.
  revert s. induction l as [|a l IH]; intros s; [reflexivity|].
  destruct s as [|b s]; [reflexivity|]. cbn [map litAt]. unfold sameUnit.
  rewrite upperUnit_idem. destruct (upperUnit a =? upperUnit b)%N; [apply IH|reflexivity].
Qed.

Lemma alts_fold (ws : list string) (pos : nat) (s : text) :
  run true (alts ws) pos (map upperUnit s) (fun e _ => Some e)
  = run true (alts ws) pos s (fun e _ => Some e).
Proof.
  unfold alts. induction ws as [|w ws IH]; [reflexivity|].
  assert (L : run true (lit w) pos (map upperUnit s) (fun e _ => Some e)
              = run true (lit w) pos s (fun e _ => Some e)).
  { unfold lit. cbn [run]. rewrite litAt_fold.
    destruct (litAt true (u w) s); reflexivity. }
  destruct ws as [|w' ws]; [exact L|].
  change (alt (map lit (w :: w' :: ws)))
    with (Alt (lit w) (alt (map lit (w' :: ws)))).
  cbn [run]. rewrite L, IH. reflexivity.
Qed.

Lemma search_alts_fold (ws : list string) (pos : nat) (s : text) :
  search true (alts ws) pos (map upperUnit s) = search true (alts ws) pos s.
Proof.
  revert pos. induction s as [|c s IH]; intros pos; cbn [map search]; unfold matchAt.
  - reflexivity.
  - change (upperUnit c :: map upperUnit s) with (map upperUnit (c :: s)).
    rewrite alts_fold. destruct (run _ _ _ _ _); [reflexivity|apply IH].
Qed.

(** The word tests of parseDates do not see the letter case of a token. *)
Lemma has_fold (ws : list string) (s : text) :
  KeywordDetector.has ws (map upperUnit s) = KeywordDetector.has ws s.
Proof.
  unfold KeywordDetector.has, test. rewrite search_alts_fold. reflexivity.
Qed.

Lemma has_same_letters (ws : list string) (s t : text) :
  map upperUnit s = map upperUnit t ->
  KeywordDetector.has ws s = KeywordDetector.has ws t.
Proof. intros E. rewrite <- (has_fold ws s), <- (has_fold ws t), E. reflexivity. Qed.

End RegexFacts.

(** ** Date tokens in any letter case *)

Module TokenFacts.
Import Js JsDate DateSpec TokenSpec.

(** A token with the letters of a word that parseDates knows takes the
    branch of the word. *)
Lemma parseDate_same_letters (now : Date) (tok : text) (word : string) :
  sameLetters tok (u word) ->
  existsb (fun ws => KeywordDetector.has ws (u word)) wordGroups = true ->
  KeywordDetector.parseDate now tok = KeywordDetector.parseDate now (u word).
Proof.
  intros H W. unfold KeywordDetector.parseDate.
  rewrite !(RegexFacts.has_same_letters _ tok (u word) H).
  unfold wordGroups in W. cbn [existsb] in W.
  repeat match goal with
         | |- (if ?b then _ else _) = (if ?b then _ else _) =>
           destruct b; [reflexivity|]; cbn [orb] in W
         end.
  discriminate W.
Qed.

Lemma add_in_range (day minute k : Z) :
  (Z.abs day + 7 <= maxDay)%Z -> (0 <= k <= 7)%Z ->
  addDays k (DateAt day minute) = DateAt (day + k) minute.
Proof.
  intros R K. cbn [addDays]. unfold mkDate.
  replace (Z.abs (day + k) <=? maxDay)%Z with true; [reflexivity|].
  symmetry. apply Z.leb_le. lia.
Qed.

Lemma relative_word (day minute : Z) :
  (Z.abs day + 7 <= maxDay)%Z ->
  Forall (fun p => KeywordDetector.parseDate (DateAt day minute) (u (fst p))
                   = Some (DateAt (day + snd p) minute))
         relativeWords.
Proof.
  intros R. unfold relativeWords.
  repeat constructor; cbn [fst snd]; DateFacts.decide_branch;
    rewrite ?(add_in_range day minute 1 R) by lia; rewrite ?Z.add_0_r; reflexivity.
Qed.

Lemma known_words :
  Forall (fun w => existsb (fun ws => KeywordDetector.has ws (u w)) wordGroups = true)
         (map fst relativeWords ++ map fst englishWeekdays).
Proof. repeat constructor. Qed.

End TokenFacts.

(** X1. getNextWeekday, asked for a weekday number between 0 and 6 on a valid
    date, returns the same time of day on the next day that falls on that
    weekday: between one and seven days ahead, and a full week ahead when
    the current day is itself of that weekday. *)
Theorem getNextWeekday_is_the_next_occurrence :
  forall day minute target : Z,
    (0 <= target <= 6)%Z -> (Z.abs day + 7 <= JsDate.maxDay)%Z ->
    exists k,
      KeywordDetector.getNextWeekday (JsDate.DateAt day minute) target
      = JsDate.DateAt (day + k) minute
      /\ DateSpec.nextOccurrence day target k
      /\ (JsDate.weekdayOf day = target -> k = 7%Z).
Proof. intros day minute target. apply DateFacts.getNextWeekday_next. Qed.

(** On Monday 16 December 2024 the next Monday is a week later and the next
    Sunday six days later. *)
Lemma getNextWeekday_is_the_next_occurrence_witness :
  (exists k,
     KeywordDetector.getNextWeekday (JsDate.DateAt 20073 600) 1
     = JsDate.DateAt (20073 + k) 600
     /\ DateSpec.nextOccurrence 20073 1 k
     /\ (JsDate.weekdayOf 20073 = 1%Z -> k = 7%Z))
  /\ KeywordDetector.getNextWeekday (JsDate.DateAt 20073 600) 0
     = JsDate.DateAt 20079 600.
Proof.
  split; [|reflexivity].
  apply (getNextWeekday_is_the_next_occurrence 20073 600 1); unfold JsDate.maxDay; lia.
Defined.

(** X2. parseDates resolves the relative words and the English weekday names
    in any letter case, as the extractor cuts them out of a message: a token
    with the letters of "tomorrow" or "מחר" to the day after the clock's, one
    with the letters of "today" or "היום" to the clock's day, and one with
    the letters of an English weekday name to the next day that falls on
    that weekday; the time of day is the clock's. *)
Theorem date_words_resolve_in_any_letter_case :
  forall (day minute : Z) (tok : Js.text),
    (Z.abs day + 7 <= JsDate.maxDay)%Z ->
    Forall (fun p =>
              TokenSpec.sameLetters tok (Js.u (fst p)) ->
              KeywordDetector.parseDates (JsDate.DateAt day minute) [tok]
              = [JsDate.DateAt (day + snd p) minute])
           TokenSpec.relativeWords
    /\ Forall (fun p =>
                 TokenSpec.sameLetters tok (Js.u (fst p)) ->
                 exists k,
                   KeywordDetector.parseDates (JsDate.DateAt day minute) [tok]
                   = [JsDate.DateAt (day + k) minute]
                   /\ DateSpec.nextOccurrence day (snd p) k)
              DateSpec.englishWeekdays.
Proof.
  intros day minute tok R.
  pose proof TokenFacts.known_words as K. apply Forall_app in K. destruct K as [K1 K2].
  split.
  - pose proof (TokenFacts.relative_word day minute R) as W.
    rewrite Forall_forall in *. intros p Hp S.
    unfold KeywordDetector.parseDates. cbn [flat_map].
    rewrite (TokenFacts.parseDate_same_letters _ tok (fst p) S
               (K1 _ (in_map fst _ _ Hp))).
    rewrite (W p Hp). reflexivity.
  - pose proof (DateFacts.english_weekday_branch (JsDate.DateAt day minute)) as W.
    rewrite Forall_forall in *. intros p Hp S.
    assert (T : (0 <= snd p <= 6)%Z).
    { unfold DateSpec.englishWeekdays in Hp. cbn in Hp.
      repeat (destruct Hp as [<-|Hp]; [cbn; lia|]). contradiction. }
    destruct (DateFacts.getNextWeekday_next day minute (snd p) T R) as (k & E & Nx & _).
    exists k. split; [|exact Nx].
    unfold KeywordDetector.parseDates. cbn [flat_map].
    rewrite (TokenFacts.parseDate_same_letters _ tok (fst p) S
               (K2 _ (in_map fst _ _ Hp))).
    rewrite (W p Hp), E. reflexivity.
Qed.

(** "Tomorrow" and "FRIDAY" on Monday 16 December 2024. *)
Lemma date_words_resolve_in_any_letter_case_witness :
  KeywordDetector.parseDates (JsDate.DateAt 20073 600) [Js.u "Tomorrow"]
  = [JsDate.DateAt (20073 + 1) 600]
  /\ exists k,
       KeywordDetector.parseDates (JsDate.DateAt 20073 600) [Js.u "FRIDAY"]
       = [JsDate.DateAt (20073 + k) 600]
       /\ DateSpec.nextOccurrence 20073 5 k.
Proof.
  split.
  - destruct (date_words_resolve_in_any_letter_case 20073 600 (Js.u "Tomorrow"))
      as [A _]; [unfold JsDate.maxDay; lia|].
    rewrite Forall_forall in A.
    apply (A ("tomorrow", 1%Z)); [left; reflexivity|reflexivity].
  - destruct (date_words_resolve_in_any_letter_case 20073 600 (Js.u "FRIDAY"))
      as [_ B]; [unfold JsDate.maxDay; lia|].
    rewrite Forall_forall in B.
    apply (B ("friday", 5%Z)); [cbn; tauto|reflexivity].
Defined.

(** ** The oracle step without a key *)

Module EnhanceFacts.
Import EnhanceSpec.

Lemma above_integer (c n : Z) :
  Json.gtNum (Json.Fin (inject_Z c)) (inject_Z n) = (n <? c)%Z.
Proof.
  cbn [Json.gtNum]. unfold Qle_bool. cbn [inject_Z Qnum Qden].
  rewrite !Z.mul_1_r. rewrite Z.ltb_antisym. reflexivity.
Qed.

Lemma fallback_accepted (d : Detection.t) :
  Verdict.isValidMeeting (LLMAnalyzer.getFallbackResult d)
  && Json.gtNum (Verdict.confidence (LLMAnalyzer.getFallbackResult d)) 50
  = fallbackAccepts d.
Proof.
  unfold LLMAnalyzer.getFallbackResult, fallbackAccepts. cbv zeta.
  cbn [Verdict.isValidMeeting Verdict.confidence].
  change 50%Q with (inject_Z 50). rewrite above_integer.
  destruct (Num.truthyText _ || Num.truthyText _); cbn [andb]; [|reflexivity].
  destruct (Z.ltb_spec 50 (Num.round (Detection.confidence d * 100)));
    destruct (Z.ltb_spec 30 (Num.round (Detection.confidence d * 100)));
    try reflexivity; lia.
Qed.

End EnhanceFacts.

(** X3. Without an API key, enhanceWithLLMAnalysis of the runner keeps
    exactly the candidates that have a date or a time token and a rounded
    confidence percentage above 50, in their order, and attaches the
    fallback verdict to each; the oracle and the messages play no part. *)
Theorem enhance_without_key_keeps_dated_above_half :
  forall (jsonParse : Js.text -> option Json.json)
         (oracle : Detection.t -> list Message.t -> option Js.text)
         (apiKey : option Js.text) (clock : Clock)
         (keywordDetections : list Detection.t) (allMessages : list Message.t),
    LLMAnalyzer.enabled apiKey = false ->
    AuditRunner.enhanceWithLLMAnalysis jsonParse oracle apiKey clock
                                       keywordDetections allMessages
    = map EnhanceSpec.withFallback
          (filter EnhanceSpec.fallbackAccepts keywordDetections).
Proof.
  intros jsonParse oracle apiKey clock ds msgs Off.
  unfold AuditRunner.enhanceWithLLMAnalysis.
  induction ds as [|d ds IH]; [reflexivity|].
  cbn [flat_map filter]. rewrite IH. clear IH.
  unfold LLMAnalyzer.analyzeConversation. rewrite Off. cbn [negb].
  rewrite EnhanceFacts.fallback_accepted.
  destruct (EnhanceSpec.fallbackAccepts d); reflexivity.
Qed.

(** A blank key: the candidate of "Let's meet tomorrow at 3" (85%, with a
    date token) is kept, a candidate at 30% is not. *)
Lemma enhance_without_key_keeps_dated_above_half_witness :
  LLMAnalyzer.enabled (Some (Js.u "  ")) = false
  /\ AuditRunner.enhanceWithLLMAnalysis Json.parse Samples.noOracle
       (Some (Js.u "  ")) Samples.monday
       (KeywordDetector.detectMeetings Samples.monday
          [Samples.meetTomorrow; Samples.callMe]) []
     = map EnhanceSpec.withFallback
           (filter EnhanceSpec.fallbackAccepts
                   (KeywordDetector.detectMeetings Samples.monday
                      [Samples.meetTomorrow; Samples.callMe])).
Proof.
  split; [reflexivity|].
  apply (enhance_without_key_keeps_dated_above_half
           Json.parse Samples.noOracle (Some (Js.u "  ")) Samples.monday).
  reflexivity.
Defined.

(** X4. Without an API key, detectMeetings of the TypeScript detector
    returns every candidate of the keyword analysis, in the order of the
    messages, each with the fallback verdict attached: the verdict is
    recorded and not used to filter. *)
Theorem ts_detect_without_key_keeps_every_candidate :
  forall (jsonParse : Js.text -> option Json.json)
         (oracle : Detection.t -> list Message.t -> option Js.text)
         (apiKey : option Js.text) (clock : Clock) (messages : list Message.t),
    LLMAnalyzer.enabled apiKey = false ->
    KeywordDetectorTs.detectMeetings jsonParse oracle apiKey clock messages
    = map EnhanceSpec.withFallbackTs (EnhanceSpec.keywordCandidates clock messages).
Proof.
  intros jsonParse oracle apiKey clock messages Off.
  unfold KeywordDetectorTs.detectMeetings, EnhanceSpec.keywordCandidates.
  rewrite (flat_map_ext _
             (fun message =>
                match KeywordDetectorTs.analyzeMessage clock message with
                | Some d => [EnhanceSpec.withFallbackTs d]
                | None => []
                end)).
  - induction messages as [|m ms IH]; [reflexivity|].
    cbn [flat_map]. rewrite map_app, IH.
    destruct (KeywordDetectorTs.analyzeMessage clock m); reflexivity.
  - intros m. destruct (KeywordDetectorTs.analyzeMessage clock m) as [d|]; [|reflexivity].
    cbv zeta. rewrite Off. unfold LLMAnalyzerTs.analyzeConversation. rewrite Off.
    reflexivity.
Qed.

(** With no key at all, the message "call" (30%, no date or time) is
    returned with a verdict that calls it invalid. *)
Lemma ts_detect_without_key_keeps_every_candidate_witness :
  KeywordDetectorTs.detectMeetings Json.parse Samples.noOracle None
                                   Samples.monday [Samples.callMe]
  = map EnhanceSpec.withFallbackTs
        (EnhanceSpec.keywordCandidates Samples.monday [Samples.callMe])
  /\ List.length (EnhanceSpec.keywordCandidates Samples.monday [Samples.callMe]) = 1.
Proof.
  split; [|reflexivity].
  apply (ts_detect_without_key_keeps_every_candidate
           Json.parse Samples.noOracle None Samples.monday [Samples.callMe]).
  reflexivity.
Defined.

(** ** The conversation context *)

Module ContextFacts.
Import ContextSpec.

Lemma text_eqb_eq (a b : Js.text) : Js.text_eqb a b = true <-> a = b.
Proof.
  unfold Js.text_eqb. destruct (list_eq_dec N.eq_dec a b); split; congruence.
Qed.

Lemma absWithin_iff (a b w : Q) : Num.absWithin a b w = true <-> (Qabs (a - b) <= w)%Q.
Proof. unfold Num.absWithin. apply Qle_bool_iff. Qed.

Lemma absWithin_self (t w : Q) : (0 <= w)%Q -> Num.absWithin t t w = true.
Proof.
  intros W. apply absWithin_iff. apply Qabs_Qle_condition. split; lra.
Qed.

Lemma isEmpty_iff (s : Js.text) : match s with [] => true | _ => false end = true <-> s = [].
Proof. destruct s; split; congruence. Qed.

End ContextFacts.

(** X5. getConversationContext of the TypeScript detector returns, oldest
    first, exactly the messages of the chat of the target message that lie
    within two hours of it; the target message itself, when it is among the
    messages, is always part of its context. *)
Theorem ts_context_is_the_two_hour_window_of_the_chat :
  forall (targetMessage : Message.t) (allMessages : list Message.t),
    let context := KeywordDetectorTs.getConversationContext targetMessage allMessages in
    ContextSpec.oldestFirst context
    /\ (forall m,
          In m context
          <-> In m allMessages
              /\ Message.chatId m = Message.chatId targetMessage
              /\ ContextSpec.withinTwoHours (Message.timestamp m)
                                            (Message.timestamp targetMessage))
    /\ (In targetMessage allMessages -> In targetMessage context)
    /\ List.length context <= List.length allMessages.
Proof.
  intros target all context.
  assert (Mem : forall m,
             In m context
             <-> In m all
                 /\ Message.chatId m = Message.chatId target
                 /\ ContextSpec.withinTwoHours (Message.timestamp m)
                                               (Message.timestamp target)).
  { intros m. unfold context, KeywordDetectorTs.getConversationContext. cbv zeta.
    rewrite ArrFacts.sortBy_in, !filter_In, ContextFacts.text_eqb_eq,
      ContextFacts.absWithin_iff.
    unfold ContextSpec.withinTwoHours. tauto. }
  split; [apply ArrFacts.sortBy_ascending|]. split; [exact Mem|]. split.
  - intros H. apply Mem. split; [exact H|]. split; [reflexivity|].
    apply ContextFacts.absWithin_iff, ContextFacts.absWithin_self. discriminate.
  - unfold context, KeywordDetectorTs.getConversationContext. cbv zeta.
    rewrite ArrFacts.sortBy_length.
    eapply Nat.le_trans; apply filter_length_le.
Qed.

(** X6. getConversationContext of the runner returns, oldest first, exactly
    the messages that lie within two hours of the candidate and are of its
    chat, sent by an id equal to the candidate's sender name, or without a
    chat like the candidate; a message without a timestamp counts as sent
    now for the window, and as sent at time 0 for the order.  The message a
    candidate was detected in is always part of the candidate's context. *)
Theorem runner_context_is_the_two_hour_window :
  forall (clock : Clock) (targetDetection : Detection.t)
         (allMessages : list Message.t),
    let context :=
      AuditRunner.getConversationContext clock targetDetection allMessages in
    ContextSpec.oldestFirst context
    /\ (forall m,
          In m context
          <-> In m allMessages
              /\ ContextSpec.related targetDetection m
              /\ ContextSpec.withinTwoHours (ContextSpec.messageTime clock m)
                                            (Detection.timestamp targetDetection))
    /\ (forall message,
          In message allMessages ->
          KeywordDetector.analyzeMessage clock message = Some targetDetection ->
          In message context).
Proof.
  intros clock d all context.
  assert (Mem : forall m,
             In m context
             <-> In m all
                 /\ ContextSpec.related d m
                 /\ ContextSpec.withinTwoHours (ContextSpec.messageTime clock m)
                                               (Detection.timestamp d)).
  { intros m. unfold context, AuditRunner.getConversationContext. cbv zeta.
    rewrite ArrFacts.sortBy_in, !filter_In, !orb_true_iff, andb_true_iff,
      !ContextFacts.text_eqb_eq, !ContextFacts.isEmpty_iff,
      ContextFacts.absWithin_iff.
    unfold ContextSpec.withinTwoHours, ContextSpec.related, ContextSpec.messageTime.
    tauto. }
  split; [apply ArrFacts.sortBy_ascending|]. split; [exact Mem|].
  intros message H C. apply Mem. split; [exact H|].
  unfold KeywordDetector.analyzeMessage in C. cbv zeta in C.
  destruct (Js.trim _); [discriminate|].
  destruct (_ =? 0); [discriminate|].
  destruct (Num.ltb _ _); [discriminate|].
  injection C as <-. cbn [Detection.chatId Detection.timestamp]. split.
  - left. reflexivity.
  - unfold ContextSpec.messageTime.
    apply ContextFacts.absWithin_iff, ContextFacts.absWithin_self. discriminate.
Qed.

(** ** Matching events of the TypeScript service *)

Module ScoreFacts.
Import AuditService.

Section Service.

Variable parseISO : Js.text -> JsDate.Date.
Variable newDate : Js.text -> JsDate.Date.

Lemma names_gap (hit : Js.text -> bool) (names : list Js.text) (s : Q) :
  (s == 0 \/ 0.3 <= s)%Q ->
  (fold_left (fun score name => if hit name then (score + 0.4)%Q else score) names s
   == 0
   \/ 0.3 <= fold_left (fun score name => if hit name then (score + 0.4)%Q else score)
                       names s)%Q.
Proof.
  revert s. induction names as [|n names IH]; intros s Hs; cbn [fold_left]; [exact Hs|].
  apply IH. destruct (hit n); [|exact Hs]. right. destruct Hs as [E|L]; lra.
Qed.

(** A score is 0 or at least 0.3: every hit adds 0.3 or 0.4. *)
Lemma score_gap (meeting : Detection.t) (event : CalendarEvent.t) :
  (scoreOf parseISO newDate meeting event == 0
   \/ 0.3 <= scoreOf parseISO newDate meeting event)%Q.
Proof.
  unfold scoreOf. cbv zeta.
  assert (Zero : (0 == 0 \/ 0.3 <= 0)%Q) by (left; reflexivity).
  destruct (Detection.detectedNames meeting) as [names|].
  - match goal with
    | |- context [fold_left ?f names 0%Q] =>
      assert (N : (fold_left f names 0 == 0 \/ 0.3 <= fold_left f names 0)%Q)
        by (apply names_gap; exact Zero);
      generalize dependent (fold_left f names 0%Q)
    end.
    intros ns N.
    assert (S : forall b : bool,
               ((if b then (ns + 0.3)%Q else ns) == 0
                \/ 0.3 <= (if b then (ns + 0.3)%Q else ns))%Q).
    { intros [|]; [right; destruct N; lra|exact N]. }
    destruct (Detection.senderName meeting) as [|c sender];
      destruct (Detection.detectedDate meeting) as [[|c' d]|];
      try exact N; try apply S;
        destruct (isDateMatching _ _ _ _); try exact N; try apply S;
          right; try (destruct N; lra);
            match goal with
            | |- context [if ?b then _ else _] => destruct (S b); lra
            end.
  - assert (S : forall b : bool,
               ((if b then (0 + 0.3)%Q else 0) == 0
                \/ 0.3 <= (if b then (0 + 0.3)%Q else 0))%Q).
    { intros [|]; [right; lra|exact Zero]. }
    destruct (Detection.senderName meeting) as [|c sender];
      destruct (Detection.detectedDate meeting) as [[|c' d]|];
      try exact Zero; try apply S;
        destruct (isDateMatching _ _ _ _); try exact Zero; try apply S;
          right; try lra;
            match goal with
            | |- context [if ?b then _ else _] => destruct (S b); lra
            end.
Qed.

Lemma above_threshold (meeting : Detection.t) (event : CalendarEvent.t) :
  Num.gtb (scoreOf parseISO newDate meeting event) 0.2 = true
  <-> (0 < scoreOf parseISO newDate meeting event)%Q.
Proof.
  unfold Num.gtb. rewrite negb_true_iff, <- not_true_iff_false, Qle_bool_iff.
  pose proof (score_gap meeting event) as G.
  split; [intros H|intros H L]; destruct G; lra.
Qed.

Lemma in_matches (meeting : Detection.t) (events : list CalendarEvent.t)
      (p : CalendarEvent.t * Q) :
  In p (flat_map (fun event =>
                    let score := scoreOf parseISO newDate meeting event in
                    if Num.gtb score 0.2 then [(event, score)] else [])
                 events)
  <-> In (fst p) events
      /\ snd p = scoreOf parseISO newDate meeting (fst p)
      /\ (0 < scoreOf parseISO newDate meeting (fst p))%Q.
Proof.
  rewrite in_flat_map. cbv zeta. split.
  - intros (e & He & H).
    destruct (Num.gtb _ _) eqn:G; [|contradiction].
    destruct H as [<-|[]]. cbn [fst snd].
    split; [exact He|]. split; [reflexivity|]. apply above_threshold, G.
  - intros (He & Hs & Hp). exists (fst p). split; [exact He|].
    apply above_threshold in Hp. rewrite Hp. left.
    destruct p as [e s]. cbn [fst snd] in *. subst s. reflexivity.
Qed.

End Service.

End ScoreFacts.

(** X7. findMatchingEvents returns the calendar events with a positive
    score, the best first: the threshold of 0.2 lets every event through
    that mentions a detected name or the sender, or starts on the detected
    date, since a single hit already scores 0.3; an event without any hit is
    never returned. *)
Theorem matching_events_are_the_scored_ones_best_first :
  forall (parseISO newDate : Js.text -> JsDate.Date)
         (meeting : Detection.t) (calendarEvents : list AuditService.CalendarEvent.t),
    let score := AuditService.scoreOf parseISO newDate meeting in
    let found := AuditService.findMatchingEvents parseISO newDate meeting calendarEvents in
    (forall event, In event found <-> In event calendarEvents /\ (0 < score event)%Q)
    /\ StronglySorted (fun a b => (score b <= score a)%Q) found
    /\ (forall event, (score event == 0 \/ 0.3 <= score event)%Q).
Proof.
  intros parseISO newDate meeting events score found.
  split; [|split].
  - intros e. unfold found, AuditService.findMatchingEvents. cbv zeta.
    rewrite in_map_iff. split.
    + intros (p & <- & Hp). apply ArrFacts.sortBy_in in Hp.
      apply ScoreFacts.in_matches in Hp. tauto.
    + intros (He & Hs). exists (e, score e). split; [reflexivity|].
      apply ArrFacts.sortBy_in. apply ScoreFacts.in_matches. cbn [fst snd].
      split; [exact He|]. split; [reflexivity|exact Hs].
  - unfold found, AuditService.findMatchingEvents. cbv zeta.
    apply ArrFacts.sorted_map_in
      with (R := fun a b : AuditService.CalendarEvent.t * Q => (snd b <= snd a)%Q).
    + intros a b Ha Hb. apply ArrFacts.sortBy_in in Ha, Hb.
      apply ScoreFacts.in_matches in Ha, Hb.
      destruct Ha as (_ & -> & _), Hb as (_ & -> & _). trivial.
    + apply ArrFacts.sortBy_descending.
  - intros e. apply ScoreFacts.score_gap.
Qed.

(** ** Audit records of the TypeScript service *)

Module RecordCountFacts.
Import AuditService.

Section Service.

Variable parseISO : Js.text -> JsDate.Date.
Variable newDate : Js.text -> JsDate.Date.
Variable isWithinInterval : JsDate.Date -> JsDate.Date -> JsDate.Date -> option bool.
Variable formatHHmm : JsDate.Date -> option Js.text.
Variable clock : Clock.
Variable events : list CalendarEvent.t.

Let audit := fun meeting =>
  auditMeeting parseISO newDate isWithinInterval formatHHmm clock meeting events.

Lemma missing_status (m : Detection.t) :
  isStatus missing_from_calendar (audit m)
  = Matcher.isNil (findMatchingEvents parseISO newDate m events).
Proof.
  unfold audit, auditMeeting, isStatus.
  destruct (findMatchingEvents parseISO newDate m events); [reflexivity|].
  destruct (detectConflict _ _ _ _ _) as [[|c s]|]; reflexivity.
Qed.

Lemma one_status (m : Detection.t) :
  isStatus missing_from_calendar (audit m) && isStatus conflict_detected (audit m)
  = false.
Proof. unfold isStatus. destruct (status (audit m)); reflexivity. Qed.

Lemma count_missing (ms : list Detection.t) :
  List.length (filter (isStatus missing_from_calendar) (map audit ms))
  = List.length
      (filter (fun m => Matcher.isNil (findMatchingEvents parseISO newDate m events)) ms).
Proof.
  induction ms as [|m ms IH]; [reflexivity|].
  cbn [map filter]. rewrite missing_status.
  destruct (Matcher.isNil _); cbn [List.length]; rewrite IH; reflexivity.
Qed.

Lemma count_both (ms : list Detection.t) :
  List.length (filter (isStatus missing_from_calendar) (map audit ms))
  + List.length (filter (isStatus conflict_detected) (map audit ms))
  <= List.length ms.
Proof.
  induction ms as [|m ms IH]; [cbn; lia|].
  cbn [map filter List.length]. pose proof (one_status m) as O.
  destruct (isStatus missing_from_calendar (audit m)),
           (isStatus conflict_detected (audit m));
    cbn [List.length]; try discriminate O; lia.
Qed.

End Service.

End RecordCountFacts.

(** X8. The summary of performAudit counts one audit record per candidate.
    The candidates reported missing are those without a matching event, so
    missing and conflicting candidates together never outnumber the
    candidates, and with an empty calendar every candidate is reported
    missing.  The field totalMessages repeats the number of candidates: the
    number of messages scanned is not reported. *)
Theorem audit_summary_counts_one_record_per_candidate :
  forall (parseISO newDate : Js.text -> JsDate.Date)
         (isWithinInterval : JsDate.Date -> JsDate.Date -> JsDate.Date -> option bool)
         (formatHHmm : JsDate.Date -> option Js.text)
         (clock : Clock) (meetings : list Detection.t)
         (calendarEvents : list AuditService.CalendarEvent.t),
    let records :=
      AuditService.auditRecords parseISO newDate isWithinInterval formatHHmm
                                clock meetings calendarEvents in
    let summary := AuditService.createSummary meetings records in
    List.length records = List.length meetings
    /\ AuditService.totalMessages summary = List.length meetings
    /\ AuditService.detectedMeetings summary = List.length meetings
    /\ AuditService.missingFromCalendar summary
       = List.length
           (filter (fun meeting =>
                      Matcher.isNil
                        (AuditService.findMatchingEvents parseISO newDate meeting
                                                         calendarEvents))
                   meetings)
    /\ AuditService.missingFromCalendar summary + AuditService.conflicts summary
       <= AuditService.detectedMeetings summary
    /\ (calendarEvents = [] ->
        AuditService.missingFromCalendar summary = List.length meetings
        /\ AuditService.conflicts summary = 0).
Proof.
  intros parseISO newDate isWithinInterval formatHHmm clock meetings events
         records summary.
  unfold summary, records, AuditService.createSummary, AuditService.auditRecords.
  cbn [AuditService.totalMessages AuditService.detectedMeetings
       AuditService.missingFromCalendar AuditService.conflicts].
  split; [apply length_map|]. split; [reflexivity|]. split; [reflexivity|].
  split; [apply RecordCountFacts.count_missing|].
  split; [apply RecordCountFacts.count_both|].
  intros ->.
  pose proof (RecordCountFacts.count_missing parseISO newDate isWithinInterval
                formatHHmm clock [] meetings) as M.
  pose proof (RecordCountFacts.count_both parseISO newDate isWithinInterval
                formatHHmm clock [] meetings) as B.
  assert (All : filter (fun m => Matcher.isNil
                                   (AuditService.findMatchingEvents parseISO newDate m []))
                       meetings = meetings).
  { clear. induction meetings as [|m ms IH]; [reflexivity|].
    cbn [filter]. change (AuditService.findMatchingEvents parseISO newDate m [])
      with (@nil AuditService.CalendarEvent.t).
    cbn [Matcher.isNil]. rewrite IH. reflexivity. }
  rewrite All in M. lia.
Qed.

(** With no event in the calendar the candidate of "call" is counted as
    missing. *)
Lemma audit_summary_counts_one_record_per_candidate_witness :
  let summary :=
    AuditService.createSummary
      [Samples.callToday]
      (AuditService.auditRecords Samples.noParse Samples.noParse Samples.noInterval
                                 Samples.noFormat Samples.monday
                                 [Samples.callToday] []) in
  AuditService.missingFromCalendar summary = 1 /\ AuditService.conflicts summary = 0.
Proof.
  intros summary.
  destruct (audit_summary_counts_one_record_per_candidate
              Samples.noParse Samples.noParse Samples.noInterval Samples.noFormat
              Samples.monday [Samples.callToday] [])
    as (_ & _ & _ & _ & _ & Empty).
  exact (Empty eq_refl).
Defined.

(** ** The confidence of a verdict *)

Module VerdictFacts.
Import VerdictSpec.

Lemma clamp100_percent (x : Json.number) : percentOrNaN (Json.clamp100 x).
Proof.
  destruct x as [q| | |]; cbn; try exact I; try (split; discriminate).
  split.
  - apply Q.le_max_l.
  - apply Q.max_lub; [discriminate|apply Q.le_min_l].
Qed.

Lemma verdictOf_percent (parsed : Json.json) (v : Verdict.t) :
  LLMAnalyzer.verdictOf parsed = Some v -> percentOrNaN (Verdict.confidence v).
Proof.
  unfold LLMAnalyzer.verdictOf.
  repeat match goal with
         | |- context [match Json.getProp ?p ?k with _ => _ end] =>
           destruct (Json.getProp p k); [|discriminate]
         end.
  intros H. injection H as <-. apply clamp100_percent.
Qed.

Lemma failed_percent : percentOrNaN (Verdict.confidence LLMAnalyzer.failedVerdict).
Proof. cbn. split; discriminate. Qed.

Lemma round_percent (c : Q) :
  (0 <= c <= 1)%Q -> (0 <= inject_Z (Num.round (c * 100)) <= 100)%Q.
Proof.
  intros [L U]. unfold Num.round.
  assert (A : (Qfloor (1 # 2) <= Qfloor (c * 100 + (1 # 2)))%Z)
    by (apply Qfloor_resp_le; lra).
  assert (B : (Qfloor (c * 100 + (1 # 2)) <= Qfloor (100 + (1 # 2)))%Z)
    by (apply Qfloor_resp_le; lra).
  change (Qfloor (1 # 2)) with 0%Z in A.
  change (Qfloor (100 + (1 # 2))) with 100%Z in B.
  split.
  - change 0%Q with (inject_Z 0). rewrite <- Zle_Qle. exact A.
  - change 100%Q with (inject_Z 100). rewrite <- Zle_Qle. exact B.
Qed.

End VerdictFacts.

(** X9. Whatever the oracle answers, the verdict analyzeConversation returns
    for a candidate whose confidence lies in [0,1] carries a confidence that
    is a number between 0 and 100, or NaN; this holds for the analyzer of
    the runner and for the one of the TypeScript service, with and without a
    key.  (NaN arises from an answer whose confidence is not numeric; no
    comparison accepts it.) *)
Theorem verdict_confidence_is_a_percentage :
  forall (jsonParse : Js.text -> option Json.json)
         (oracle : Detection.t -> list Message.t -> option Js.text)
         (apiKey : option Js.text) (detectedMeeting : Detection.t)
         (conversationHistory : list Message.t),
    (0 <= Detection.confidence detectedMeeting <= 1)%Q ->
    VerdictSpec.percentOrNaN
      (Verdict.confidence
         (LLMAnalyzer.analyzeConversation jsonParse oracle apiKey detectedMeeting
                                          conversationHistory))
    /\ VerdictSpec.percentOrNaN
         (Verdict.confidence
            (LLMAnalyzerTs.analyzeConversation jsonParse oracle apiKey detectedMeeting
                                               conversationHistory))
    /\ Json.gtNum Json.NaN 50 = false.
Proof.
  intros jsonParse oracle apiKey d history C.
  pose proof (VerdictFacts.round_percent _ C) as R.
  assert (Js : forall response,
             VerdictSpec.percentOrNaN
               (Verdict.confidence (LLMAnalyzer.parseAnalysisResponse jsonParse response))).
  { intros response. unfold LLMAnalyzer.parseAnalysisResponse.
    destruct (LLMAnalyzer.tryParse jsonParse response) as [v|] eqn:E;
      [|apply VerdictFacts.failed_percent].
    unfold LLMAnalyzer.tryParse in E. cbv zeta in E.
    destruct (jsonParse _) as [parsed|]; [|discriminate].
    apply (VerdictFacts.verdictOf_percent parsed v E). }
  assert (Ts : forall response,
             VerdictSpec.percentOrNaN
               (Verdict.confidence (LLMAnalyzerTs.parseAnalysisResponse jsonParse response))).
  { intros response. unfold LLMAnalyzerTs.parseAnalysisResponse.
    destruct (LLMAnalyzerTs.tryParse jsonParse response) as [v|] eqn:E;
      [|apply VerdictFacts.failed_percent].
    unfold LLMAnalyzerTs.tryParse in E.
    destruct (Regex.matchFirst _ _ _) as [block|]; [|discriminate].
    destruct (jsonParse _) as [parsed|]; [|discriminate].
    apply (VerdictFacts.verdictOf_percent parsed v E). }
  split; [|split; [|reflexivity]].
  - unfold LLMAnalyzer.analyzeConversation.
    destruct (negb _); [exact R|].
    destruct (oracle d history) as [[|c s]|]; [exact R|apply Js|exact R].
  - unfold LLMAnalyzerTs.analyzeConversation.
    destruct (negb _); [exact R|].
    destruct (oracle d history) as [[|c s]|]; [exact R|apply Ts|exact R].
Qed.

(** The candidate of "Let's meet tomorrow at 3" with an oracle whose request
    fails. *)
Lemma verdict_confidence_is_a_percentage_witness :
  (0 <= Detection.confidence (Samples.meetTomorrowCandidate Samples.monday) <= 1)%Q
  /\ VerdictSpec.percentOrNaN
       (Verdict.confidence
          (LLMAnalyzer.analyzeConversation
             Json.parse Samples.noOracle (Some (Js.u "key"))
             (Samples.meetTomorrowCandidate Samples.monday) [])).
Proof.
  assert (H : (0 <= Detection.confidence (Samples.meetTomorrowCandidate Samples.monday)
               <= 1)%Q) by (split; vm_compute; discriminate).
  split; [exact H|].
  destruct (verdict_confidence_is_a_percentage
              Json.parse Samples.noOracle (Some (Js.u "key"))
              (Samples.meetTomorrowCandidate Samples.monday) [] H) as [A _].
  exact A.
Defined.

(** ** The loose comparison of times *)

Module TimeFacts.
Import Js Regex Audit Matcher TimeSpec.









Lemma oracle_time_is_simple (newDate : Json.json -> JsDate.Date) (m : Detection.t) :
  Detection.llmDateTime m = None ->
  AuditRunner.meetingTimeForComparison newDate m = simpleTime m.
Proof.
  intros E. unfold AuditRunner.meetingTimeForComparison, simpleTime. rewrite E.
  destruct (Num.truthyText _); reflexivity.
Qed.

Lemma oracle_dates_are_simple (newDate : Json.json -> JsDate.Date) (m : Detection.t) :
  Detection.llmDateTime m = None ->
  AuditRunner.meetingDates newDate m = Detection.parsedDates m.
Proof. intros E. unfold AuditRunner.meetingDates. rewrite E. reflexivity. Qed.

Section Generic.

Variable dates : Detection.t -> list JsDate.Date.
Variable timeOf : Detection.t -> option text.


End Generic.

End TimeFacts.



(** X11. On candidates as the keyword detector leaves them, without a
    verdict and without a date from the oracle, the two runners record the
    same confirmations and the same conflicts; they differ in the threshold
    for reporting a candidate missing only, 0.6 against 0.4: the runner with
    the oracle reports the candidates the other runner reports whose
    confidence is above 0.6. *)
Theorem runners_agree_on_plain_candidates :
  forall (newDate : Json.json -> JsDate.Date)
         (detectedMeetings : list Detection.t) (calendarEvents : list Event.t),
    Forall TimeSpec.plainCandidate detectedMeetings ->
    let simple :=
      SimpleRunner.analyzeConflictsAndMissing detectedMeetings calendarEvents in
    let full :=
      AuditRunner.analyzeConflictsAndMissing newDate detectedMeetings calendarEvents in
    Audit.conflicts full = Audit.conflicts simple
    /\ Audit.confirmedMeetings full = Audit.confirmedMeetings simple
    /\ Audit.missingEvents full
       = filter (fun x => Num.gtb (Detection.confidence (Audit.missingMeeting x)) 0.6)
                (Audit.missingEvents simple).
Proof.
  intros newDate ms es P simple full.
  unfold simple, full.
  rewrite MatcherFacts.simple_is_generic, MatcherFacts.oracle_is_generic.
  destruct (MatcherFacts.analyze_spec Detection.parsedDates Matcher.simpleTime
              Matcher.simpleWants Matcher.simpleMissing ms es) as (A & B & C).
  destruct (MatcherFacts.analyze_spec (AuditRunner.meetingDates newDate)
              (AuditRunner.meetingTimeForComparison newDate)
              Matcher.oracleWants Matcher.oracleMissing ms es) as (A' & B' & C').
  cbv zeta in A, B, C, A', B', C'. rewrite A, B, C, A', B', C'.
  clear A B C A' B' C'.
  assert (O : forall m, TimeSpec.plainCandidate m ->
                        Matcher.meetingOutcomes (AuditRunner.meetingDates newDate)
                          (AuditRunner.meetingTimeForComparison newDate) es m
                        = Matcher.meetingOutcomes Detection.parsedDates
                                                  Matcher.simpleTime es m).
  { intros m [_ L]. unfold Matcher.meetingOutcomes, Matcher.eventOutcomes.
    rewrite (TimeFacts.oracle_time_is_simple newDate m L),
      (TimeFacts.oracle_dates_are_simple newDate m L). reflexivity. }
  induction P as [|m ms Pm P IH]; [repeat split|].
  destruct IH as (I1 & I2 & I3). cbn [flat_map].
  rewrite I1, I2, I3, (O m Pm), filter_app.
  split; [reflexivity|]. split; [reflexivity|]. f_equal.
  unfold Matcher.missingFor. rewrite (O m Pm).
  destruct Pm as [V _].
  unfold Matcher.oracleWants, Matcher.simpleWants, Matcher.oracleMissing,
    Matcher.simpleMissing, AuditRunner.effectiveConfidence.
  rewrite V. cbn [Json.gtNum]. fold (Num.gtb (Detection.confidence m) 0.6).
  destruct (Matcher.isNil _); cbn [andb]; [|reflexivity].
  destruct (Num.gtb (Detection.confidence m) 0.6) eqn:G6.
  - assert (G4 : Num.gtb (Detection.confidence m) 0.4 = true).
    { unfold Num.gtb in *. apply negb_true_iff in G6. apply negb_true_iff.
      apply not_true_iff_false. apply not_true_iff_false in G6.
      rewrite Qle_bool_iff in *. intros H. apply G6. lra. }
    rewrite G4. cbn [filter Audit.missingMeeting]. rewrite G6. reflexivity.
  - destruct (Num.gtb _ 0.4); cbn [filter Audit.missingMeeting]; rewrite ?G6; reflexivity.
Qed.

(** A candidate with an empty calendar: no conflict in either runner, and
    the runner without the oracle reports it missing. *)
Lemma runners_agree_on_plain_candidates_witness :
  Forall TimeSpec.plainCandidate [Samples.callToday]
  /\ Audit.conflicts
       (AuditRunner.analyzeConflictsAndMissing Samples.noDate [Samples.callToday] [])
     = Audit.conflicts (SimpleRunner.analyzeConflictsAndMissing [Samples.callToday] [])
  /\ List.length
       (Audit.missingEvents
          (SimpleRunner.analyzeConflictsAndMissing [Samples.callToday] []))
     = 1.
Proof.
  assert (P : Forall TimeSpec.plainCandidate [Samples.callToday])
    by (constructor; [split; reflexivity|constructor]).
  split; [exact P|].
  destruct (runners_agree_on_plain_candidates Samples.noDate [Samples.callToday] [] P)
    as (A & _).
  split; [exact A|reflexivity].
Defined.

(** ** The lines of the summary *)

Module LineFacts.
Import Audit Summary.

(** The lines of the two lists are headers, items and the line that counts
    the rest. *)
Lemma conflictLines_shape (cs : list Conflict) (x : Line) :
  In x (conflictLines cs) ->
  match x with
  | ConflictsHeader n => n = List.length cs /\ 0 < n
  | ConflictItem _ _ _ => True
  | AndMore k => k = List.length cs - 3 /\ 0 < k
  | _ => False
  end.
Proof.
  unfold conflictLines.
  destruct (Nat.ltb_spec 0 (List.length cs)) as [P|P]; [|intros []].
  intros [<-|H]; [split; [reflexivity|exact P]|].
  apply in_app_or in H as [H|H].
  - apply in_map_iff in H as (ic & <- & _). exact I.
  - destruct (Nat.ltb_spec 3 (List.length cs)) as [Q|Q]; [|destruct H].
    destruct H as [<-|[]]. split; [reflexivity|lia].
Qed.

Lemma missingLines_shape (ms : list Missing) (x : Line) :
  In x (missingLines ms) ->
  match x with
  | MissingHeader n => n = List.length ms /\ 0 < n
  | MissingItem _ _ _ => True
  | AndMore k => k = List.length ms - 3 /\ 0 < k
  | _ => False
  end.
Proof.
  unfold missingLines.
  destruct (Nat.ltb_spec 0 (List.length ms)) as [P|P]; [|intros []].
  intros [<-|H]; [split; [reflexivity|exact P]|].
  apply in_app_or in H as [H|H].
  - apply in_map_iff in H as (ic & <- & _). exact I.
  - destruct (Nat.ltb_spec 3 (List.length ms)) as [Q|Q]; [|destruct H].
    destruct H as [<-|[]]. split; [reflexivity|lia].
Qed.

Lemma allGood_iff (messages : list Message.t) (meetings : list Detection.t)
      (events : list Event.t) (r : Results) :
  allGood (auditDataOf messages meetings events r) = true
  <-> Audit.conflicts r = [] /\ Audit.missingEvents r = [].
Proof.
  cbn [auditDataOf allGood]. rewrite andb_true_iff, !Nat.eqb_eq, !length_zero_iff_nil.
  reflexivity.
Qed.

End LineFacts.

(** X12. The summary of a run says "All Good" exactly when the audit found
    no conflict and no missing meeting.  Only then does it count the
    confirmed meetings, and only when there are some; when something is
    open the confirmed meetings are not mentioned.  A line "... and k more"
    appears only for a list of more than three entries, with k the number
    beyond three. *)
Theorem summary_says_all_good_when_nothing_is_open :
  forall (messages : list Message.t) (detectedMeetings : list Detection.t)
         (relevantEvents : list Event.t) (auditResults : Audit.Results),
    let lines :=
      Summary.sendComprehensiveSummary
        (Summary.auditDataOf messages detectedMeetings relevantEvents auditResults) in
    (In Summary.AllGood lines
     <-> Audit.conflicts auditResults = [] /\ Audit.missingEvents auditResults = [])
    /\ (forall n,
          In (Summary.ProperlyScheduled n) lines
          <-> Audit.conflicts auditResults = []
              /\ Audit.missingEvents auditResults = []
              /\ n = List.length (Audit.confirmedMeetings auditResults) /\ 0 < n)
    /\ (forall k,
          In (Summary.AndMore k) lines ->
          0 < k
          /\ (k = List.length (Audit.conflicts auditResults) - 3
              \/ k = List.length (Audit.missingEvents auditResults) - 3)).
Proof.
  intros messages meetings events r lines.
  pose proof (LineFacts.allGood_iff messages meetings events r) as G.
  unfold lines, Summary.sendComprehensiveSummary.
  destruct (Summary.allGood _) eqn:E.
  - destruct G as [G _]. specialize (G eq_refl).
    cbn [Summary.auditDataOf Summary.messagesScanned Summary.meetingsDetected
         Summary.calendarEvents Summary.confirmedMeetings].
    split; [split; [intros _; exact G|intros _; right; left; reflexivity]|].
    split.
    + intros n. destruct (Nat.ltb_spec 0 (List.length (Audit.confirmedMeetings r))) as [P|P];
        cbn; split.
      * intros [H|[H|[H|[H|[]]]]]; try discriminate H. injection H as <-. tauto.
      * intros (_ & _ & -> & _). right; right; left. reflexivity.
      * intros [H|[H|[H|[]]]]; discriminate H.
      * intros (_ & _ & -> & Q). lia.
    + intros k. destruct (0 <? _); cbn; intros H;
        repeat (destruct H as [H|H]; [discriminate H|]); destruct H.
  - assert (N : ~ (Audit.conflicts r = [] /\ Audit.missingEvents r = [])).
    { intros H. apply G in H. discriminate H. }
    cbn [Summary.auditDataOf Summary.messagesScanned Summary.meetingsDetected
         Summary.calendarEvents Summary.conflicts Summary.missingEvents].
    assert (Shape : forall x,
               In x (Summary.ScanResults (List.length messages) (List.length meetings)
                                         (List.length events)
                     :: (Summary.conflictLines (Audit.conflicts r)
                         ++ Summary.missingLines (Audit.missingEvents r))
                     ++ [Summary.NextAudit]) ->
               x = Summary.ScanResults (List.length messages) (List.length meetings)
                                       (List.length events)
               \/ In x (Summary.conflictLines (Audit.conflicts r))
               \/ In x (Summary.missingLines (Audit.missingEvents r))
               \/ x = Summary.NextAudit).
    { intros x [H|H]; [left; symmetry; exact H|].
      apply in_app_or in H as [H|[H|[]]]; [|right; right; right; symmetry; exact H].
      apply in_app_or in H as [H|H]; tauto. }
    split; [|split].
    + split; [|intros H; contradiction].
      intros H. apply Shape in H as [H|[H|[H|H]]]; try discriminate H.
      * apply LineFacts.conflictLines_shape in H. contradiction.
      * apply LineFacts.missingLines_shape in H. contradiction.
    + intros n. split; [|intros (A & B & _); exfalso; apply N; tauto].
      intros H. apply Shape in H as [H|[H|[H|H]]]; try discriminate H.
      * apply LineFacts.conflictLines_shape in H. contradiction.
      * apply LineFacts.missingLines_shape in H. contradiction.
    + intros k H. apply Shape in H as [H|[H|[H|H]]]; try discriminate H.
      * apply LineFacts.conflictLines_shape in H. tauto.
      * apply LineFacts.missingLines_shape in H. tauto.
Qed.

(** ** What the extractors return *)

Module ExtractFacts.
Import Js ExtractSpec.

Lemma not_seen (x : text) (seen : list text) :
  existsb (text_eqb x) seen = false <-> ~ In x seen.
Proof.
  rewrite <- not_true_iff_false, existsb_exists. split.
  - intros H G. apply H. exists x. split; [exact G|].
    apply ContextFacts.text_eqb_eq. reflexivity.
  - intros H (y & G & E). apply ContextFacts.text_eqb_eq in E. subst y. exact (H G).
Qed.

Lemma dedupAux_spec (xs seen : list text) :
  NoDup (dedupAux seen xs)
  /\ forall x, In x (dedupAux seen xs) <-> In x xs /\ ~ In x seen.
Proof.
  revert seen. induction xs as [|y xs IH]; intros seen; cbn [dedupAux].
  - split; [constructor|]. intros x. cbn. tauto.
  - destruct (existsb (text_eqb y) seen) eqn:E.
    + destruct (IH seen) as [N M]. split; [exact N|].
      intros x. rewrite M. cbn [In]. split; [tauto|].
      intros [[<-|H] S]; [|tauto].
      exfalso. apply not_seen in S. congruence.
    + apply not_seen in E. destruct (IH (y :: seen)) as [N M]. split.
      * constructor; [|exact N]. rewrite M. cbn [In]. tauto.
      * intros x. cbn [In]. rewrite M. cbn [In]. split.
        -- intros [<-|[H S]]; tauto.
        -- intros [[<-|H] S]; [tauto|].
           destruct (list_eq_dec N.eq_dec y x) as [<-|D]; [tauto|]. right. tauto.
Qed.

(** [[...new Set(xs)]] holds the elements of [xs], each once. *)
Lemma dedup_spec (xs : list text) :
  NoDup (dedup xs) /\ forall x, In x (dedup xs) <-> In x xs.
Proof.
  destruct (dedupAux_spec xs []) as [N M]. split; [exact N|].
  intros x. unfold dedup. rewrite M. cbn. tauto.
Qed.

Lemma dropSpaces_head (s : text) :
  match dropSpaces s with [] => True | c :: _ => isSpace c = false end.
Proof.
  induction s as [|c s IH]; cbn [dropSpaces]; [exact I|].
  destruct (isSpace c) eqn:E; [exact IH|exact E].
Qed.

Lemma dropSpaces_suffix (s : text) : exists p, s = p ++ dropSpaces s.
Proof.
  induction s as [|c s [p IH]]; cbn [dropSpaces]; [exists []; reflexivity|].
  destruct (isSpace c); [|exists []; reflexivity].
  exists (c :: p). cbn. rewrite <- IH. reflexivity.
Qed.

Lemma trim_trimmed (s : text) : trimmed (trim s).
Proof.
  unfold trimmed, trim. rewrite rev_involutive. split; [|apply dropSpaces_head].
  set (t := dropSpaces s). pose proof (dropSpaces_head s) as H. fold t in H.
  destruct (dropSpaces_suffix (rev t)) as [p E].
  destruct (dropSpaces (rev t)) as [|c r] eqn:D; [exact I|].
  assert (R : t = rev (c :: r) ++ rev p).
  { rewrite <- rev_app_distr, <- E, rev_involutive. reflexivity. }
  destruct (rev (c :: r)) as [|c' r'] eqn:V.
  - apply (f_equal (@List.length N)) in V. rewrite length_rev in V. discriminate V.
  - rewrite R in H. exact H.
Qed.

Lemma names_spec (patterns : list (bool * Regex.regex)) (s : text) :
  let names :=
    dedup (filter (fun n => 2 <? List.length n)
                  (map KeywordDetector.cleanName
                       (KeywordDetector.allMatches patterns s))) in
  NoDup names /\ Forall (fun n => 2 < List.length n /\ trimmed n) names.
Proof.
  intros names. destruct (dedup_spec (filter (fun n => 2 <? List.length n)
                  (map KeywordDetector.cleanName
                       (KeywordDetector.allMatches patterns s)))) as [N M].
  split; [exact N|]. apply Forall_forall. intros n H. apply M in H.
  apply filter_In in H as [H L]. apply Nat.ltb_lt in L. split; [exact L|].
  apply in_map_iff in H as (m & <- & _). apply trim_trimmed.
Qed.

End ExtractFacts.

(** X13. The three extractors of both detectors return every token once,
    whatever the text: the counts that enter the confidence are counts of
    distinct tokens.  Every name is longer than two characters and has no
    white space at its start or its end. *)
Theorem extractors_return_distinct_tokens :
  forall text : Js.text,
    NoDup (KeywordDetector.extractDates text)
    /\ NoDup (KeywordDetector.extractTimes text)
    /\ NoDup (KeywordDetector.extractNames text)
    /\ Forall (fun n => 2 < List.length n /\ ExtractSpec.trimmed n)
              (KeywordDetector.extractNames text)
    /\ NoDup (KeywordDetectorTs.extractDates text)
    /\ NoDup (KeywordDetectorTs.extractTimes text)
    /\ NoDup (KeywordDetectorTs.extractNames text)
    /\ Forall (fun n => 2 < List.length n /\ ExtractSpec.trimmed n)
              (KeywordDetectorTs.extractNames text).
Proof.
  intros text.
  split; [apply ExtractFacts.dedup_spec|]. split; [apply ExtractFacts.dedup_spec|].
  split; [apply ExtractFacts.names_spec|]. split; [apply ExtractFacts.names_spec|].
  split; [apply ExtractFacts.dedup_spec|]. split; [apply ExtractFacts.dedup_spec|].
  split; apply ExtractFacts.names_spec.
Qed.

(** ** Maps *)

Module MapFacts.
Import Js.

Lemma text_eqb_refl (k : text) : text_eqb k k = true.
Proof. apply ContextFacts.text_eqb_eq. reflexivity. Qed.

Lemma text_eqb_neq (a b : text) : a <> b -> text_eqb a b = false.
Proof.
  intros H. apply not_true_iff_false. intros E.
  apply ContextFacts.text_eqb_eq in E. contradiction.
Qed.

Section Map.

Variable V : Type.

Lemma get_set_same (k : text) (v : V) (m : JsMap.t V) :
  JsMap.get k (JsMap.set k v m) = Some v.
Proof.
  induction m as [|[k' v'] m IH]; cbn.
  - rewrite text_eqb_refl. reflexivity.
  - destruct (text_eqb k' k) eqn:E; cbn; rewrite E; [reflexivity|exact IH].
Qed.

Lemma get_set_other (k k' : text) (v : V) (m : JsMap.t V) :
  k' <> k -> JsMap.get k' (JsMap.set k v m) = JsMap.get k' m.
Proof.
  intros D. induction m as [|[k0 v0] m IH]; cbn.
  - rewrite (text_eqb_neq k k') by congruence. reflexivity.
  - destruct (text_eqb k0 k) eqn:E; cbn.
    + apply ContextFacts.text_eqb_eq in E. subst k0.
      rewrite (text_eqb_neq k k') by congruence. reflexivity.
    + destruct (text_eqb k0 k'); [reflexivity|exact IH].
Qed.

Lemma get_none (k : text) (m : JsMap.t V) :
  JsMap.get k m = None <-> ~ In k (JsMap.keys m).
Proof.
  induction m as [|[k0 v0] m IH]; cbn; [tauto|].
  destruct (text_eqb k0 k) eqn:E.
  - apply ContextFacts.text_eqb_eq in E. split; [discriminate|tauto].
  - rewrite IH. split; [|tauto]. intros H [G|G]; [|tauto].
    subst k0. rewrite text_eqb_refl in E. discriminate.
Qed.

Lemma keys_set (k : text) (v : V) (m : JsMap.t V) :
  JsMap.keys (JsMap.set k v m)
  = match JsMap.get k m with
    | Some _ => JsMap.keys m
    | None => JsMap.keys m ++ [k]
    end.
Proof.
  induction m as [|[k0 v0] m IH]; cbn; [reflexivity|].
  destruct (text_eqb k0 k) eqn:E; cbn; [reflexivity|].
  unfold JsMap.keys in IH. rewrite IH. destruct (JsMap.get k m); reflexivity.
Qed.

Lemma keys_set_nodup (k : text) (v : V) (m : JsMap.t V) :
  NoDup (JsMap.keys m) -> NoDup (JsMap.keys (JsMap.set k v m)).
Proof.
  intros N. rewrite keys_set. destruct (JsMap.get k m) eqn:G; [exact N|].
  apply get_none in G. apply NoDup_app; [exact N|repeat constructor; tauto|].
  intros x Hx [<-|[]]. contradiction.
Qed.

Lemma get_delete_same (k : text) (m : JsMap.t V) :
  JsMap.get k (JsMap.delete k m) = None.
Proof.
  unfold JsMap.delete. induction m as [|[k0 v0] m IH]; cbn; [reflexivity|].
  destruct (text_eqb k0 k) eqn:E; cbn; [exact IH|]. rewrite E. exact IH.
Qed.

Lemma get_delete_other (k k' : text) (m : JsMap.t V) :
  k' <> k -> JsMap.get k' (JsMap.delete k m) = JsMap.get k' m.
Proof.
  intros D. unfold JsMap.delete. induction m as [|[k0 v0] m IH]; cbn; [reflexivity|].
  destruct (text_eqb k0 k) eqn:E; cbn.
  - apply ContextFacts.text_eqb_eq in E. subst k0.
    rewrite (text_eqb_neq k k') by congruence. exact IH.
  - destruct (text_eqb k0 k'); [reflexivity|exact IH].
Qed.

Lemma delete_absent (k : text) (m : JsMap.t V) :
  JsMap.get k m = None -> JsMap.delete k m = m.
Proof.
  unfold JsMap.delete. induction m as [|[k0 v0] m IH]; cbn; [reflexivity|].
  destruct (text_eqb k0 k) eqn:E; [discriminate|]. cbn. intros H.
  rewrite (IH H). reflexivity.
Qed.

Lemma in_get (k : text) (v : V) (m : JsMap.t V) :
  NoDup (JsMap.keys m) -> In (k, v) m -> JsMap.get k m = Some v.
Proof.
  induction m as [|[k0 v0] m IH]; cbn; [tauto|].
  intros N [H|H].
  - injection H as -> ->. rewrite text_eqb_refl. reflexivity.
  - apply NoDup_cons_iff in N as [N1 N2].
    destruct (text_eqb k0 k) eqn:E; [|apply IH; assumption].
    apply ContextFacts.text_eqb_eq in E. subst k0.
    exfalso. apply N1. apply in_map_iff. exists (k, v). split; [reflexivity|exact H].
Qed.

End Map.

End MapFacts.

(** ** Events with the same id *)

Module DuplicateFacts.
Import Js AuditService MapSpec.

Lemma dedupAux_ext (xs s1 s2 : list text) :
  (forall x, In x s1 <-> In x s2) -> dedupAux s1 xs = dedupAux s2 xs.
Proof.
  revert s1 s2. induction xs as [|x xs IH]; intros s1 s2 H; cbn [dedupAux]; [reflexivity|].
  assert (E : existsb (text_eqb x) s1 = existsb (text_eqb x) s2).
  { destruct (existsb (text_eqb x) s2) eqn:E2.
    - apply not_false_iff_true. intros E1.
      apply ExtractFacts.not_seen in E1. apply not_false_iff_true in E2.
      apply E2, ExtractFacts.not_seen. intros G. apply E1, H, G.
    - apply ExtractFacts.not_seen. apply ExtractFacts.not_seen in E2.
      intros G. apply E2, H, G. }
  rewrite E. destruct (existsb (text_eqb x) s2); [apply IH, H|].
  f_equal. apply IH. intros y. cbn [In]. rewrite H. reflexivity.
Qed.

Lemma put_keys (events : list CalendarEvent.t) (m : JsMap.t CalendarEvent.t) :
  JsMap.keys (fold_left put events m)
  = JsMap.keys m ++ dedupAux (JsMap.keys m) (map CalendarEvent.id events).
Proof.
  revert m. induction events as [|e events IH]; intros m; cbn [fold_left map dedupAux].
  - rewrite app_nil_r. reflexivity.
  - rewrite IH. change (put m e) with (JsMap.set (CalendarEvent.id e) e m).
    rewrite MapFacts.keys_set.
    destruct (JsMap.get (CalendarEvent.id e) m) eqn:G.
    + assert (S : existsb (text_eqb (CalendarEvent.id e)) (JsMap.keys m) = true).
      { apply not_false_iff_true. intros F. apply ExtractFacts.not_seen in F.
        apply MapFacts.get_none in F. congruence. }
      rewrite S. reflexivity.
    + assert (S : existsb (text_eqb (CalendarEvent.id e)) (JsMap.keys m) = false).
      { apply ExtractFacts.not_seen, MapFacts.get_none, G. }
      rewrite S, <- app_assoc. cbn [app]. do 2 f_equal.
      apply dedupAux_ext. intros x. rewrite in_app_iff. cbn [In]. tauto.
Qed.

Lemma put_nodup (events : list CalendarEvent.t) (m : JsMap.t CalendarEvent.t) :
  NoDup (JsMap.keys m) -> NoDup (JsMap.keys (fold_left put events m)).
Proof.
  revert m. induction events as [|e events IH]; intros m N; cbn [fold_left]; [exact N|].
  apply IH. apply MapFacts.keys_set_nodup, N.
Qed.

Lemma put_get (key : text) (events : list CalendarEvent.t)
      (m : JsMap.t CalendarEvent.t) :
  JsMap.get key (fold_left put events m)
  = fold_left (fun found event =>
                 if text_eqb (CalendarEvent.id event) key then Some event else found)
              events (JsMap.get key m).
Proof.
  revert m. induction events as [|e events IH]; intros m; cbn [fold_left]; [reflexivity|].
  rewrite IH. f_equal. unfold put.
  destruct (text_eqb (CalendarEvent.id e) key) eqn:E.
  - apply ContextFacts.text_eqb_eq in E. subst key. apply MapFacts.get_set_same.
  - apply MapFacts.get_set_other. intros ->.
    rewrite MapFacts.text_eqb_refl in E. discriminate.
Qed.

Lemma last_found (key : text) (events : list CalendarEvent.t)
      (init : option CalendarEvent.t) (e : CalendarEvent.t) :
  fold_left (fun found event =>
               if text_eqb (CalendarEvent.id event) key then Some event else found)
            events init = Some e ->
  init = Some e \/ (In e events /\ CalendarEvent.id e = key).
Proof.
  revert init. induction events as [|x events IH]; intros init; cbn [fold_left].
  - tauto.
  - intros H. apply IH in H as [H|H]; [|cbn; tauto].
    destruct (text_eqb (CalendarEvent.id x) key) eqn:E; [|tauto].
    injection H as ->. apply ContextFacts.text_eqb_eq in E. cbn. tauto.
Qed.

Lemma lastWithId_in (key : text) (events : list CalendarEvent.t) (e : CalendarEvent.t) :
  lastWithId key events = Some e -> In e events /\ CalendarEvent.id e = key.
Proof.
  intros H. apply last_found in H as [H|H]; [discriminate|exact H].
Qed.

(** The values of the map are the last events of their ids. *)
Lemma entries (events : list CalendarEvent.t) (k : text) (e : CalendarEvent.t) :
  In (k, e) (fold_left put events JsMap.empty) ->
  lastWithId k events = Some e /\ CalendarEvent.id e = k.
Proof.
  intros H.
  apply MapFacts.in_get in H; [|apply put_nodup; constructor].
  rewrite put_get in H. cbn [JsMap.get JsMap.empty] in H.
  split; [exact H|]. apply (lastWithId_in k events e H).
Qed.

Lemma ids_of_values (m : JsMap.t CalendarEvent.t) :
  (forall k e, In (k, e) m -> CalendarEvent.id e = k) ->
  map CalendarEvent.id (JsMap.values m) = JsMap.keys m.
Proof.
  unfold JsMap.values, JsMap.keys.
  induction m as [|[k e] m IH]; intros H; [reflexivity|].
  cbn [map fst snd]. rewrite IH.
  - rewrite (H k e (or_introl eq_refl)). reflexivity.
  - intros k' e' G. apply H. right. exact G.
Qed.

Lemma unique_ids (events : list CalendarEvent.t) :
  map CalendarEvent.id (GoogleCalendar.removeDuplicateEvents events)
  = dedup (map CalendarEvent.id events).
Proof.
  unfold GoogleCalendar.removeDuplicateEvents. cbv zeta. fold put.
  rewrite ids_of_values by (intros k e H; apply (entries events k e H)).
  rewrite put_keys. reflexivity.
Qed.

Lemma unique_last (events : list CalendarEvent.t) :
  Forall (fun e => lastWithId (CalendarEvent.id e) events = Some e)
         (GoogleCalendar.removeDuplicateEvents events).
Proof.
  unfold GoogleCalendar.removeDuplicateEvents. cbv zeta. fold put.
  apply Forall_forall. intros e H. apply in_map_iff in H as ([k e'] & <- & H).
  cbn [snd]. destruct (entries events k e' H) as [L ->]. exact L.
Qed.

Lemma found_stays (key : text) (events : list CalendarEvent.t)
      (y : CalendarEvent.t) :
  exists z,
    fold_left (fun found event =>
                 if text_eqb (CalendarEvent.id event) key then Some event else found)
              events (Some y) = Some z.
Proof.
  revert y. induction events as [|x events IH]; intros y; cbn [fold_left].
  - exists y. reflexivity.
  - destruct (text_eqb (CalendarEvent.id x) key); apply IH.
Qed.

(** With distinct ids every event is the last of its id. *)
Lemma distinct_last (events : list CalendarEvent.t) (e : CalendarEvent.t) :
  NoDup (map CalendarEvent.id events) -> In e events ->
  lastWithId (CalendarEvent.id e) events = Some e.
Proof.
  unfold lastWithId. generalize (@None CalendarEvent.t) as init.
  induction events as [|x events IH]; intros init N H; [destruct H|].
  cbn [map] in N. apply NoDup_cons_iff in N as [N1 N2]. cbn [fold_left].
  destruct H as [->|H]; [|apply IH; assumption].
  rewrite MapFacts.text_eqb_refl.
  destruct (found_stays (CalendarEvent.id e) events e) as [z F]. rewrite F.
  apply last_found in F as [F|[F1 F2]]; [symmetry; exact F|].
  exfalso. apply N1. rewrite <- F2. apply in_map, F1.
Qed.

(** Two lists of last events with the same ids are the same. *)
Lemma same_ids_same_events (events l1 l2 : list CalendarEvent.t) :
  Forall (fun e => lastWithId (CalendarEvent.id e) events = Some e) l1 ->
  Forall (fun e => lastWithId (CalendarEvent.id e) events = Some e) l2 ->
  map CalendarEvent.id l1 = map CalendarEvent.id l2 -> l1 = l2.
Proof.
  intros F1. revert l2. induction F1 as [|x l1 Hx F1 IH]; intros l2 F2 E.
  - destruct l2; [reflexivity|discriminate].
  - destruct F2 as [|y l2 Hy F2]; [discriminate|].
    cbn [map] in E. injection E as E1 E2.
    rewrite E1, Hy in Hx. injection Hx as ->. f_equal. apply IH; assumption.
Qed.

End DuplicateFacts.

(** X14. removeDuplicateEvents returns one event for each id among the
    events: the ids in the order in which they first occur, and for each id
    the last event that carries it (a later event replaces an earlier one of
    the same id, in the earlier one's place).  Events with distinct ids are
    returned as they are. *)
Theorem duplicate_events_keep_the_last_of_each_id :
  forall events : list AuditService.CalendarEvent.t,
    let unique := GoogleCalendar.removeDuplicateEvents events in
    map AuditService.CalendarEvent.id unique
    = Js.dedup (map AuditService.CalendarEvent.id events)
    /\ NoDup (map AuditService.CalendarEvent.id unique)
    /\ Forall (fun e =>
                 MapSpec.lastWithId (AuditService.CalendarEvent.id e) events = Some e
                 /\ In e events)
              unique
    /\ (NoDup (map AuditService.CalendarEvent.id events) -> unique = events).
Proof.
  intros events unique.
  pose proof (DuplicateFacts.unique_ids events) as Ids.
  pose proof (DuplicateFacts.unique_last events) as Last.
  fold unique in Ids, Last.
  split; [exact Ids|]. split; [rewrite Ids; apply ExtractFacts.dedup_spec|]. split.
  - apply Forall_impl with (2 := Last). intros e H. split; [exact H|].
    apply (DuplicateFacts.lastWithId_in _ _ _ H).
  - intros N. apply (DuplicateFacts.same_ids_same_events events); [exact Last| |].
    + apply Forall_forall. intros e. apply DuplicateFacts.distinct_last, N.
    + rewrite Ids. destruct (ExtractFacts.dedup_spec (map AuditService.CalendarEvent.id events)) as [_ M].
      clear -N. unfold Js.dedup.
      assert (G : forall xs seen, NoDup xs -> (forall x, In x xs -> ~ In x seen) ->
                                  Js.dedupAux seen xs = xs).
      { induction xs as [|x xs IH]; intros seen Nx D; [reflexivity|].
        cbn [Js.dedupAux]. apply NoDup_cons_iff in Nx as [N1 N2].
        assert (S : existsb (Js.text_eqb x) seen = false).
        { apply ExtractFacts.not_seen, D. left. reflexivity. }
        rewrite S. f_equal. apply IH; [exact N2|].
        intros y Hy [<-|H]; [contradiction|]. apply (D y); [right; exact Hy|exact H]. }
      apply G; [exact N|]. intros x _ [].
Qed.

(** ** The message store of the webhook service *)

Module StoreFacts.
Import Js MapSpec.

Lemma lastN_short {A : Type} (n : nat) (l : list A) :
  List.length l <= n -> lastN n l = l.
Proof.
  intros H. unfold lastN. replace (List.length l - n) with 0 by lia. reflexivity.
Qed.

Lemma lastN_length {A : Type} (n : nat) (l : list A) :
  List.length (lastN n l) = Nat.min n (List.length l).
Proof. unfold lastN. rewrite length_skipn. lia. Qed.

Lemma in_lastN {A : Type} (n : nat) (l : list A) (x : A) :
  In x (lastN n l) -> In x l.
Proof.
  unfold lastN. intros H. rewrite <- (firstn_skipn (List.length l - n) l).
  apply in_or_app. right. exact H.
Qed.

Lemma skipn_succ_tl {A : Type} (k : nat) (l : list A) :
  skipn (S k) l = tl (skipn k l).
Proof.
  revert l. induction k as [|k IH]; intros l; [destruct l; reflexivity|].
  destruct l as [|x l]; [reflexivity|]. change (skipn (S (S k)) (x :: l)) with (skipn (S k) l).
  rewrite IH. reflexivity.
Qed.

(** Appending to the last 50 and dropping the first of 51 gives the last 50
    again. *)
Lemma window_step (l : list Message.t) (m : Message.t) :
  (let chatMessages := lastN 50 l ++ [m] in
   if 50 <? List.length chatMessages then Webhook.shift chatMessages else chatMessages)
  = lastN 50 (l ++ [m]).
Proof.
  cbv zeta. rewrite length_app, lastN_length. cbn [List.length].
  destruct (Nat.le_gt_cases 50 (List.length l)) as [H|H].
  - replace (50 <? Nat.min 50 (List.length l) + 1) with true
      by (symmetry; apply Nat.ltb_lt; lia).
    unfold lastN, Webhook.shift. rewrite length_app. cbn [List.length].
    replace (List.length l + 1 - 50) with (S (List.length l - 50)) by lia.
    rewrite skipn_app.
    replace (S (List.length l - 50) - List.length l) with 0 by lia.
    change (skipn 0 [m]) with [m].
    destruct (skipn (List.length l - 50) l) as [|x r] eqn:E.
    + apply (f_equal (@List.length Message.t)) in E. rewrite length_skipn in E.
      cbn in E. lia.
    + cbn [app tl]. rewrite skipn_succ_tl, E. reflexivity.
  - replace (50 <? Nat.min 50 (List.length l) + 1) with false
      by (symmetry; apply Nat.ltb_ge; lia).
    rewrite (lastN_short 50 l) by lia.
    rewrite lastN_short; [reflexivity|]. rewrite length_app. cbn. lia.
Qed.

Lemma received_snoc (messages : list Message.t) (m : Message.t) :
  received (messages ++ [m]) = Webhook.addToRecentMessages m (received messages).
Proof. unfold received. rewrite fold_left_app. reflexivity. Qed.

Lemma ofChat_snoc (chat : text) (messages : list Message.t) (m : Message.t) :
  ofChat chat (messages ++ [m])
  = ofChat chat messages ++ (if text_eqb (Message.chatId m) chat then [m] else []).
Proof. unfold ofChat. rewrite filter_app. reflexivity. Qed.

(** What the store holds for a chat: nothing before the first message of
    the chat, then the last 50 of its messages. *)
Lemma stored (messages : list Message.t) (chat : text) :
  JsMap.get chat (received messages)
  = match ofChat chat messages with
    | [] => None
    | l => Some (lastN 50 l)
    end.
Proof.
  induction messages as [|m messages IH] using rev_ind; [reflexivity|].
  rewrite received_snoc, ofChat_snoc. unfold Webhook.addToRecentMessages.
  destruct (text_eqb (Message.chatId m) chat) eqn:E.
  - apply ContextFacts.text_eqb_eq in E. subst chat.
    rewrite MapFacts.get_set_same, IH.
    assert (W : forall l, (if 50 <? List.length (lastN 50 l ++ [m])
                           then Webhook.shift (lastN 50 l ++ [m])
                           else lastN 50 l ++ [m])
                          = lastN 50 (l ++ [m])) by (intros l; apply window_step).
    destruct (ofChat (Message.chatId m) messages) as [|x l] eqn:O.
    + reflexivity.
    + rewrite W. destruct ((x :: l) ++ [m]) eqn:D; [discriminate|reflexivity].
  - rewrite app_nil_r.
    rewrite MapFacts.get_set_other; [exact IH|].
    intros ->. rewrite MapFacts.text_eqb_refl in E. discriminate.
Qed.

End StoreFacts.

(** X15. addToRecentMessages keeps a sliding window for each chat: after any
    sequence of messages has arrived, the store holds for a chat the last 50
    of its messages, in the order of arrival, and nothing for a chat without
    a message.  A list in the store is never empty and never longer than
    50. *)
Theorem webhook_store_keeps_the_last_fifty_per_chat :
  forall (messages : list Message.t) (chat : Js.text),
    JsMap.get chat (MapSpec.received messages)
    = match MapSpec.ofChat chat messages with
      | [] => None
      | l => Some (MapSpec.lastN 50 l)
      end
    /\ (forall kept,
          JsMap.get chat (MapSpec.received messages) = Some kept ->
          1 <= List.length kept <= 50
          /\ Forall (fun m => Message.chatId m = chat /\ In m messages) kept).
Proof.
  intros messages chat. pose proof (StoreFacts.stored messages chat) as S.
  split; [exact S|]. intros kept H. rewrite S in H.
  destruct (MapSpec.ofChat chat messages) as [|x l] eqn:O; [discriminate|].
  injection H as <-. split.
  - rewrite StoreFacts.lastN_length. cbn [List.length]. lia.
  - apply Forall_forall. intros m Hm. apply StoreFacts.in_lastN in Hm.
    rewrite <- O in Hm. unfold MapSpec.ofChat in Hm.
    apply filter_In in Hm as [Hm E]. apply ContextFacts.text_eqb_eq in E. tauto.
Qed.

(** X16. getRecentMessages of the webhook service returns, newest first,
    exactly the stored messages whose timestamp is not more than three days
    (259200 seconds) before the current second. *)
Theorem webhook_recent_messages_are_three_days_newest_first :
  forall (clock : Clock) (recentMessages : Webhook.Store),
    let threeDaysAgo := inject_Z (Z.of_N (clockMs clock / 1000) - 259200) in
    let recent := Webhook.getRecentMessages clock recentMessages in
    SummarySpec.newestFirst (map Message.timestamp recent)
    /\ (forall m,
          In m recent
          <-> (exists chatMessages,
                  In chatMessages (JsMap.values recentMessages) /\ In m chatMessages)
              /\ (threeDaysAgo <= Message.timestamp m)%Q).
Proof.
  intros clock store threeDaysAgo recent. split.
  - unfold recent, Webhook.getRecentMessages. cbv zeta.
    unfold SummarySpec.newestFirst.
    apply ArrFacts.sorted_map_in
      with (R := fun a b : Message.t => (Message.timestamp b <= Message.timestamp a)%Q);
      [intros a b _ _ H; exact H|].
    apply ArrFacts.sortBy_descending.
  - intros m. unfold recent, Webhook.getRecentMessages. cbv zeta.
    rewrite ArrFacts.sortBy_in, in_flat_map. split.
    + intros (l & Hl & H). apply filter_In in H as [H T].
      apply Qle_bool_iff in T. split; [exists l; tauto|exact T].
    + intros ((l & Hl & H) & T). exists l. split; [exact Hl|].
      apply filter_In. split; [exact H|]. apply Qle_bool_iff. exact T.
Qed.

(** ** The cache *)

Module CacheFacts.
Import Js Cache.

Section Entries.

Variable T : Type.

Lemma read_fresh (key : text) (value : T) (ttl now later readAt : N) (cache : t T) :
  (readAt <= later + ttl)%N ->
  getCache key readAt (setCache key value ttl now later cache)
  = (Some value, setCache key value ttl now later cache).
Proof.
  intros H. unfold getCache, setCache. rewrite MapFacts.get_set_same.
  unfold isExpired. cbn [expiry data].
  destruct (N.ltb_spec (later + ttl) readAt); [lia|reflexivity].
Qed.

Lemma read_expired (key : text) (value : T) (ttl now later readAt : N) (cache : t T) :
  (later + ttl < readAt)%N ->
  getCache key readAt (setCache key value ttl now later cache)
  = (None, JsMap.delete key (setCache key value ttl now later cache)).
Proof.
  intros H. unfold getCache, setCache. rewrite MapFacts.get_set_same.
  unfold isExpired. cbn [expiry data].
  destruct (N.ltb_spec (later + ttl) readAt); [reflexivity|lia].
Qed.

(** After a read that returned nothing the key is not in the cache. *)
Lemma miss_deletes (key : text) (now : N) (cache cache' : t T) :
  getCache key now cache = (None, cache') -> JsMap.get key cache' = None.
Proof.
  unfold getCache. destruct (JsMap.get key cache) as [entry|].
  - destruct (isExpired now entry); [|discriminate].
    intros H. injection H as <-. apply MapFacts.get_delete_same.
  - intros H. injection H as <-. apply MapFacts.get_delete_same.
Qed.

Lemma read_other (key other : text) (now : N) (cache : t T) :
  other <> key ->
  JsMap.get other (snd (getCache key now cache)) = JsMap.get other cache.
Proof.
  intros D. unfold getCache. destruct (JsMap.get key cache) as [entry|].
  - destruct (isExpired now entry); cbn [snd]; [|reflexivity].
    apply MapFacts.get_delete_other, D.
  - cbn [snd]. apply MapFacts.get_delete_other, D.
Qed.

End Entries.

End CacheFacts.

(** X17. An entry written by setCache is returned by getCache up to and
    including its expiry time, the time of writing plus the time to live,
    and the cache is left as it is; after that getCache returns null and
    deletes the entry.  Reading or writing a key leaves the entries of the
    other keys alone. *)
Theorem cache_entry_lives_for_its_time_to_live :
  forall (T : Type) (key : Js.text) (value : T) (ttl now later readAt : N)
         (cache : Cache.t T),
    let written := Cache.setCache key value ttl now later cache in
    ((readAt <= later + ttl)%N ->
     Cache.getCache key readAt written = (Some value, written))
    /\ ((later + ttl < readAt)%N ->
        fst (Cache.getCache key readAt written) = None
        /\ JsMap.get key (snd (Cache.getCache key readAt written)) = None)
    /\ (forall other,
          other <> key ->
          JsMap.get other written = JsMap.get other cache
          /\ JsMap.get other (snd (Cache.getCache key readAt written))
             = JsMap.get other cache).
Proof.
  intros T key value ttl now later readAt cache written. split; [|split].
  - apply CacheFacts.read_fresh.
  - intros H. unfold written. rewrite (CacheFacts.read_expired T key value ttl now later readAt cache H).
    cbn [fst snd]. split; [reflexivity|apply MapFacts.get_delete_same].
  - intros other D.
    assert (W : JsMap.get other written = JsMap.get other cache)
      by (apply MapFacts.get_set_other, D).
    split; [exact W|]. rewrite CacheFacts.read_other by exact D. exact W.
Qed.

(** An entry written at 1000 ms with the default time to live of a minute is
    read at 61000 ms and is gone at 61001 ms. *)
Lemma cache_entry_lives_for_its_time_to_live_witness :
  let written :=
    Cache.setCache (Js.u "k") 7 Cache.DEFAULT_TTL 1000 1000 JsMap.empty in
  Cache.getCache (Js.u "k") 61000 written = (Some 7, written)
  /\ fst (Cache.getCache (Js.u "k") 61001 written) = None.
Proof.
  intros written.
  destruct (cache_entry_lives_for_its_time_to_live
              nat (Js.u "k") 7 Cache.DEFAULT_TTL 1000 1000 61000 JsMap.empty)
    as (A & _).
  destruct (cache_entry_lives_for_its_time_to_live
              nat (Js.u "k") 7 Cache.DEFAULT_TTL 1000 1000 61001 JsMap.empty)
    as (_ & B & _).
  split; [apply A; reflexivity|]. apply B. reflexivity.
Defined.

(** X18. getChats and getLastThreeDaysMessages of the caching service never
    serve an expired entry.  When the request fails they do what the read of
    the cache alone does: return the entry that has not expired, or throw;
    the branch meant to fall back on stale data finds nothing, because the
    read has just deleted the expired entry.  When the request succeeds
    without a live entry, the fetched list is returned and cached, and
    served again without a request until it expires (five minutes for the
    chats, one minute for the messages).  This is a call running alone: no
    other call writes the cache while the request is awaited. *)
Theorem failed_request_never_serves_stale_data :
  forall (T : Type) (now setNow setLater : N) (cache : Cache.t (list T)),
    Cache.getChats None now setNow setLater cache
    = Cache.getCache (Cache.getCacheKey0 "getChats") now cache
    /\ Cache.getLastThreeDaysMessages None now setNow setLater cache
       = Cache.getCache (Cache.getCacheKey0 "getLastThreeDaysMessages") now cache
    /\ (forall items again next a b,
          fst (Cache.getCache (Cache.getCacheKey0 "getChats") now cache) = None ->
          (next <= setLater + Cache.CHATS_TTL)%N ->
          let first := Cache.getChats (Some items) now setNow setLater cache in
          fst first = Some items
          /\ Cache.getChats again next a b (snd first) = (Some items, snd first))
    /\ (forall items again next a b,
          fst (Cache.getCache (Cache.getCacheKey0 "getLastThreeDaysMessages") now cache)
          = None ->
          (next <= setLater + Cache.DEFAULT_TTL)%N ->
          let first :=
            Cache.getLastThreeDaysMessages (Some items) now setNow setLater cache in
          fst first = Some items
          /\ Cache.getLastThreeDaysMessages again next a b (snd first)
             = (Some items, snd first)).
Proof.
  intros T now setNow setLater cache.
  split; [|split; [|split]].
  - unfold Cache.getChats. cbv zeta.
    destruct (Cache.getCache _ now cache) as [[cached|] cache'] eqn:G; [reflexivity|].
    rewrite (CacheFacts.miss_deletes _ _ _ _ _ G). reflexivity.
  - unfold Cache.getLastThreeDaysMessages. cbv zeta.
    destruct (Cache.getCache _ now cache) as [[cached|] cache'] eqn:G; [reflexivity|].
    rewrite (CacheFacts.miss_deletes _ _ _ _ _ G). reflexivity.
  - intros items again next a b Miss Live first. unfold first, Cache.getChats. cbv zeta.
    destruct (Cache.getCache _ now cache) as [[cached|] cache'] eqn:G;
      [discriminate Miss|].
    cbn [fst snd]. split; [reflexivity|].
    rewrite (CacheFacts.read_fresh _ _ _ _ _ _ _ _ Live). reflexivity.
  - intros items again next a b Miss Live first.
    unfold first, Cache.getLastThreeDaysMessages. cbv zeta.
    destruct (Cache.getCache _ now cache) as [[cached|] cache'] eqn:G;
      [discriminate Miss|].
    cbn [fst snd]. split; [reflexivity|].
    rewrite (CacheFacts.read_fresh _ _ _ _ _ _ _ _ Live). reflexivity.
Qed.

(** ** Fetching the messages of the last three days *)

Module FetchFacts.
Import Js GreenApi FetchSpec.

Lemma trim_nil : trim [] = [].
Proof. reflexivity. Qed.

Lemma isRecent_iff (threeDaysAgo : Q) (msg : Message.t) :
  isRecent threeDaysAgo msg = true <-> recent threeDaysAgo msg.
Proof.
  unfold isRecent, recent. rewrite !andb_true_iff, Qle_bool_iff, Nat.ltb_lt.
  destruct (Message.text msg) as [|c s] eqn:E.
  - rewrite trim_nil. cbn. split; [intros [[_ H] _]; discriminate|tauto].
  - destruct (trim (c :: s)) as [|c' s'] eqn:T; cbn.
    + split; [lia|tauto].
    + split; [intros [[H _] _]; split; [exact H|discriminate]|].
      intros [H _]. repeat split; [exact H|lia].
Qed.

Lemma in_filterChats (includeGroupChats : bool) (chats : list Chat) (chat : Chat) :
  In chat (filterChats includeGroupChats chats)
  <-> In chat chats /\ wanted includeGroupChats chat.
Proof.
  unfold filterChats, wanted. destruct includeGroupChats.
  - tauto.
  - rewrite filter_In, negb_true_iff. split; [tauto|].
    intros [H [G|G]]; [discriminate|tauto].
Qed.

Lemma slice_from {A : Type} (i n : nat) (xs : list A) :
  slice i (i + n) xs = firstn n (skipn i xs).
Proof. unfold slice. replace (i + n - i) with n by lia. reflexivity. Qed.

Lemma firstn_plus {A : Type} (n m : nat) (xs : list A) :
  firstn (n + m) xs = firstn n xs ++ firstn m (skipn n xs).
Proof.
  revert xs. induction n as [|n IH]; intros [|x xs]; cbn; try reflexivity.
  - rewrite firstn_nil. reflexivity.
  - rewrite IH. reflexivity.
Qed.

Section Service.

Variable getChatHistory : text -> nat -> option (list Message.t).
Variable threeDaysAgo : Q.
Variable chats : list Chat.

Let process := batchPromise getChatHistory threeDaysAgo.

(** The batches from the [k]-th on read the chats from [5 k] up to 15. *)
Lemma batches_from (fuel k : nat) (acc : list Message.t) :
  k <= 3 -> 3 <= k + fuel ->
  batches getChatHistory fuel threeDaysAgo chats (batchSize * k) acc
  = acc ++ flat_map process (firstn (15 - batchSize * k) (skipn (batchSize * k) chats)).
Proof.
  revert k acc. induction fuel as [|fuel IH]; intros k acc K F.
  - assert (k = 3) as -> by lia. cbn. rewrite app_nil_r. reflexivity.
  - cbn [batches].
    destruct (Nat.ltb_spec (batchSize * k) (List.length chats)) as [L|L]; cbn [andb].
    + destruct (Nat.ltb_spec (batchSize * k) 15) as [B|B].
      * unfold batchSize in B.
        replace (batchSize * k + batchSize) with (batchSize * S k)
          by (unfold batchSize; lia).
        rewrite IH by lia.
        rewrite <- app_assoc. f_equal.
        replace (batchSize * S k) with (batchSize * k + batchSize)
          by (unfold batchSize; lia).
        rewrite slice_from.
        rewrite <- flat_map_concat_map. fold process.
        rewrite <- flat_map_app. f_equal.
        replace (batchSize * k + batchSize) with (batchSize + batchSize * k) by lia.
        rewrite <- skipn_skipn.
        replace (15 - batchSize * k)
          with (batchSize + (15 - (batchSize + batchSize * k)))
          by (unfold batchSize; lia).
        rewrite firstn_plus. reflexivity.
      * replace (15 - batchSize * k) with 0 by (unfold batchSize in *; lia).
        cbn. rewrite app_nil_r. reflexivity.
    + rewrite skipn_all2 by lia. rewrite firstn_nil. cbn.
      rewrite app_nil_r. reflexivity.
Qed.

End Service.

End FetchFacts.

(** X19. getLastThreeDaysMessages of GreenApiService fails only when the
    chats cannot be listed.  Otherwise it returns, newest first, exactly the
    messages that are recent (not older than three days, with a text that is
    not blank) in the 50-message history of one of the first 20 chats read;
    a chat with a blank id, or whose history cannot be fetched, contributes
    nothing, and a group chat is read only when group chats are included. *)
Theorem fetch_reads_recent_messages_of_first_twenty_chats :
  forall (getChatHistory : Js.text -> nat -> option (list Message.t))
         (chats : list GreenApi.Chat) (includeGroupChats : bool) (threeDaysAgo : Q),
    GreenApi.getLastThreeDaysMessages getChatHistory None includeGroupChats threeDaysAgo
    = None
    /\ exists result,
        GreenApi.getLastThreeDaysMessages getChatHistory (Some chats)
                                          includeGroupChats threeDaysAgo
        = Some result
        /\ SummarySpec.newestFirst (map Message.timestamp result)
        /\ (forall m,
              In m result
              <-> exists chat messages,
                  In chat (firstn 20 (GreenApi.filterChats includeGroupChats chats))
                  /\ Js.trim (GreenApi.chatId chat) <> []
                  /\ getChatHistory (GreenApi.chatId chat) 50 = Some messages
                  /\ In m messages
                  /\ FetchSpec.recent threeDaysAgo m)
        /\ (forall chat,
              In chat (GreenApi.filterChats includeGroupChats chats)
              <-> In chat chats /\ FetchSpec.wanted includeGroupChats chat).
Proof.
  intros hist chats inc t. split; [reflexivity|].
  eexists. split; [reflexivity|]. split; [|split].
  - unfold SummarySpec.newestFirst.
    apply ArrFacts.sorted_map_in
      with (R := fun a b : Message.t => (Message.timestamp b <= Message.timestamp a)%Q);
      [intros a b _ _ H; exact H|].
    apply ArrFacts.sortBy_descending.
  - intros m. rewrite ArrFacts.sortBy_in, in_flat_map. split.
    + intros (chat & C & H). exists chat.
      destruct (Js.trim (GreenApi.chatId chat)) as [|c s] eqn:T; [destruct H|].
      destruct (hist (GreenApi.chatId chat) 50) as [messages|] eqn:G; [|destruct H].
      exists messages. apply filter_In in H as [H R].
      apply FetchFacts.isRecent_iff in R.
      repeat split; try assumption; try discriminate; apply R.
    + intros (chat & messages & C & T & G & H & R). exists chat. split; [exact C|].
      destruct (Js.trim (GreenApi.chatId chat)) as [|c s]; [congruence|].
      rewrite G. apply filter_In. split; [exact H|].
      apply FetchFacts.isRecent_iff. exact R.
  - intros chat. apply FetchFacts.in_filterChats.
Qed.

(** X20. The rate-limited fetch of CachedGreenApiService reads the chats in
    batches of five and stops after three batches: its result is the recent
    messages of the 30-message histories of the first 15 chats read, taken
    chat by chat in order and then sorted newest first.  Three days ago is
    counted from the clock in seconds. *)
Theorem rate_limited_fetch_reads_first_fifteen_chats :
  forall (getChatHistory : Js.text -> nat -> option (list Message.t))
         (chats : list GreenApi.Chat) (includeGroupChats : bool) (clock : Clock),
    let threeDaysAgo := (inject_Z (Z.of_N (clockMs clock)) / 1000 - 259200)%Q in
    GreenApi.getLastThreeDaysMessagesWithRateLimit getChatHistory (Some chats)
                                                   includeGroupChats clock
    = Some (Arr.sortBy
              (fun a b => Qle_bool (Message.timestamp b) (Message.timestamp a))
              (flat_map (GreenApi.batchPromise getChatHistory threeDaysAgo)
                        (firstn 15 (GreenApi.filterChats includeGroupChats chats))))
    /\ (forall m,
          In m (flat_map (GreenApi.batchPromise getChatHistory threeDaysAgo)
                         (firstn 15 (GreenApi.filterChats includeGroupChats chats)))
          <-> exists chat messages,
              In chat (firstn 15 (GreenApi.filterChats includeGroupChats chats))
              /\ getChatHistory (GreenApi.chatId chat) 30 = Some messages
              /\ In m messages
              /\ FetchSpec.recent threeDaysAgo m).
Proof.
  intros hist chats inc clock t. split.
  - unfold GreenApi.getLastThreeDaysMessagesWithRateLimit. cbv zeta. do 2 f_equal.
    change 0 with (GreenApi.batchSize * 0).
    rewrite FetchFacts.batches_from by lia. reflexivity.
  - intros m. rewrite in_flat_map. split.
    + intros (chat & C & H). exists chat. unfold GreenApi.batchPromise in H.
      destruct (hist (GreenApi.chatId chat) 30) as [messages|] eqn:G; [|destruct H].
      exists messages. apply filter_In in H as [H R].
      apply FetchFacts.isRecent_iff in R. tauto.
    + intros (chat & messages & C & G & H & R). exists chat. split; [exact C|].
      unfold GreenApi.batchPromise. rewrite G. apply filter_In. split; [exact H|].
      apply FetchFacts.isRecent_iff. exact R.
Qed.
